(** * CVTOOLS front end: component registry, plugin system, configuration
      manager, extensible registry and theme engine

    A shallow embedding of the TypeScript sources

    - [frontend/src/types/portfolio.ts] (the enumerations and
      [ComponentConfig])
    - [frontend/src/lib/theme-engine.ts]
    - [frontend/src/lib/component-registry.ts]
    - [frontend/src/lib/component-config-manager.ts]
    - [frontend/src/lib/component-plugin-system.ts]
    - [frontend/src/lib/extensible-registry.ts]
    - [prepareComponentProps] of the portfolio renderer

    followed by the properties of the specification that concern them.
    JavaScript objects used as dictionaries and [Map]s keyed by strings are
    finite maps ([gmap string _]); arrays are lists; the mutable singletons
    are records passed to and returned by the operations; what a function
    writes to the console, where it matters, is part of its result. *)

From Stdlib Require Import QArith Ascii String.
From stdpp Require Import base option list strings pretty gmap.

Open Scope string_scope.

Set Warnings "-register-all".

(* ===================================================================== *)
(** ** The JavaScript values the code inspects *)
(* ===================================================================== *)

Module Js.

(** A [number]. Finite doubles are rationals; the code only compares
    them with [0] and with each other. *)
Inductive Number :=
| Finite (q : Q)
| NaN
| PosInfinity
| NegInfinity.

(** An untyped value ([unknown]). Arrays, objects and functions carry
    the identity of the heap cell they live in: two of them are the same
    value only when they are the same cell. *)
Inductive Value :=
| Undefined
| Null
| Bool (b : bool)
| Num (n : Number)
| Str (s : string)
| Array (ref : nat) (elems : list Value)
| Object (ref : nat) (fields : list (string * Value))
| Function (ref : nat).

(** [typeof v] *)
Definition typeof (v : Value) : string :=
  match v with
  | Undefined => "undefined"
  | Null => "object"
  | Bool _ => "boolean"
  | Num _ => "number"
  | Str _ => "string"
  | Array _ _ => "object"
  | Object _ _ => "object"
  | Function _ => "function"
  end.

(** [ToBoolean]: what [!v], [v && ...] and [v || ...] look at. *)
Definition truthy (v : Value) : bool :=
  match v with
  | Undefined | Null => false
  | Bool b => b
  | Num (Finite q) => negb (Qeq_bool q 0)
  | Num NaN => false
  | Num _ => true
  | Str s => negb (String.eqb s "")
  | Array _ _ | Object _ _ | Function _ => true
  end.

(** [Array.isArray(v)] *)
Definition isArray (v : Value) : bool :=
  match v with Array _ _ => true | _ => false end.

(** [n < 0] on numbers; every comparison with [NaN] is false. *)
Definition number_lt0 (n : Number) : bool :=
  match n with
  | Finite q => negb (Qle_bool 0 q)
  | NegInfinity => true
  | NaN | PosInfinity => false
  end.

(** [Number.isInteger(n)] *)
Definition number_isInteger (n : Number) : bool :=
  match n with
  | Finite q => Pos.eqb (Qden (Qred q)) 1
  | _ => false
  end.

Definition number_eq (a b : Number) : bool :=
  match a, b with
  | Finite p, Finite q => Qeq_bool p q
  | NaN, NaN => true
  | PosInfinity, PosInfinity => true
  | NegInfinity, NegInfinity => true
  | _, _ => false
  end.

(** SameValueZero, the equality of [Set.prototype.has]: [NaN] equals
    itself, [+0] equals [-0], cells are compared by identity. *)
Definition sameValueZero (a b : Value) : bool :=
  match a, b with
  | Undefined, Undefined => true
  | Null, Null => true
  | Bool x, Bool y => Bool.eqb x y
  | Num x, Num y => number_eq x y
  | Str x, Str y => String.eqb x y
  | Array r _, Array r' _ => Nat.eqb r r'
  | Object r _, Object r' _ => Nat.eqb r r'
  | Function r, Function r' => Nat.eqb r r'
  | _, _ => false
  end.

(** The conversion a template literal [`${v}`] applies to [v]. It belongs
    to the language runtime (number formatting, [toString] methods); the
    code is modelled over any such conversion that leaves strings as they
    are. *)
Class Runtime := {
  ToString : Value -> string;
  ToString_Str : forall s, ToString (Str s) = s
}.

(** The double quote character, for messages that contain one. *)
Definition dquote : string := String (ascii_of_nat 34) EmptyString.

(** [xs.includes(x)] on an array of strings. *)
Definition array_includes (xs : list string) (x : string) : bool :=
  existsb (String.eqb x) xs.

(** [hay.includes(needle)] on strings. *)
Fixpoint includes (hay needle : string) : bool :=
  String.prefix needle hay ||
  match hay with
  | EmptyString => false
  | String _ rest => includes rest needle
  end.

Definition lower_ascii (c : ascii) : ascii :=
  let n := nat_of_ascii c in
  if (65 <=? n)%nat && (n <=? 90)%nat then ascii_of_nat (n + 32) else c.

(** [s.toLowerCase()], on the ASCII letters the messages are made of. *)
Fixpoint toLowerCase (s : string) : string :=
  match s with
  | EmptyString => EmptyString
  | String c rest => String (lower_ascii c) (toLowerCase rest)
  end.

(** "the message mentions [word]", whatever the case of its letters. *)
Definition mentions (msg word : string) : bool :=
  includes (toLowerCase msg) (toLowerCase word).

(** [xs.join(sep)] *)
Fixpoint join (sep : string) (xs : list string) : string :=
  match xs with
  | [] => ""
  | [x] => x
  | x :: rest => x +:+ sep +:+ join sep rest
  end.

(** A runtime to run the examples on. It prints the primitive values as
    the language does, integers included; a number that is not an integer
    is written as a quotient, an array as the list of its elements, an
    object and a function by a fixed text. *)
Definition printNumber (n : Number) : string :=
  match n with
  | Finite q =>
      if Pos.eqb (Qden (Qred q)) 1 then pretty (Qnum (Qred q))
      else pretty (Qnum (Qred q)) +:+ "/" +:+ pretty (Z.pos (Qden (Qred q)))
  | NaN => "NaN"
  | PosInfinity => "Infinity"
  | NegInfinity => "-Infinity"
  end.

Fixpoint printValue (v : Value) : string :=
  match v with
  | Undefined => "undefined"
  | Null => "null"
  | Bool true => "true"
  | Bool false => "false"
  | Num n => printNumber n
  | Str s => s
  | Array _ elems =>
      join ","
        (map (fun e => match e with
                       | Undefined | Null => ""
                       | _ => printValue e
                       end) elems)
  | Object _ _ => "[object Object]"
  | Function _ => "function () { [native code] }"
  end.

Definition exampleRuntime : Runtime :=
  {| ToString := printValue; ToString_Str := fun _ => eq_refl |}.

End Js.

(* ===================================================================== *)
(** ** types/portfolio.ts: the enumerations *)
(* ===================================================================== *)

(** String enums are their string values at run time; a table typed
    [Record<Enum, T>] is an object keyed by those strings. *)

(** [enum ComponentType]: the core component identifiers. *)
Module ComponentType.
Definition HERO_PRISM : string := "tool_hero_prism".
Definition HERO_TERMINAL : string := "tool_hero_terminal".
Definition EXP_TIMELINE : string := "tool_exp_timeline".
Definition EXP_MASONRY : string := "tool_exp_masonry".
Definition SKILLS_DOTS : string := "tool_skills_dots".
Definition SKILLS_RADAR : string := "tool_skills_radar".
Definition STATS_BENTO : string := "tool_stats_bento".

(** [Object.values(ComponentType)] *)
Definition values : list string :=
  [HERO_PRISM; HERO_TERMINAL; EXP_TIMELINE; EXP_MASONRY;
   SKILLS_DOTS; SKILLS_RADAR; STATS_BENTO].
End ComponentType.

(** [enum ThemePalette] *)
Module ThemePalette.
Definition NEON_BLUE : string := "neon_blue".
Definition EMERALD_GREEN : string := "emerald_green".
Definition CYBER_PINK : string := "cyber_pink".

Definition values : list string := [NEON_BLUE; EMERALD_GREEN; CYBER_PINK].
End ThemePalette.

(** [enum HeroTheme] *)
Module HeroTheme.
Definition values : list string :=
  ["ocean"; "sunset"; "forest"; "matrix"; "cyberpunk"; "minimal"].

(** [Object.values(HeroTheme).includes(v)], on any value. *)
Definition includes (v : Js.Value) : bool :=
  match v with
  | Js.Str s => Js.array_includes values s
  | _ => false
  end.
End HeroTheme.

(* ===================================================================== *)
(** ** theme-engine.ts *)
(* ===================================================================== *)

Module ThemeEngine.

Record ThemeColors := {
  primary : string;
  secondary : string;
  accent : string;
  glow : string
}.

Record ThemeDefinition := {
  name : string;
  displayName : string;
  colors : ThemeColors;
  cssClass : string
}.

(** [THEME_DEFINITIONS]: an object with one property per palette. *)
Definition THEME_DEFINITIONS : gmap string ThemeDefinition :=
  list_to_map [
    (ThemePalette.NEON_BLUE,
     {| name := ThemePalette.NEON_BLUE;
        displayName := "Neon Blue";
        colors := {| primary := "#00d4ff"; secondary := "#0099cc";
                     accent := "#66e0ff"; glow := "rgba(0, 212, 255, 0.3)" |};
        cssClass := "theme-neon-blue" |});
    (ThemePalette.EMERALD_GREEN,
     {| name := ThemePalette.EMERALD_GREEN;
        displayName := "Emerald Green";
        colors := {| primary := "#00ff88"; secondary := "#00cc6a";
                     accent := "#66ffaa"; glow := "rgba(0, 255, 136, 0.3)" |};
        cssClass := "theme-emerald-green" |});
    (ThemePalette.CYBER_PINK,
     {| name := ThemePalette.CYBER_PINK;
        displayName := "Cyber Pink";
        colors := {| primary := "#ff0080"; secondary := "#cc0066";
                     accent := "#ff66b3"; glow := "rgba(255, 0, 128, 0.3)" |};
        cssClass := "theme-cyber-pink" |})
  ].

Definition DEFAULT_THEME : string := ThemePalette.NEON_BLUE.

(** [isValidTheme(theme: unknown)] *)
Definition isValidTheme (theme : Js.Value) : bool :=
  String.eqb (Js.typeof theme) "string" &&
  match theme with
  | Js.Str s => Js.array_includes ThemePalette.values s
  | _ => false
  end.

(** [getThemeDefinition(theme)]: the property read (which is
    [undefined], here [None], for a key the object lacks) and the lines
    written to the console. *)
Definition getThemeDefinition (theme : string)
  : option ThemeDefinition * list string :=
  if isValidTheme (Js.Str theme) then (THEME_DEFINITIONS !! theme, [])
  else (THEME_DEFINITIONS !! DEFAULT_THEME,
        ["Invalid theme " +:+ Js.dquote +:+ theme +:+ Js.dquote +:+
         ", falling back to default"]).

(** A definition is fully populated when its four colors and its CSS
    class are non-empty strings. *)
Definition populated (d : ThemeDefinition) : Prop :=
  primary (colors d) <> "" /\ secondary (colors d) <> "" /\
  accent (colors d) <> "" /\ glow (colors d) <> "" /\ cssClass d <> "".

(** *** The engine and the host's task queues

    Listeners are callbacks of the host application; a listener is known
    by its identity, and of its body only whether it throws (and what
    the thrown value prints as) matters to the engine. *)

Definition Listener := nat.

(** What is waiting in the host: callbacks passed to
    [requestAnimationFrame] and to [queueMicrotask]. *)
Inductive FrameCallback :=
| ApplyDefinition (definition : option ThemeDefinition).

Inductive Microtask :=
| NotifyListeners (validTheme : string).

Record World := {
  currentTheme : string;              (* this.currentTheme *)
  listeners : list Listener;          (* this.listeners, a Set *)
  hasDocument : bool;                 (* typeof document !== "undefined" *)
  frames : list FrameCallback;        (* pending animation-frame callbacks *)
  microtasks : list Microtask;        (* pending microtasks *)
  calls : list (Listener * string);   (* listener invocations so far *)
  console : list string
}.

(** [new ThemeEngine()] in a host *)
Definition init (document : bool) : World :=
  {| currentTheme := DEFAULT_THEME; listeners := []; hasDocument := document;
     frames := []; microtasks := []; calls := []; console := [] |}.

Definition getTheme (w : World) : string := currentTheme w.

(** [applyGlobalTheme(theme)] *)
Definition applyGlobalTheme (theme : string) (w : World) : World :=
  if negb (hasDocument w) then w
  else
    let '(definition, warned) := getThemeDefinition theme in
    {| currentTheme := currentTheme w; listeners := listeners w;
       hasDocument := hasDocument w;
       frames := frames w ++ [ApplyDefinition definition];
       microtasks := microtasks w; calls := calls w;
       console := console w ++ warned |}.

(** [queueMicrotask(callback)] *)
Definition queueMicrotask (t : Microtask) (w : World) : World :=
  {| currentTheme := currentTheme w; listeners := listeners w;
     hasDocument := hasDocument w; frames := frames w;
     microtasks := microtasks w ++ [t]; calls := calls w;
     console := console w |}.

(** [setTheme(theme)] *)
Definition setTheme (theme : string) (w : World) : World :=
  let validTheme := if isValidTheme (Js.Str theme) then theme else DEFAULT_THEME in
  if String.eqb validTheme (currentTheme w) then w (* no change needed *)
  else
    let w1 :=
      {| currentTheme := validTheme; listeners := listeners w;
         hasDocument := hasDocument w; frames := frames w;
         microtasks := microtasks w; calls := calls w;
         console := console w |} in
    let w2 := applyGlobalTheme validTheme w1 in
    queueMicrotask (NotifyListeners validTheme) w2.

(** [subscribe(listener)] and the function it returns *)
Definition subscribe (l : Listener) (w : World) : World :=
  {| currentTheme := currentTheme w;
     listeners := if existsb (Nat.eqb l) (listeners w) then listeners w
                  else listeners w ++ [l];
     hasDocument := hasDocument w; frames := frames w;
     microtasks := microtasks w; calls := calls w; console := console w |}.

Definition unsubscribe (l : Listener) (w : World) : World :=
  {| currentTheme := currentTheme w;
     listeners := filter (fun l' => l' <> l) (listeners w);
     hasDocument := hasDocument w; frames := frames w;
     microtasks := microtasks w; calls := calls w; console := console w |}.

Section Notification.
(** [throws l theme] is [Some e] when listener [l], called with
    [theme], throws a value that prints as [e]. *)
Variable throws : Listener -> string -> option string.

(** The body of the callback given to [queueMicrotask]:
    [this.listeners.forEach(listener => try { listener(validTheme) }
    catch (error) { console.error(...) })]. *)
Definition notify (validTheme : string) (w : World) : World :=
  {| currentTheme := currentTheme w; listeners := listeners w;
     hasDocument := hasDocument w; frames := frames w;
     microtasks := microtasks w;
     calls := calls w ++ map (fun l => (l, validTheme)) (listeners w);
     console := console w ++
       omap (fun l => (fun e => "Theme listener error: " +:+ e) <$> throws l validTheme)
            (listeners w) |}.

(** The host runs the oldest pending microtask, once the synchronous
    code that queued it has returned. *)
Definition runMicrotask (w : World) : World :=
  match microtasks w with
  | [] => w
  | NotifyListeners validTheme :: rest =>
      notify validTheme
        {| currentTheme := currentTheme w; listeners := listeners w;
           hasDocument := hasDocument w; frames := frames w;
           microtasks := rest; calls := calls w; console := console w |}
  end.

(** The microtask checkpoint: the host runs the pending microtasks,
    oldest first, until none is left. *)
Definition runMicrotasks (w : World) : World :=
  Nat.iter (length (microtasks w)) runMicrotask w.
End Notification.

(** The invocations a pending microtask makes when it runs. *)
Definition invocations (ls : list Listener) (t : Microtask) : list (Listener * string) :=
  match t with
  | NotifyListeners v => map (fun l => (l, v)) ls
  end.

(** The theme [setTheme(theme)] settles on. *)
Definition validated (theme : string) : string :=
  if isValidTheme (Js.Str theme) then theme else DEFAULT_THEME.

(** *** The rest of theme-engine.ts *)

(** [THEME_CSS_VARIABLES] *)
Definition THEME_CSS_VARIABLES : ThemeColors :=
  {| primary := "--theme-primary"; secondary := "--theme-secondary";
     accent := "--theme-accent"; glow := "--theme-glow" |}.

(** [getAvailableThemes()]: the values of [THEME_DEFINITIONS], in the
    order of its keys. *)
Definition getAvailableThemes : list ThemeDefinition :=
  omap (fun palette => THEME_DEFINITIONS !! palette) ThemePalette.values.

(** [ensureValidTheme(theme: unknown)] *)
Definition ensureValidTheme (theme : Js.Value) : string :=
  match theme with
  | Js.Str s => if isValidTheme theme then s else DEFAULT_THEME
  | _ => DEFAULT_THEME
  end.

(** [getThemeClass(theme: unknown)]; [None] stands for the failure of
    reading [cssClass] off a missing definition. *)
Definition getThemeClass (theme : Js.Value) : option string :=
  cssClass <$> THEME_DEFINITIONS !! ensureValidTheme theme.

(** [validateThemeProp(theme: unknown)], with what it writes to the
    console *)
Definition validateThemeProp (theme : Js.Value) : string * list string :=
  if isValidTheme theme then (ensureValidTheme theme, [])
  else
    match theme with
    | Js.Str s =>
        if Nat.ltb 0 (String.length s)
        then (DEFAULT_THEME,
              ["Invalid theme prop " +:+ Js.dquote +:+ s +:+ Js.dquote +:+
               ", using default theme"])
        else (DEFAULT_THEME, [])
    | _ => (DEFAULT_THEME, [])
    end.

(** [Partial<ThemeColors>] *)
Record PartialColors := {
  primary' : option string;
  secondary' : option string;
  accent' : option string;
  glow' : option string
}.

(** [mergeThemeOverrides(baseTheme, overrides)]: [{...definition.colors,
    ...overrides}]; an omitted [overrides] spreads like the empty object. *)
Definition mergeThemeOverrides (baseTheme : string) (overrides : option PartialColors)
  : option ThemeColors :=
  (fun definition =>
     let base := colors definition in
     match overrides with
     | None => base
     | Some o =>
         {| primary := default (primary base) (primary' o);
            secondary := default (secondary base) (secondary' o);
            accent := default (accent base) (accent' o);
            glow := default (glow base) (glow' o) |}
     end) <$> fst (getThemeDefinition baseTheme).

(** [ThemeEngine.prototype.getThemeDefinition()]:
    [THEME_DEFINITIONS[this.currentTheme]] *)
Definition engineThemeDefinition (w : World) : option ThemeDefinition :=
  THEME_DEFINITIONS !! currentTheme w.

(** The part of [document.documentElement] the engine reads and writes:
    its class list (a set of tokens, in order) and its inline style. *)
Record Root := {
  classList : list string;
  style : gmap string string
}.

(** [classList.remove(token)] and [classList.add(token)] *)
Definition classListRemove (token : string) (classes : list string) : list string :=
  List.filter (fun c => negb (String.eqb c token)) classes.

Definition classListAdd (token : string) (classes : list string) : list string :=
  if Js.array_includes classes token then classes else (classes ++ [token])%list.

(** What the callback that [applyGlobalTheme] hands to
    [requestAnimationFrame] does to the root when the host runs it: it
    removes the class of every theme, adds the class of the definition
    and sets the four CSS variables. *)
Definition runFrame (cb : FrameCallback) (root : Root) : Root :=
  match cb with
  | ApplyDefinition (Some definition) =>
      let classes :=
        foldl (fun classes def => classListRemove (cssClass def) classes)
              (classList root) getAvailableThemes in
      {| classList := classListAdd (cssClass definition) classes;
         style :=
           <[glow THEME_CSS_VARIABLES := glow (colors definition)]>
           (<[accent THEME_CSS_VARIABLES := accent (colors definition)]>
           (<[secondary THEME_CSS_VARIABLES := secondary (colors definition)]>
           (<[primary THEME_CSS_VARIABLES := primary (colors definition)]>
              (style root)))) |}
  | ApplyDefinition None => root (* not reached: a definition is always found *)
  end.

(** [getCurrentTheme()]; [None] is the absence of a document. *)
Definition getCurrentTheme (root : option Root) : string :=
  match root with
  | None => DEFAULT_THEME
  | Some root =>
      default DEFAULT_THEME
        (List.find
           (fun palette =>
              match THEME_DEFINITIONS !! palette with
              | Some definition => Js.array_includes (classList root) (cssClass definition)
              | None => false
              end)
           ThemePalette.values)
  end.

(** [initialize()], in a host whose document has the root given *)
Definition initialize (root : Root) (w : World) : World :=
  if negb (hasDocument w) then w
  else
    applyGlobalTheme (getCurrentTheme (Some root))
      {| currentTheme := getCurrentTheme (Some root); listeners := listeners w;
         hasDocument := hasDocument w; frames := frames w;
         microtasks := microtasks w; calls := calls w; console := console w |}.

(** What a client of the engine may do, and the host running one pending
    microtask. *)
Inductive Step :=
| SetTheme (theme : string)
| Subscribe (l : Listener)
| Unsubscribe (l : Listener)
| Initialize (root : Root)
| RunMicrotask.

Definition step (throws : Listener -> string -> option string) (s : Step) (w : World)
  : World :=
  match s with
  | SetTheme theme => setTheme theme w
  | Subscribe l => subscribe l w
  | Unsubscribe l => unsubscribe l w
  | Initialize root => initialize root w
  | RunMicrotask => runMicrotask throws w
  end.

Definition steps (throws : Listener -> string -> option string) (ss : list Step)
    (w : World) : World :=
  foldl (fun w s => step throws s w) w ss.

End ThemeEngine.

(* ===================================================================== *)
(** ** component-registry.ts *)
(* ===================================================================== *)

(** The types the registries share. *)
Module Types.

(** A renderer (a React component) is opaque: the built-in ones are named,
  any other is known by its identity. *)
Inductive Renderer :=
| HeroPrism | HeroTerminal | ExpTimeline | ExpMasonry
| SkillDots | SkillRadar | BentoGrid
| CustomRenderer (ref : nat).

Record ComponentMetadata := {
name : string;
description : string;
category : string;      (* "hero" | "experience" | "skills" | "stats" *)
requiredProps : list string;
optionalProps : list string
}.

Record ValidationResult := {
valid : bool;
errors : list string;
warnings : list string
}.

(** [Record<string, unknown>] *)
Abbreviation Props := (gmap string Js.Value).

(** [props.key], [undefined] when the bag has no such property *)
Definition prop (props : Props) (key : string) : Js.Value :=
default Js.Undefined (props !! key).

(** [ComponentConfig], with [order] as it may arrive from upstream *)
Record ComponentConfig := {
type : string;
props : Props;
order : Js.Value;
theme : option string
}.

Record RegistryEntry := {
component : Renderer;
metadata : ComponentMetadata;
validateProps : Props -> ValidationResult
}.

End Types.
Import Types.

Module ComponentRegistry.

(** [isValidComponentType(type)] *)
Definition isValidComponentType (type : string) : bool :=
  Js.array_includes ComponentType.values type.

Section Validators.
Context {rt : Js.Runtime}.

(** [!v || typeof v !== "string"] *)
Definition notAString (v : Js.Value) : bool :=
  negb (Js.truthy v) || negb (String.eqb (Js.typeof v) "string").

(** [!v || !Array.isArray(v)] *)
Definition notAnArray (v : Js.Value) : bool :=
  negb (Js.truthy v) || negb (Js.isArray v).

(** [v.length] of an array *)
Definition arrayLength (v : Js.Value) : nat :=
  match v with Js.Array _ elems => length elems | _ => 0 end.

Definition pushIf (cond : bool) (msg : string) (acc : list string) : list string :=
  if cond then (acc ++ [msg])%list else acc.

Definition result (errors warnings : list string) : ValidationResult :=
  {| valid := Nat.eqb (length errors) 0; errors := errors; warnings := warnings |}.

Definition validateHeroPrism (props : Props) : ValidationResult :=
  let errors := [] in
  let warnings := [] in
  let errors := pushIf (notAString (prop props "name"))
                  "HeroPrism requires 'name' prop of type string" errors in
  let errors := pushIf (notAString (prop props "title"))
                  "HeroPrism requires 'title' prop of type string" errors in
  let warnings :=
    pushIf (Js.truthy (prop props "theme") && negb (HeroTheme.includes (prop props "theme")))
      ("Invalid theme '" +:+ Js.ToString (prop props "theme") +:+
       "', will use default 'ocean'") warnings in
  result errors warnings.

Definition validateHeroTerminal (props : Props) : ValidationResult :=
  let errors := [] in
  let warnings := [] in
  let errors := pushIf (notAString (prop props "name"))
                  "HeroTerminal requires 'name' prop of type string" errors in
  let errors := pushIf (notAString (prop props "title"))
                  "HeroTerminal requires 'title' prop of type string" errors in
  let errors := pushIf (notAnArray (prop props "commands"))
                  "HeroTerminal requires 'commands' prop of type string[]" errors in
  let warnings :=
    pushIf (Js.truthy (prop props "theme") && negb (HeroTheme.includes (prop props "theme")))
      ("Invalid theme '" +:+ Js.ToString (prop props "theme") +:+
       "', will use default 'matrix'") warnings in
  result errors warnings.

(** The shape shared by the validators of the list-valued components:
    [if (!v || !Array.isArray(v)) errors.push(missing)
     else if (v.length === 0) warnings.push(empty)
     else if (v.length < few) warnings.push(fewMsg)],
    the last branch being there for [SkillRadar] only. *)
Definition validateList (key missing empty : string)
    (few : option (nat * string)) (props : Props) : ValidationResult :=
  let v := prop props key in
  if notAnArray v then result [missing] []
  else if Nat.eqb (arrayLength v) 0 then result [] [empty]
  else match few with
       | Some (n, fewMsg) =>
           if Nat.ltb (arrayLength v) n then result [] [fewMsg] else result [] []
       | None => result [] []
       end.

Definition validateExpTimeline : Props -> ValidationResult :=
  validateList "experiences"
    "ExpTimeline requires 'experiences' prop of type Experience[]"
    "ExpTimeline received empty experiences array" None.

Definition validateExpMasonry : Props -> ValidationResult :=
  validateList "experiences"
    "ExpMasonry requires 'experiences' prop of type Experience[]"
    "ExpMasonry received empty experiences array" None.

Definition validateSkillDots : Props -> ValidationResult :=
  validateList "skills"
    "SkillDots requires 'skills' prop of type Skill[]"
    "SkillDots received empty skills array" None.

Definition validateSkillRadar : Props -> ValidationResult :=
  validateList "skills"
    "SkillRadar requires 'skills' prop of type Skill[]"
    "SkillRadar received empty skills array"
    (Some (3, "SkillRadar works best with at least 3 skills for radar visualization")).

Definition validateBentoGrid : Props -> ValidationResult :=
  validateList "achievements"
    "BentoGrid requires 'achievements' prop of type Achievement[]"
    "BentoGrid received empty achievements array" None.

(** [propValidators] *)
Definition propValidators : gmap string (Props -> ValidationResult) :=
  list_to_map [
    (ComponentType.HERO_PRISM, validateHeroPrism);
    (ComponentType.HERO_TERMINAL, validateHeroTerminal);
    (ComponentType.EXP_TIMELINE, validateExpTimeline);
    (ComponentType.EXP_MASONRY, validateExpMasonry);
    (ComponentType.SKILLS_DOTS, validateSkillDots);
    (ComponentType.SKILLS_RADAR, validateSkillRadar);
    (ComponentType.STATS_BENTO, validateBentoGrid)
  ].
End Validators.

(** [componentMetadata] *)
Definition componentMetadata : gmap string ComponentMetadata :=
  list_to_map [
    (ComponentType.HERO_PRISM,
     {| name := "HeroPrism";
        description := "Liquid glass hero section with interactive cursor effects";
        category := "hero";
        requiredProps := ["name"; "title"];
        optionalProps := ["theme"; "subtitle"; "contact"] |});
    (ComponentType.HERO_TERMINAL,
     {| name := "HeroTerminal";
        description := "Terminal-style hero section with typewriter effects";
        category := "hero";
        requiredProps := ["name"; "title"; "commands"];
        optionalProps := ["theme"] |});
    (ComponentType.EXP_TIMELINE,
     {| name := "ExpTimeline";
        description := "Vertical timeline layout with connected experience cards";
        category := "experience";
        requiredProps := ["experiences"];
        optionalProps := ["theme"] |});
    (ComponentType.EXP_MASONRY,
     {| name := "ExpMasonry";
        description := "Staggered grid layout for creative portfolios";
        category := "experience";
        requiredProps := ["experiences"];
        optionalProps := ["projects"; "theme"] |});
    (ComponentType.SKILLS_DOTS,
     {| name := "SkillDots";
        description := "1-5 glowing neon dot skill indicators";
        category := "skills";
        requiredProps := ["skills"];
        optionalProps := ["maxLevel"; "theme"] |});
    (ComponentType.SKILLS_RADAR,
     {| name := "SkillRadar";
        description := "Hexagonal spider chart for comprehensive skills";
        category := "skills";
        requiredProps := ["skills"];
        optionalProps := ["theme"] |});
    (ComponentType.STATS_BENTO,
     {| name := "BentoGrid";
        description := "Achievement statistics in bento box layout";
        category := "stats";
        requiredProps := ["achievements"];
        optionalProps := ["theme"] |})
  ].

(** [COMPONENT_MAP] *)
Definition COMPONENT_MAP : gmap string Renderer :=
  list_to_map [
    (ComponentType.HERO_PRISM, HeroPrism);
    (ComponentType.HERO_TERMINAL, HeroTerminal);
    (ComponentType.EXP_TIMELINE, ExpTimeline);
    (ComponentType.EXP_MASONRY, ExpMasonry);
    (ComponentType.SKILLS_DOTS, SkillDots);
    (ComponentType.SKILLS_RADAR, SkillRadar);
    (ComponentType.STATS_BENTO, BentoGrid)
  ].

(** [FALLBACK_COMPONENTS] *)
Definition FALLBACK_COMPONENTS : gmap string string :=
  list_to_map [
    ("hero", ComponentType.HERO_PRISM);
    ("experience", ComponentType.EXP_TIMELINE);
    ("skills", ComponentType.SKILLS_DOTS);
    ("stats", ComponentType.STATS_BENTO)
  ].

(** The exported [getFallbackComponent(category)] *)
Definition getFallbackComponent (category : string) : option Renderer :=
  FALLBACK_COMPONENTS !! category ≫= fun fallbackType => COMPONENT_MAP !! fallbackType.

Section Registry.
Context {rt : Js.Runtime}.

(** [initializeRegistry()]: one [registry.set] per core identifier. The
    three tables are typed [Record<ComponentType, _>], so each read
    finds its entry (lemma [tables_complete] below). *)
Definition initializeRegistry : gmap string RegistryEntry :=
  foldl (fun registry type =>
           match COMPONENT_MAP !! type, componentMetadata !! type,
                 propValidators !! type with
           | Some c, Some m, Some v =>
               <[type := {| component := c; metadata := m; validateProps := v |}]> registry
           | _, _, _ => registry
           end)
        ∅ ComponentType.values.

(** [this.registry] of the singleton; the class has no method that
    writes to it after construction. *)
Definition registry : gmap string RegistryEntry := initializeRegistry.

(** [getComponent(type)], with what it writes to the console *)
Definition getComponent (type : string) : option Renderer * list string :=
  if negb (isValidComponentType type)
  then (None, ["Unknown component type: " +:+ type])
  else (component <$> registry !! type, []).

(** [getMetadata(type)] *)
Definition getMetadata (type : string) : option ComponentMetadata :=
  if negb (isValidComponentType type) then None
  else metadata <$> registry !! type.

(** [validateProps(type, props)] *)
Definition validateProps (type : string) (props : Props) : ValidationResult :=
  if negb (isValidComponentType type) then
    {| valid := false; errors := ["Unknown component type: " +:+ type];
       warnings := [] |}
  else match registry !! type with
       | None =>
           {| valid := false;
              errors := ["Component not found in registry: " +:+ type];
              warnings := [] |}
       | Some entry => Types.validateProps entry props
       end.

(** [hasComponent(type)] *)
Definition hasComponent (type : string) : bool :=
  isValidComponentType type && bool_decide (is_Some (registry !! type)).

(** [getComponentsByCategory(category)], in the registry's insertion
    order *)
Definition getComponentsByCategory (category : string) : list string :=
  List.filter (fun type =>
                 match registry !! type with
                 | Some entry => String.eqb (Types.category (metadata entry)) category
                 | None => false
                 end)
              ComponentType.values.

(** [typeof order !== "number" || order < 0] *)
Definition orderRejected (order : Js.Value) : bool :=
  negb (String.eqb (Js.typeof order) "number") ||
  match order with
  | Js.Num n => Js.number_lt0 n
  | _ => false
  end.

Definition orderError : string :=
  "Component config requires a non-negative 'order' number".

(** [validateComponentConfig(config)] *)
Definition validateComponentConfig (config : ComponentConfig) : ValidationResult :=
  let typeValidation := validateProps (type config) (props config) in
  let errors := errors typeValidation in
  let warnings := warnings typeValidation in
  let errors := pushIf (orderRejected (order config)) orderError errors in
  {| valid := Nat.eqb (length errors) 0; errors := errors; warnings := warnings |}.

(** The argument of [validateLayoutComponents] is declared an array;
    the method starts by checking that it is one. *)
Inductive LayoutInput :=
| NotAnArray
| Configs (configs : list ComponentConfig).

(** The accumulators of the loop: [errors], [warnings] and the set
    [orders]. *)
Record LoopState := {
  loopErrors : list string;
  loopWarnings : list string;
  orders : list Js.Value
}.

(** [orders.has(v)] and [orders.add(v)] *)
Definition ordersHas (orders : list Js.Value) (v : Js.Value) : bool :=
  existsb (Js.sameValueZero v) orders.

Definition ordersAdd (orders : list Js.Value) (v : Js.Value) : list Js.Value :=
  if ordersHas orders v then orders else (orders ++ [v])%list.

Definition duplicateOrderWarning (order : Js.Value) : string :=
  "Duplicate order value " +:+ Js.ToString order +:+ " found".

(** One iteration of the loop, on [configs[i]]. *)
Definition visit (i : nat) (config : ComponentConfig) (st : LoopState) : LoopState :=
  let validation := validateComponentConfig config in
  let errors :=
    pushIf (negb (valid validation))
      ("Component " +:+ pretty i +:+ " (" +:+ type config +:+ "): " +:+
       Js.join ", " (errors validation))
      (loopErrors st) in
  let warnings :=
    (loopWarnings st ++
     map (fun w => "Component " +:+ pretty i +:+ ": " +:+ w) (warnings validation))%list in
  let warnings :=
    pushIf (ordersHas (orders st) (order config))
      (duplicateOrderWarning (order config)) warnings in
  {| loopErrors := errors; loopWarnings := warnings;
     orders := ordersAdd (orders st) (order config) |}.

(** [for (let i = ...; i < configs.length; i++)], from index [i] on *)
Fixpoint visitFrom (i : nat) (configs : list ComponentConfig) (st : LoopState)
  : LoopState :=
  match configs with
  | [] => st
  | config :: rest => visitFrom (S i) rest (visit i config st)
  end.

Definition isHero (c : ComponentConfig) : bool :=
  String.eqb (type c) ComponentType.HERO_PRISM ||
  String.eqb (type c) ComponentType.HERO_TERMINAL.

(** The warnings computed before the loop. *)
Definition layoutWarnings (configs : list ComponentConfig) : list string :=
  let warnings := [] in
  let warnings :=
    pushIf (Nat.eqb (length configs) 0) "Layout has no components configured" warnings in
  let heroComponents := List.filter isHero configs in
  if Nat.eqb (length heroComponents) 0
  then (warnings ++ ["Layout has no hero component"])%list
  else if Nat.ltb 1 (length heroComponents)
       then (warnings ++ ["Layout has multiple hero components"])%list
       else warnings.

(** [validateLayoutComponents(configs)] *)
Definition validateLayoutComponents (input : LayoutInput) : ValidationResult :=
  match input with
  | NotAnArray =>
      {| valid := false; errors := ["Layout components must be an array"];
         warnings := [] |}
  | Configs configs =>
      let st := visitFrom 0 configs
                  {| loopErrors := []; loopWarnings := layoutWarnings configs;
                     orders := [] |} in
      {| valid := Nat.eqb (length (loopErrors st)) 0;
         errors := loopErrors st; warnings := loopWarnings st |}
  end.

End Registry.

(** An error of [validateLayoutComponents] that reports the failure of
    one component starts with "Component ". *)
Definition componentError (e : string) : Prop :=
  String.prefix "Component " e = true.

Section RegistryQueries.
Context {rt : Js.Runtime}.

(** [getRegisteredTypes()]: the keys of the registry, in the order
    [initializeRegistry] inserted them. *)
Definition getRegisteredTypes : list string :=
  List.filter (fun type => bool_decide (is_Some (registry !! type))) ComponentType.values.

(** The error that the loop of [validateLayoutComponents] pushes for
    [configs[i]], when it pushes one. *)
Definition componentFailure (i : nat) (config : ComponentConfig) : option string :=
  if valid (validateComponentConfig config) then None
  else Some ("Component " +:+ pretty i +:+ " (" +:+ type config +:+ "): " +:+
             Js.join ", " (errors (validateComponentConfig config))).

End RegistryQueries.

End ComponentRegistry.

(* ===================================================================== *)
(** ** component-config-manager.ts *)
(* ===================================================================== *)

Module ComponentConfigManager.

Record ComponentSettings := {
  animationsEnabled : bool;
  animationDuration : Js.Number;
  showTooltips : bool;
  customClasses : list string;
  themeOverrides : gmap string string;
  featureFlags : gmap string bool
}.

(** [Partial<ComponentSettings>]: [None] is a property that is absent. *)
Record PartialSettings := {
  animationsEnabled' : option bool;
  animationDuration' : option Js.Number;
  showTooltips' : option bool;
  customClasses' : option (list string);
  themeOverrides' : option (gmap string string);
  featureFlags' : option (gmap string bool)
}.

(** The empty object [{}] *)
Definition noOverrides : PartialSettings :=
  {| animationsEnabled' := None; animationDuration' := None;
     showTooltips' := None; customClasses' := None;
     themeOverrides' := None; featureFlags' := None |}.

Record GlobalComponentConfig := {
  defaultSettings : ComponentSettings;
  componentOverrides : gmap string PartialSettings;
  disabledComponents : list string;
  maxComponentsPerLayout : Js.Number;
  allowCustomComponents : bool;
  debugMode : bool
}.

(** [Partial<GlobalComponentConfig>] *)
Record PartialGlobalConfig := {
  defaultSettings' : option ComponentSettings;
  componentOverrides' : option (gmap string PartialSettings);
  disabledComponents' : option (list string);
  maxComponentsPerLayout' : option Js.Number;
  allowCustomComponents' : option bool;
  debugMode' : option bool
}.

Definition DEFAULT_SETTINGS : ComponentSettings :=
  {| animationsEnabled := true;
     animationDuration := Js.Finite 300;
     showTooltips := true;
     customClasses := [];
     themeOverrides := ∅;
     featureFlags := ∅ |}.

Definition DEFAULT_GLOBAL_CONFIG : GlobalComponentConfig :=
  {| defaultSettings := DEFAULT_SETTINGS;
     componentOverrides := ∅;
     disabledComponents := [];
     maxComponentsPerLayout := Js.Finite 10;
     allowCustomComponents := true;
     debugMode := false |}.

(** What a change event carries besides its time stamp: the kind of
    change and, for the last two kinds, the identifier concerned. *)
Inductive ConfigChangeEvent :=
| GlobalChange (previousValue newValue : GlobalComponentConfig)
| ComponentChange (componentId : string) (previousValue newValue : option PartialSettings)
| AvailabilityChange (componentId : string) (previousValue newValue : list string).

Definition ConfigChangeListener := nat.

Record State := {
  globalConfig : GlobalComponentConfig;
  listeners : list ConfigChangeListener;
  configHistory : list ConfigChangeEvent;
  (* the calls [listener(event)] made so far, oldest first *)
  delivered : list (ConfigChangeListener * ConfigChangeEvent)
}.

Definition maxHistorySize : nat := 100.

(** [new ComponentConfigManager()] *)
Definition init : State :=
  {| globalConfig := DEFAULT_GLOBAL_CONFIG; listeners := [];
     configHistory := []; delivered := [] |}.

Definition withGlobalConfig (g : GlobalComponentConfig) (s : State) : State :=
  {| globalConfig := g; listeners := listeners s;
     configHistory := configHistory s; delivered := delivered s |}.

(** [emitChange(event)]: push on the history, drop the oldest entry
    beyond the capacity, call every listener. *)
Definition emitChange (event : ConfigChangeEvent) (s : State) : State :=
  let history := (configHistory s ++ [event])%list in
  let history := if Nat.ltb maxHistorySize (length history) then tail history
                 else history in
  {| globalConfig := globalConfig s; listeners := listeners s;
     configHistory := history;
     delivered := (delivered s ++ map (fun l => (l, event)) (listeners s))%list |}.

(** [getGlobalConfig()] *)
Definition getGlobalConfig (s : State) : GlobalComponentConfig := globalConfig s.

(** [updateGlobalConfig(config)] *)
Definition updateGlobalConfig (config : PartialGlobalConfig) (s : State) : State :=
  let old := globalConfig s in
  let new :=
    {| defaultSettings := default (defaultSettings old) (defaultSettings' config);
       componentOverrides :=
         default ∅ (componentOverrides' config) ∪ componentOverrides old;
       disabledComponents := default (disabledComponents old) (disabledComponents' config);
       maxComponentsPerLayout :=
         default (maxComponentsPerLayout old) (maxComponentsPerLayout' config);
       allowCustomComponents :=
         default (allowCustomComponents old) (allowCustomComponents' config);
       debugMode := default (debugMode old) (debugMode' config) |} in
  emitChange (GlobalChange old new) (withGlobalConfig new s).

(** [getComponentSettings(componentId)] *)
Definition getComponentSettings (componentId : string) (s : State) : ComponentSettings :=
  let defaults := defaultSettings (globalConfig s) in
  let overrides := default noOverrides (componentOverrides (globalConfig s) !! componentId) in
  {| (* ...this.globalConfig.defaultSettings, ...overrides *)
     animationsEnabled := default (animationsEnabled defaults) (animationsEnabled' overrides);
     animationDuration := default (animationDuration defaults) (animationDuration' overrides);
     showTooltips := default (showTooltips defaults) (showTooltips' overrides);
     (* the three properties written after the spreads *)
     customClasses :=
       (customClasses defaults ++ default [] (customClasses' overrides))%list;
     themeOverrides :=
       default ∅ (themeOverrides' overrides) ∪ themeOverrides defaults;
     featureFlags :=
       default ∅ (featureFlags' overrides) ∪ featureFlags defaults |}.

(** [{...a, ...b}] on partial settings *)
Definition spread (a b : PartialSettings) : PartialSettings :=
  {| animationsEnabled' := animationsEnabled' b ∪ animationsEnabled' a;
     animationDuration' := animationDuration' b ∪ animationDuration' a;
     showTooltips' := showTooltips' b ∪ showTooltips' a;
     customClasses' := customClasses' b ∪ customClasses' a;
     themeOverrides' := themeOverrides' b ∪ themeOverrides' a;
     featureFlags' := featureFlags' b ∪ featureFlags' a |}.

(** [updateComponentSettings(componentId, settings)] *)
Definition updateComponentSettings (componentId : string) (settings : PartialSettings)
    (s : State) : State :=
  let old := globalConfig s in
  let previousValue := componentOverrides old !! componentId in
  let newValue := spread (default noOverrides previousValue) settings in
  let new :=
    {| defaultSettings := defaultSettings old;
       componentOverrides := <[componentId := newValue]> (componentOverrides old);
       disabledComponents := disabledComponents old;
       maxComponentsPerLayout := maxComponentsPerLayout old;
       allowCustomComponents := allowCustomComponents old;
       debugMode := debugMode old |} in
  emitChange (ComponentChange componentId previousValue (Some newValue))
             (withGlobalConfig new s).

(** [isComponentDisabled(componentId)] *)
Definition isComponentDisabled (componentId : string) (s : State) : bool :=
  Js.array_includes (disabledComponents (globalConfig s)) componentId.

Definition withDisabled (l : list string) (s : State) : State :=
  let old := globalConfig s in
  withGlobalConfig
    {| defaultSettings := defaultSettings old;
       componentOverrides := componentOverrides old;
       disabledComponents := l;
       maxComponentsPerLayout := maxComponentsPerLayout old;
       allowCustomComponents := allowCustomComponents old;
       debugMode := debugMode old |} s.

(** [disableComponent(componentId)] *)
Definition disableComponent (componentId : string) (s : State) : State :=
  if negb (isComponentDisabled componentId s) then
    let previousValue := disabledComponents (globalConfig s) in
    let newValue := (previousValue ++ [componentId])%list in
    emitChange (AvailabilityChange componentId previousValue newValue)
               (withDisabled newValue s)
  else s.

(** [xs.splice(xs.indexOf(x), 1)] when [x] occurs in [xs] *)
Fixpoint removeFirst (x : string) (xs : list string) : list string :=
  match xs with
  | [] => []
  | y :: rest => if String.eqb y x then rest else y :: removeFirst x rest
  end.

(** [enableComponent(componentId)] *)
Definition enableComponent (componentId : string) (s : State) : State :=
  if isComponentDisabled componentId s then
    let previousValue := disabledComponents (globalConfig s) in
    let newValue := removeFirst componentId previousValue in
    emitChange (AvailabilityChange componentId previousValue newValue)
               (withDisabled newValue s)
  else s.

(** [getDisabledComponents()] *)
Definition getDisabledComponents (s : State) : list string :=
  disabledComponents (globalConfig s).

(** *** The rest of component-config-manager.ts *)

(** [resetComponentSettings(componentId)] *)
Definition resetComponentSettings (componentId : string) (s : State) : State :=
  let old := globalConfig s in
  let previousValue := componentOverrides old !! componentId in
  let new :=
    {| defaultSettings := defaultSettings old;
       componentOverrides := delete componentId (componentOverrides old);
       disabledComponents := disabledComponents old;
       maxComponentsPerLayout := maxComponentsPerLayout old;
       allowCustomComponents := allowCustomComponents old;
       debugMode := debugMode old |} in
  emitChange (ComponentChange componentId previousValue None) (withGlobalConfig new s).

(** [getEnabledCoreComponents()] *)
Definition getEnabledCoreComponents (s : State) : list string :=
  List.filter (fun type => negb (isComponentDisabled type s)) ComponentType.values.

(** An object with the one property given. *)
Definition onlyFeatureFlags (flags : gmap string bool) : PartialSettings :=
  {| animationsEnabled' := None; animationDuration' := None;
     showTooltips' := None; customClasses' := None;
     themeOverrides' := None; featureFlags' := Some flags |}.

Definition onlyThemeOverrides (overrides : gmap string string) : PartialSettings :=
  {| animationsEnabled' := None; animationDuration' := None;
     showTooltips' := None; customClasses' := None;
     themeOverrides' := Some overrides; featureFlags' := None |}.

(** [setFeatureFlag(componentId, flag, value)] *)
Definition setFeatureFlag (componentId flag : string) (value : bool) (s : State) : State :=
  let currentSettings :=
    default noOverrides (componentOverrides (globalConfig s) !! componentId) in
  updateComponentSettings componentId
    (onlyFeatureFlags (<[flag := value]> (default ∅ (featureFlags' currentSettings))))
    s.


(** [setThemeOverride(componentId, property, value)] *)
Definition setThemeOverride (componentId property value : string) (s : State) : State :=
  let currentSettings :=
    default noOverrides (componentOverrides (globalConfig s) !! componentId) in
  updateComponentSettings componentId
    (onlyThemeOverrides (<[property := value]> (default ∅ (themeOverrides' currentSettings))))
    s.

(** [addChangeListener(listener)] (the function it returns is
    [removeChangeListener(listener)]) and [removeChangeListener] *)
Definition addChangeListener (l : ConfigChangeListener) (s : State) : State :=
  {| globalConfig := globalConfig s;
     listeners := if existsb (Nat.eqb l) (listeners s) then listeners s
                  else (listeners s ++ [l])%list;
     configHistory := configHistory s; delivered := delivered s |}.

Definition removeChangeListener (l : ConfigChangeListener) (s : State) : State :=
  {| globalConfig := globalConfig s;
     listeners := List.filter (fun l' => negb (Nat.eqb l' l)) (listeners s);
     configHistory := configHistory s; delivered := delivered s |}.

(** [getConfigHistory()] and [clearConfigHistory()] *)
Definition getConfigHistory (s : State) : list ConfigChangeEvent := configHistory s.

Definition clearConfigHistory (s : State) : State :=
  {| globalConfig := globalConfig s; listeners := listeners s;
     configHistory := []; delivered := delivered s |}.

(** [enableDebugMode()], [disableDebugMode()] and [isDebugMode()] *)
Definition onlyDebugMode (b : bool) : PartialGlobalConfig :=
  {| defaultSettings' := None; componentOverrides' := None;
     disabledComponents' := None; maxComponentsPerLayout' := None;
     allowCustomComponents' := None; debugMode' := Some b |}.

Definition enableDebugMode (s : State) : State := updateGlobalConfig (onlyDebugMode true) s.
Definition disableDebugMode (s : State) : State := updateGlobalConfig (onlyDebugMode false) s.
Definition isDebugMode (s : State) : bool := debugMode (globalConfig s).

(** [n > max], for an array length [n] *)
Definition lengthExceeds (n : nat) (max : Js.Number) : bool :=
  match max with
  | Js.Finite q => negb (Qle_bool (inject_Z (Z.of_nat n)) q)
  | Js.NegInfinity => true
  | Js.NaN | Js.PosInfinity => false
  end.

Section ValidateLayout.
Context {rt : Js.Runtime}.

(** [validateLayout(componentIds)] *)
Definition validateLayout (componentIds : list string) (s : State) : ValidationResult :=
  let errors := [] in
  let errors :=
    if lengthExceeds (length componentIds) (maxComponentsPerLayout (globalConfig s))
    then (errors ++
          ["Layout exceeds maximum components (" +:+ pretty (length componentIds) +:+
           "/" +:+ Js.ToString (Js.Num (maxComponentsPerLayout (globalConfig s))) +:+
           ")"])%list
    else errors in
  let errors :=
    (errors ++
     map (fun id => "Component " +:+ id +:+ " is disabled")
         (List.filter (fun id => isComponentDisabled id s) componentIds))%list in
  let errors :=
    if negb (allowCustomComponents (globalConfig s)) then
      (errors ++
       map (fun id => "Custom component " +:+ id +:+ " not allowed")
           (List.filter (fun id => negb (Js.array_includes ComponentType.values id))
                        componentIds))%list
    else errors in
  {| valid := Nat.eqb (length errors) 0; Types.errors := errors; Types.warnings := [] |}.

End ValidateLayout.

(** [createComponentSettings(overrides)]: [{...DEFAULT_SETTINGS,
    ...overrides}] *)
Definition createComponentSettings (overrides : PartialSettings) : ComponentSettings :=
  {| animationsEnabled := default (animationsEnabled DEFAULT_SETTINGS) (animationsEnabled' overrides);
     animationDuration := default (animationDuration DEFAULT_SETTINGS) (animationDuration' overrides);
     showTooltips := default (showTooltips DEFAULT_SETTINGS) (showTooltips' overrides);
     customClasses := default (customClasses DEFAULT_SETTINGS) (customClasses' overrides);
     themeOverrides := default (themeOverrides DEFAULT_SETTINGS) (themeOverrides' overrides);
     featureFlags := default (featureFlags DEFAULT_SETTINGS) (featureFlags' overrides) |}.

(** [mergeSettings(base, overrides)] *)
Definition mergeSettings (base : ComponentSettings) (overrides : PartialSettings)
  : ComponentSettings :=
  {| animationsEnabled := default (animationsEnabled base) (animationsEnabled' overrides);
     animationDuration := default (animationDuration base) (animationDuration' overrides);
     showTooltips := default (showTooltips base) (showTooltips' overrides);
     customClasses := (customClasses base ++ default [] (customClasses' overrides))%list;
     themeOverrides := default ∅ (themeOverrides' overrides) ∪ themeOverrides base;
     featureFlags := default ∅ (featureFlags' overrides) ∪ featureFlags base |}.

(** *** Runtime telemetry

    These methods read and write [this.runtimeStates] and nothing else
    of the manager; they are functions of that map. *)

Record ComponentRuntimeState := {
  isRendering : bool;
  lastRenderTime : option Z;
  renderCount : nat;
  errors : list string
}.

Abbreviation RuntimeStates := (gmap string ComponentRuntimeState).

Definition freshRuntimeState : ComponentRuntimeState :=
  {| isRendering := false; lastRenderTime := None; renderCount := 0;
     errors := [] |}.

(** [getRuntimeState(componentId)]: it stores the fresh state for an
    identifier it has not seen. *)
Definition getRuntimeState (componentId : string) (states : RuntimeStates)
  : ComponentRuntimeState * RuntimeStates :=
  match states !! componentId with
  | Some state => (state, states)
  | None => (freshRuntimeState, <[componentId := freshRuntimeState]> states)
  end.

(** [Partial<ComponentRuntimeState>] *)
Record PartialRuntimeState := {
  isRendering' : option bool;
  lastRenderTime' : option (option Z);
  renderCount' : option nat;
  errors' : option (list string)
}.

(** [updateRuntimeState(componentId, state)] *)
Definition updateRuntimeState (componentId : string) (state : PartialRuntimeState)
    (states : RuntimeStates) : RuntimeStates :=
  let '(currentState, states) := getRuntimeState componentId states in
  <[componentId :=
      {| isRendering := default (isRendering currentState) (isRendering' state);
         lastRenderTime := default (lastRenderTime currentState) (lastRenderTime' state);
         renderCount := default (renderCount currentState) (renderCount' state);
         errors := default (errors currentState) (errors' state) |}]>
    states.


(** [recordError(componentId, error)] *)
Definition recordError (componentId error : string) (states : RuntimeStates)
  : RuntimeStates :=
  let '(currentState, states) := getRuntimeState componentId states in
  updateRuntimeState componentId
    {| isRendering' := None; lastRenderTime' := None; renderCount' := None;
       errors' := Some (errors currentState ++ [error])%list |}
    states.

(** [clearErrors(componentId)] *)
Definition clearErrors (componentId : string) (states : RuntimeStates) : RuntimeStates :=
  updateRuntimeState componentId
    {| isRendering' := None; lastRenderTime' := None; renderCount' := None;
       errors' := Some [] |}
    states.

(** The calls that change the manager's configuration. *)
Inductive Mutation :=
| DoUpdateGlobalConfig (config : PartialGlobalConfig)
| DoUpdateComponentSettings (componentId : string) (settings : PartialSettings)
| DoResetComponentSettings (componentId : string)
| DoDisableComponent (componentId : string)
| DoEnableComponent (componentId : string)
| DoSetFeatureFlag (componentId flag : string) (value : bool)
| DoSetThemeOverride (componentId property value : string)
| DoAddChangeListener (l : ConfigChangeListener)
| DoRemoveChangeListener (l : ConfigChangeListener)
| DoClearConfigHistory
| DoEnableDebugMode
| DoDisableDebugMode.

Definition mutate (m : Mutation) (s : State) : State :=
  match m with
  | DoUpdateGlobalConfig config => updateGlobalConfig config s
  | DoUpdateComponentSettings componentId settings =>
      updateComponentSettings componentId settings s
  | DoResetComponentSettings componentId => resetComponentSettings componentId s
  | DoDisableComponent componentId => disableComponent componentId s
  | DoEnableComponent componentId => enableComponent componentId s
  | DoSetFeatureFlag componentId flag value => setFeatureFlag componentId flag value s
  | DoSetThemeOverride componentId property value =>
      setThemeOverride componentId property value s
  | DoAddChangeListener l => addChangeListener l s
  | DoRemoveChangeListener l => removeChangeListener l s
  | DoClearConfigHistory => clearConfigHistory s
  | DoEnableDebugMode => enableDebugMode s
  | DoDisableDebugMode => disableDebugMode s
  end.

Definition mutateAll (ms : list Mutation) (s : State) : State :=
  foldl (fun s m => mutate m s) s ms.

End ComponentConfigManager.

(* ===================================================================== *)
(** ** component-plugin-system.ts *)
(* ===================================================================== *)

Module PluginManager.

Record ToolDefinition := {
  toolName : string;
  toolDescription : string;
  parameters : gmap string Js.Value
}.

Record PluginRegistrationResult := {
  success : bool;
  pluginId : Js.Value;
  errors : list string;
  warnings : list string
}.

Record PluginConfig := {
  enabled : bool;
  priority : Js.Number;
  settings : gmap string Js.Value
}.

(** [Partial<PluginConfig>] *)
Record PartialPluginConfig := {
  enabled' : option bool;
  priority' : option Js.Number;
  settings' : option (gmap string Js.Value)
}.

Record ComponentAvailabilityConfig := {
  enabledComponents : list string;
  disabledComponents : list string;
  categoryDefaults : gmap string string;
  priorityOverrides : gmap string Js.Number
}.

(** How a call of a hook ends: it returns, or it throws a value that
    prints as [error]. *)
Inductive Outcome (A : Type) :=
| Returns (a : A)
| Throws (error : string).
Arguments Returns {A} a.
Arguments Throws {A} error.

Record PluginLifecycleHooks := {
  onRegister : option (Outcome unit);
  onUnregister : option (Outcome unit);
  beforeRender : option (Props -> Outcome Props);
  afterRender : option (Outcome unit)
}.

(** The [metadata] of a plugin as it is handed in: the declared type
    promises [requiredProps], a caller may still leave it out. *)
Record PluginMetadata := {
  name : string;
  description : string;
  category : string;
  requiredProps : option (list string);
  optionalProps : list string
}.

(** [ExtendedComponentPlugin], as it is handed in: [id] may be anything,
    [component] and [validateProps] are [None] when they are not
    functions, [metadata] is [None] when it is missing. *)
Record ExtendedComponentPlugin := {
  id : Js.Value;
  component : option Renderer;
  metadata : option PluginMetadata;
  validateProps : option (Props -> ValidationResult);
  toolDefinition : option ToolDefinition;
  hooks : option PluginLifecycleHooks;
  config : option PluginConfig
}.

Record State := {
  plugins : gmap string ExtendedComponentPlugin;
  configs : gmap string PluginConfig;
  availabilityConfig : ComponentAvailabilityConfig
}.

(** [new PluginManager()] *)
Definition init : State :=
  {| plugins := ∅; configs := ∅;
     availabilityConfig :=
       {| enabledComponents := []; disabledComponents := [];
          categoryDefaults := ∅; priorityOverrides := ∅ |} |}.

Definition pushIf (cond : bool) (msg : string) (acc : list string) : list string :=
  if cond then (acc ++ [msg])%list else acc.

(** [this.plugins.has(plugin.id)]: the keys of the map are strings. *)
Definition hasKey {A} (m : gmap string A) (key : Js.Value) : bool :=
  match key with
  | Js.Str s => bool_decide (is_Some (m !! s))
  | _ => false
  end.

(** The errors of the structural checks at the head of
    [registerPlugin], in the order they are pushed. *)
Definition structuralErrors (plugin : ExtendedComponentPlugin) : list string :=
  let errors := [] in
  let errors :=
    pushIf (negb (Js.truthy (id plugin)) ||
            negb (String.eqb (Js.typeof (id plugin)) "string"))
      "Plugin must have a valid string id" errors in
  let errors :=
    pushIf (negb (bool_decide (is_Some (component plugin))))
      "Plugin must have a valid React component" errors in
  let errors :=
    match metadata plugin with
    | None => (errors ++ ["Plugin must have metadata"])%list
    | Some m =>
        let errors := pushIf (String.eqb (name m) "")
                        "Plugin metadata must have a name" errors in
        let errors := pushIf (String.eqb (category m) "")
                        "Plugin metadata must have a category" errors in
        pushIf (negb (bool_decide (is_Some (requiredProps m))))
          "Plugin metadata must have requiredProps" errors
    end in
  pushIf (negb (bool_decide (is_Some (validateProps plugin))))
    "Plugin must have a validateProps function" errors.

(** A plugin record is structurally complete when it has a non-empty
    string for identifier, a renderer, metadata with a name, a category
    and required props, and a validator. *)
Definition structurallyComplete (p : ExtendedComponentPlugin) : Prop :=
  (exists key, id p = Js.Str key /\ key <> "") /\
  is_Some (component p) /\
  (exists m, metadata p = Some m /\
             name m <> "" /\ category m <> "" /\
             is_Some (requiredProps m)) /\
  is_Some (validateProps p).

Definition defaultConfig : PluginConfig :=
  {| enabled := true; priority := Js.Finite 0; settings := ∅ |}.

Section WithRuntime.
Context {rt : Js.Runtime}.

Definition overwriteWarning (pluginId : Js.Value) : string :=
  "Plugin " +:+ Js.ToString pluginId +:+ " already registered, will be overwritten".

(** [registerPlugin(plugin)] *)
Definition registerPlugin (plugin : ExtendedComponentPlugin) (s : State)
  : PluginRegistrationResult * State :=
  let errors := structuralErrors plugin in
  let warnings :=
    pushIf (hasKey (plugins s) (id plugin)) (overwriteWarning (id plugin)) [] in
  if Nat.ltb 0 (length errors) then
    ({| success := false;
        pluginId := if Js.truthy (id plugin) then id plugin else Js.Str "unknown";
        errors := errors; warnings := warnings |}, s)
  else
    match id plugin with
    | Js.Str key =>
        let plugins' := <[key := plugin]> (plugins s) in
        let configs' :=
          if negb (bool_decide (is_Some (configs s !! key)))
          then <[key := default defaultConfig (config plugin)]> (configs s)
          else configs s in
        let warnings :=
          match hooks plugin ≫= onRegister with
          | Some (Throws error) =>
              (warnings ++ ["onRegister hook failed: " +:+ error])%list
          | _ => warnings
          end in
        ({| success := true; pluginId := id plugin; errors := [];
            warnings := warnings |},
         {| plugins := plugins'; configs := configs';
            availabilityConfig := availabilityConfig s |})
    | _ =>
        (* not reached: without errors the id is a non-empty string *)
        ({| success := true; pluginId := id plugin; errors := [];
            warnings := warnings |}, s)
    end.
End WithRuntime.

(** [unregisterPlugin(pluginId)] *)
Definition unregisterPlugin (pluginId : string) (s : State) : bool * State :=
  match plugins s !! pluginId with
  | None => (false, s)
  | Some plugin =>
      (* the onUnregister hook runs here; whatever it does or throws is
         logged and otherwise ignored *)
      (true, {| plugins := delete pluginId (plugins s);
                configs := delete pluginId (configs s);
                availabilityConfig := availabilityConfig s |})
  end.

(** [getPlugin(pluginId)] *)
Definition getPlugin (pluginId : string) (s : State) : option ExtendedComponentPlugin :=
  plugins s !! pluginId.

(** [getPluginsByCategory(category)]: the identifiers of the plugins
    returned. *)
Definition getPluginsByCategory (cat : string) (s : State) : list string :=
  omap (fun '(key, plugin) =>
          match metadata plugin with
          | Some m => if String.eqb (category m) cat then Some key else None
          | None => None
          end)
       (map_to_list (plugins s)).

(** [updatePluginConfig(pluginId, config)] *)
Definition updatePluginConfig (pluginId : string) (config : PartialPluginConfig)
    (s : State) : bool * State :=
  match configs s !! pluginId with
  | None => (false, s)
  | Some existingConfig =>
      (true,
       {| plugins := plugins s;
          configs :=
            <[pluginId :=
                {| enabled := default (enabled existingConfig) (enabled' config);
                   priority := default (priority existingConfig) (priority' config);
                   settings := default ∅ (settings' config) ∪ settings existingConfig |}]>
              (configs s);
          availabilityConfig := availabilityConfig s |})
  end.

Definition onlyEnabled (b : bool) : PartialPluginConfig :=
  {| enabled' := Some b; priority' := None; settings' := None |}.

(** [enablePlugin(pluginId)] and [disablePlugin(pluginId)] *)
Definition enablePlugin (pluginId : string) (s : State) : bool * State :=
  updatePluginConfig pluginId (onlyEnabled true) s.

Definition disablePlugin (pluginId : string) (s : State) : bool * State :=
  updatePluginConfig pluginId (onlyEnabled false) s.

(** [isPluginEnabled(pluginId)]: [config?.enabled ?? false] *)
Definition isPluginEnabled (pluginId : string) (s : State) : bool :=
  default false (enabled <$> configs s !! pluginId).

(** [getCategoryDefault(category)] *)
Definition getCategoryDefault (cat : string) (s : State) : option string :=
  categoryDefaults (availabilityConfig s) !! cat.

(** [setCategoryDefault(category, componentId)] *)
Definition setCategoryDefault (cat componentId : string) (s : State) : State :=
  let a := availabilityConfig s in
  {| plugins := plugins s; configs := configs s;
     availabilityConfig :=
       {| enabledComponents := enabledComponents a;
          disabledComponents := disabledComponents a;
          categoryDefaults := <[cat := componentId]> (categoryDefaults a);
          priorityOverrides := priorityOverrides a |} |}.

(** [validatePluginProps(pluginId, props)] *)
Definition validatePluginProps (pluginId : string) (props : Props) (s : State)
  : ValidationResult :=
  match plugins s !! pluginId with
  | None =>
      {| valid := false; Types.errors := ["Plugin not found: " +:+ pluginId];
         Types.warnings := [] |}
  | Some plugin =>
      let processed :=
        match hooks plugin ≫= beforeRender with
        | Some hook => hook props
        | None => Returns props
        end in
      match processed with
      | Throws error =>
          {| valid := false; Types.errors := ["beforeRender hook failed: " +:+ error];
             Types.warnings := [] |}
      | Returns processedProps =>
          match validateProps plugin with
          | Some validate => validate processedProps
          | None =>
              (* not reached: a registered plugin has a validator *)
              {| valid := false; Types.errors := []; Types.warnings := [] |}
          end
      end
  end.

(** [getPluginCount()] *)
Definition getPluginCount (s : State) : nat := size (plugins s).

(** *** The rest of component-plugin-system.ts

    A [Map] iterates in insertion order, which the finite map does not
    record: the lists below hold the right elements, in an order that the
    properties do not depend on. *)

(** [hasPlugin(pluginId)] *)
Definition hasPlugin (pluginId : string) (s : State) : bool :=
  bool_decide (is_Some (plugins s !! pluginId)).

(** [getPluginConfig(pluginId)] *)
Definition getPluginConfig (pluginId : string) (s : State) : option PluginConfig :=
  configs s !! pluginId.

(** [getEnabledPlugins()], each plugin with the key it is stored under *)
Definition getEnabledPlugins (s : State) : list (string * ExtendedComponentPlugin) :=
  List.filter (fun '(pluginId, _) => isPluginEnabled pluginId s) (map_to_list (plugins s)).

(** [getEnabledPluginCount()] *)
Definition getEnabledPluginCount (s : State) : nat := length (getEnabledPlugins s).

(** [getToolDefinitions()] *)
Definition getToolDefinitions (s : State) : list ToolDefinition :=
  omap (fun '(_, plugin) => toolDefinition plugin) (getEnabledPlugins s).

(** [Partial<ComponentAvailabilityConfig>] *)
Record PartialAvailabilityConfig := {
  enabledComponents' : option (list string);
  disabledComponents' : option (list string);
  categoryDefaults' : option (gmap string string);
  priorityOverrides' : option (gmap string Js.Number)
}.

(** [setAvailabilityConfig(config)]: a shallow spread *)
Definition setAvailabilityConfig (config : PartialAvailabilityConfig) (s : State) : State :=
  let a := availabilityConfig s in
  {| plugins := plugins s; configs := configs s;
     availabilityConfig :=
       {| enabledComponents := default (enabledComponents a) (enabledComponents' config);
          disabledComponents := default (disabledComponents a) (disabledComponents' config);
          categoryDefaults := default (categoryDefaults a) (categoryDefaults' config);
          priorityOverrides := default (priorityOverrides a) (priorityOverrides' config) |} |}.

(** [isComponentAvailable(componentId)] *)
Definition isComponentAvailable (componentId : string) (s : State) : bool :=
  if Js.array_includes (disabledComponents (availabilityConfig s)) componentId
  then false
  else if Nat.ltb 0 (length (enabledComponents (availabilityConfig s)))
       then Js.array_includes (enabledComponents (availabilityConfig s)) componentId
       else isPluginEnabled componentId s.

(** [getComponentPriority(componentId)] *)
Definition getComponentPriority (componentId : string) (s : State) : Js.Number :=
  match priorityOverrides (availabilityConfig s) !! componentId with
  | Some override => override
  | None => default (Js.Finite 0) (priority <$> configs s !! componentId)
  end.

(** [setComponentPriority(componentId, priority)] *)
Definition setComponentPriority (componentId : string) (p : Js.Number) (s : State) : State :=
  let a := availabilityConfig s in
  {| plugins := plugins s; configs := configs s;
     availabilityConfig :=
       {| enabledComponents := enabledComponents a;
          disabledComponents := disabledComponents a;
          categoryDefaults := categoryDefaults a;
          priorityOverrides := <[componentId := p]> (priorityOverrides a) |} |}.





(** What a client may call on the plugin manager. *)
Inductive Call :=
| CallRegisterPlugin (p : ExtendedComponentPlugin)
| CallUnregisterPlugin (pluginId : string)
| CallUpdatePluginConfig (pluginId : string) (config : PartialPluginConfig)
| CallEnablePlugin (pluginId : string)
| CallDisablePlugin (pluginId : string)
| CallSetAvailabilityConfig (config : PartialAvailabilityConfig)
| CallSetCategoryDefault (cat componentId : string)
| CallSetComponentPriority (componentId : string) (p : Js.Number).

Section Calls.
Context {rt : Js.Runtime}.

Definition call (c : Call) (s : State) : State :=
  match c with
  | CallRegisterPlugin p => snd (registerPlugin p s)
  | CallUnregisterPlugin pluginId => snd (unregisterPlugin pluginId s)
  | CallUpdatePluginConfig pluginId config => snd (updatePluginConfig pluginId config s)
  | CallEnablePlugin pluginId => snd (enablePlugin pluginId s)
  | CallDisablePlugin pluginId => snd (disablePlugin pluginId s)
  | CallSetAvailabilityConfig config => setAvailabilityConfig config s
  | CallSetCategoryDefault cat componentId => setCategoryDefault cat componentId s
  | CallSetComponentPriority componentId p => setComponentPriority componentId p s
  end.

Definition callAll (cs : list Call) (s : State) : State :=
  foldl (fun s c => call c s) s cs.

End Calls.

End PluginManager.

(* ===================================================================== *)
(** ** extensible-registry.ts *)
(* ===================================================================== *)

Module ExtensibleComponentRegistry.

Inductive Source := core | plugin | not_found.

Record ComponentLookupResult := {
  component : option Renderer;
  metadata : option ComponentMetadata;
  isPlugin : bool;
  isEnabled : bool;
  source : Source
}.

Record ExtendedRegistryEntry := {
  entryComponent : Renderer;
  entryMetadata : ComponentMetadata;
  entryValidateProps : Props -> ValidationResult;
  entryIsPlugin : bool;
  entryPluginId : option string;
  entryToolDefinition : option PluginManager.ToolDefinition
}.

(** The registry holds the two managers it was constructed with and its
    own map of custom components; the core registry it also holds never
    changes. *)
Record State := {
  pluginManager : PluginManager.State;
  configManager : ComponentConfigManager.State;
  customComponents : gmap string ExtendedRegistryEntry
}.

(** [ExtensibleComponentRegistry.resetInstance()] followed by
    [getInstance()] *)
Definition init : State :=
  {| pluginManager := PluginManager.init;
     configManager := ComponentConfigManager.init;
     customComponents := ∅ |}.

Record RegistrationResult := {
  success : bool;
  errors : list string;
  warnings : list string
}.

(** [isCoreComponent(componentId)] *)
Definition isCoreComponent (componentId : string) : bool :=
  Js.array_includes ComponentType.values componentId.

(** The entry [registerComponent] stores for a plugin that passed the
    structural checks. *)
Definition entryOf (key : string) (p : PluginManager.ExtendedComponentPlugin)
  : option ExtendedRegistryEntry :=
  c ← PluginManager.component p;
  m ← PluginManager.metadata p;
  v ← PluginManager.validateProps p;
  Some {| entryComponent := c;
          entryMetadata :=
            {| Types.name := PluginManager.name m;
               Types.description := PluginManager.description m;
               Types.category := PluginManager.category m;
               Types.requiredProps := default [] (PluginManager.requiredProps m);
               Types.optionalProps := PluginManager.optionalProps m |};
          entryValidateProps := v;
          entryIsPlugin := true;
          entryPluginId := Some key;
          entryToolDefinition := PluginManager.toolDefinition p |}.

Section WithRuntime.
Context {rt : Js.Runtime}.

(** [registerComponent(plugin)] *)
Definition registerComponent (p : PluginManager.ExtendedComponentPlugin) (s : State)
  : RegistrationResult * State :=
  if negb (ComponentConfigManager.allowCustomComponents
             (ComponentConfigManager.getGlobalConfig (configManager s)))
  then
    ({| success := false;
        errors := ["Custom components are not allowed in current configuration"];
        warnings := [] |}, s)
  else
    let '(result, pm) := PluginManager.registerPlugin p (pluginManager s) in
    let custom :=
      if PluginManager.success result then
        match PluginManager.id p with
        | Js.Str key =>
            match entryOf key p with
            | Some entry => <[key := entry]> (customComponents s)
            | None => customComponents s
            end
        | _ => customComponents s
        end
      else customComponents s in
    ({| success := PluginManager.success result;
        errors := PluginManager.errors result;
        warnings := PluginManager.warnings result |},
     {| pluginManager := pm; configManager := configManager s;
        customComponents := custom |}).

(** [unregisterComponent(componentId)] *)
Definition unregisterComponent (componentId : string) (s : State) : bool * State :=
  if isCoreComponent componentId then (false, s)
  else
    let '(removed, pm) := PluginManager.unregisterPlugin componentId (pluginManager s) in
    (removed,
     {| pluginManager := pm; configManager := configManager s;
        customComponents :=
          if removed then delete componentId (customComponents s)
          else customComponents s |}).

(** [getComponent(componentId)] *)
Definition getComponent (componentId : string) (s : State) : ComponentLookupResult :=
  let isEnabled :=
    negb (ComponentConfigManager.isComponentDisabled componentId (configManager s)) in
  if isCoreComponent componentId then
    {| component := fst (ComponentRegistry.getComponent componentId);
       metadata := ComponentRegistry.getMetadata componentId;
       isPlugin := false;
       isEnabled := isEnabled;
       source := core |}
  else
    match customComponents s !! componentId with
    | Some customEntry =>
        let pluginEnabled :=
          PluginManager.isPluginEnabled componentId (pluginManager s) in
        {| component := Some (entryComponent customEntry);
           metadata := Some (entryMetadata customEntry);
           isPlugin := true;
           isEnabled := isEnabled && pluginEnabled;
           source := plugin |}
    | None =>
        {| component := None; metadata := None; isPlugin := false;
           isEnabled := false; source := not_found |}
    end.

(** [validateProps(componentId, props)] *)
Definition validateProps (componentId : string) (props : Props) (s : State)
  : ValidationResult :=
  if isCoreComponent componentId
  then ComponentRegistry.validateProps componentId props
  else PluginManager.validatePluginProps componentId props (pluginManager s).

(** The first half of [getFallbackComponent]: the category default
    set on the plugin manager, when it is set, resolves and is
    enabled. *)
Definition categoryDefaultComponent (category : string) (s : State)
  : option Renderer :=
  match PluginManager.getCategoryDefault category (pluginManager s) with
  | Some customDefault =>
      if Js.truthy (Js.Str customDefault) then
        let lookup := getComponent customDefault s in
        if bool_decide (is_Some (component lookup)) && isEnabled lookup
        then component lookup
        else None
      else None
  | None => None
  end.

(** [getFallbackComponent(category)] *)
Definition getFallbackComponent (category : string) (s : State) : option Renderer :=
  match categoryDefaultComponent category s with
  | Some c => Some c
  | None =>
      (* fall back to core defaults *)
      match ComponentRegistry.FALLBACK_COMPONENTS !! category with
      | Some fallbackType =>
          if Js.truthy (Js.Str fallbackType) &&
             negb (ComponentConfigManager.isComponentDisabled fallbackType
                     (configManager s))
          then ComponentRegistry.COMPONENT_MAP !! fallbackType
          else None
      | None => None
      end
  end.

(** [hasComponent(componentId)] *)
Definition hasComponent (componentId : string) (s : State) : bool :=
  if isCoreComponent componentId
  then ComponentRegistry.hasComponent componentId
  else bool_decide (is_Some (customComponents s !! componentId)).

(** [getComponentSettings(componentId)] *)
Definition getComponentSettings (componentId : string) (s : State) :=
  ComponentConfigManager.getComponentSettings componentId (configManager s).

Definition withManagers (pm : PluginManager.State) (cm : ComponentConfigManager.State)
    (s : State) : State :=
  {| pluginManager := pm; configManager := cm;
     customComponents := customComponents s |}.

(** [enableComponent(componentId)] *)
Definition enableComponent (componentId : string) (s : State) : bool * State :=
  let cm := ComponentConfigManager.enableComponent componentId (configManager s) in
  if negb (isCoreComponent componentId) then
    let '(ok, pm) := PluginManager.enablePlugin componentId (pluginManager s) in
    (ok, withManagers pm cm s)
  else (true, withManagers (pluginManager s) cm s).

(** [disableComponent(componentId)] *)
Definition disableComponent (componentId : string) (s : State) : State :=
  let cm := ComponentConfigManager.disableComponent componentId (configManager s) in
  if negb (isCoreComponent componentId) then
    withManagers (snd (PluginManager.disablePlugin componentId (pluginManager s))) cm s
  else withManagers (pluginManager s) cm s.

(** [isComponentEnabled(componentId)] *)
Definition isComponentEnabled (componentId : string) (s : State) : bool :=
  if ComponentConfigManager.isComponentDisabled componentId (configManager s)
  then false
  else if negb (isCoreComponent componentId)
       then PluginManager.isPluginEnabled componentId (pluginManager s)
       else true.

(** *** What a client may do to the registry

    The calls of the registry itself, and the calls made directly on
    the two managers it hands out through [getPluginManager()] and
    [getConfigManager()]. *)
Inductive Operation :=
| RegisterComponent (p : PluginManager.ExtendedComponentPlugin)
| UnregisterComponent (componentId : string)
| EnableComponent (componentId : string)
| DisableComponent (componentId : string)
| UpdateComponentSettings (componentId : string)
    (settings : ComponentConfigManager.PartialSettings)
| RegisterPlugin (p : PluginManager.ExtendedComponentPlugin)
| UnregisterPlugin (pluginId : string)
| EnablePlugin (pluginId : string)
| DisablePlugin (pluginId : string)
| UpdatePluginConfig (pluginId : string) (config : PluginManager.PartialPluginConfig)
| SetCategoryDefault (category componentId : string)
| ConfigDisableComponent (componentId : string)
| ConfigEnableComponent (componentId : string)
| UpdateGlobalConfig (config : ComponentConfigManager.PartialGlobalConfig).

Definition perform (op : Operation) (s : State) : State :=
  match op with
  | RegisterComponent p => snd (registerComponent p s)
  | UnregisterComponent componentId => snd (unregisterComponent componentId s)
  | EnableComponent componentId => snd (enableComponent componentId s)
  | DisableComponent componentId => disableComponent componentId s
  | UpdateComponentSettings componentId settings =>
      withManagers (pluginManager s)
        (ComponentConfigManager.updateComponentSettings componentId settings
           (configManager s)) s
  | RegisterPlugin p =>
      withManagers (snd (PluginManager.registerPlugin p (pluginManager s)))
        (configManager s) s
  | UnregisterPlugin pluginId =>
      withManagers (snd (PluginManager.unregisterPlugin pluginId (pluginManager s)))
        (configManager s) s
  | EnablePlugin pluginId =>
      withManagers (snd (PluginManager.enablePlugin pluginId (pluginManager s)))
        (configManager s) s
  | DisablePlugin pluginId =>
      withManagers (snd (PluginManager.disablePlugin pluginId (pluginManager s)))
        (configManager s) s
  | UpdatePluginConfig pluginId config =>
      withManagers
        (snd (PluginManager.updatePluginConfig pluginId config (pluginManager s)))
        (configManager s) s
  | SetCategoryDefault category componentId =>
      withManagers (PluginManager.setCategoryDefault category componentId (pluginManager s))
        (configManager s) s
  | ConfigDisableComponent componentId =>
      withManagers (pluginManager s)
        (ComponentConfigManager.disableComponent componentId (configManager s)) s
  | ConfigEnableComponent componentId =>
      withManagers (pluginManager s)
        (ComponentConfigManager.enableComponent componentId (configManager s)) s
  | UpdateGlobalConfig config =>
      withManagers (pluginManager s)
        (ComponentConfigManager.updateGlobalConfig config (configManager s)) s
  end.

(** A sequence of operations, performed from left to right. *)
Definition performAll (ops : list Operation) (s : State) : State :=
  foldl (fun s op => perform op s) s ops.

End WithRuntime.

(** *** The rest of extensible-registry.ts *)

Section Queries.
Context {rt : Js.Runtime}.

(** The entry [getAllComponents] builds for a core identifier. *)
Definition coreEntry (type : string) : option ExtendedRegistryEntry :=
  c ← ComponentRegistry.COMPONENT_MAP !! type;
  m ← ComponentRegistry.getMetadata type;
  Some {| entryComponent := c; entryMetadata := m;
          entryValidateProps := fun props => ComponentRegistry.validateProps type props;
          entryIsPlugin := false; entryPluginId := None;
          entryToolDefinition := None |}.

(** [getAllComponents()]: the core entries that are not disabled, then
    the custom entries that are enabled, a later [set] replacing an
    earlier one under the same key. *)
Definition getAllComponents (s : State) : gmap string ExtendedRegistryEntry :=
  let result :=
    foldl (fun result type =>
             if negb (ComponentConfigManager.isComponentDisabled type (configManager s))
             then match coreEntry type with
                  | Some entry => <[type := entry]> result
                  | None => result
                  end
             else result)
          ∅ ComponentType.values in
  filter (fun '(id, _) =>
            ComponentConfigManager.isComponentDisabled id (configManager s) = false /\
            PluginManager.isPluginEnabled id (pluginManager s) = true)
         (customComponents s)
  ∪ result.

(** [getComponentsByCategory(category)]: the core identifiers first, then
    the plugins. *)
Definition getComponentsByCategory (category : string) (s : State) : list string :=
  (List.filter
     (fun type => negb (ComponentConfigManager.isComponentDisabled type (configManager s)))
     (ComponentRegistry.getComponentsByCategory category)
   ++
   List.filter
     (fun id =>
        negb (ComponentConfigManager.isComponentDisabled id (configManager s)) &&
        PluginManager.isPluginEnabled id (pluginManager s))
     (PluginManager.getPluginsByCategory category (pluginManager s)))%list.

(** [getToolDefinitions()] *)
Definition getToolDefinitions (s : State) : list PluginManager.ToolDefinition :=
  PluginManager.getToolDefinitions (pluginManager s).

(** The four numbers of [getComponentCount()]. *)
Record ComponentCount := {
  total : Z;
  coreCount : Z;
  pluginCount : Z;
  enabledCount : Z
}.

(** [getComponentCount()] *)
Definition getComponentCount (s : State) : ComponentCount :=
  let coreCount := Z.of_nat (length ComponentType.values) in
  let pluginCount := Z.of_nat (PluginManager.getPluginCount (pluginManager s)) in
  let enabledPlugins := Z.of_nat (PluginManager.getEnabledPluginCount (pluginManager s)) in
  let disabledCore :=
    Z.of_nat (length (List.filter isCoreComponent
                        (ComponentConfigManager.getDisabledComponents (configManager s)))) in
  {| total := coreCount + pluginCount;
     coreCount := coreCount;
     pluginCount := pluginCount;
     enabledCount := coreCount - disabledCore + enabledPlugins |}.

(** [updateComponentSettings(componentId, settings)] *)
Definition updateComponentSettings (componentId : string)
    (settings : ComponentConfigManager.PartialSettings) (s : State) : State :=
  withManagers (pluginManager s)
    (ComponentConfigManager.updateComponentSettings componentId settings (configManager s))
    s.

End Queries.

End ExtensibleComponentRegistry.

(* ===================================================================== *)
(** ** The portfolio renderer: the props handed to a component *)
(* ===================================================================== *)

Module PortfolioRenderer.

(** The fields of [CandidateProfile] that the renderer hands to the
    components, as the backend sent them. *)
Record CandidateProfile := {
  name : Js.Value;
  title : Js.Value;
  contact : Js.Value;
  experience : Js.Value;
  projects : Js.Value;
  skills : Js.Value;
  achievements : Js.Value
}.

(** [a ?? b] *)
Definition nullish (a b : Js.Value) : Js.Value :=
  match a with
  | Js.Undefined | Js.Null => b
  | _ => a
  end.

(** The array that the literal [[]] creates: a cell of its own. *)
Definition emptyArray (ref : nat) : Js.Value := Js.Array ref [].

Section Renderer.
Context {rt : Js.Runtime}.

(** [getComponentCategory(type)] *)
Definition getComponentCategory (type : string) : string :=
  default "hero" (Types.category <$> ComponentRegistry.getMetadata type).

(** [prepareComponentProps(config, profile)]; [ref] is the cell of the
    empty array it may create. *)
Definition prepareComponentProps (ref : nat) (config : ComponentConfig)
    (profile : CandidateProfile) : Props :=
  let baseProps := props config in
  let type := Types.type config in
  if String.eqb type ComponentType.HERO_PRISM || String.eqb type ComponentType.HERO_TERMINAL
  then
    <["contact" := nullish (prop baseProps "contact") (contact profile)]>
    (<["title" := nullish (prop baseProps "title") (title profile)]>
    (<["name" := nullish (prop baseProps "name") (name profile)]> baseProps))
  else if String.eqb type ComponentType.EXP_TIMELINE || String.eqb type ComponentType.EXP_MASONRY
  then
    <["projects" := nullish (prop baseProps "projects") (projects profile)]>
    (<["experiences" := nullish (prop baseProps "experiences") (experience profile)]>
       baseProps)
  else if String.eqb type ComponentType.SKILLS_DOTS || String.eqb type ComponentType.SKILLS_RADAR
  then
    <["skills" := nullish (prop baseProps "skills") (skills profile)]> baseProps
  else if String.eqb type ComponentType.STATS_BENTO
  then
    <["achievements" :=
        nullish (nullish (prop baseProps "achievements") (achievements profile))
                (emptyArray ref)]> baseProps
  else baseProps.

End Renderer.

End PortfolioRenderer.

(* ===================================================================== *)
(** ** Inputs for the examples *)
(* ===================================================================== *)

Module Examples.

(** A well-formed plugin for the examples: a gallery in the hero
  category, with the identifier given. *)
Definition galleryPlugin (id : Js.Value) : PluginManager.ExtendedComponentPlugin :=
{| PluginManager.id := id;
   PluginManager.component := Some (CustomRenderer 1);
   PluginManager.metadata :=
     Some {| PluginManager.name := "Gallery";
             PluginManager.description := "Image gallery";
             PluginManager.category := "hero";
             PluginManager.requiredProps := Some ["images"];
             PluginManager.optionalProps := [] |};
   PluginManager.validateProps :=
     Some (fun _ => {| valid := true; errors := []; warnings := [] |});
   PluginManager.toolDefinition := None;
   PluginManager.hooks := None;
   PluginManager.config := None |}.

Definition fractionalOrder : ComponentConfig :=
{| type := ComponentType.HERO_PRISM;
   props := <["name" := Js.Str "A"]> (<["title" := Js.Str "B"]> ∅);
   order := Js.Num (Js.Finite (3 # 2));
   theme := None |}.

Definition negativeOrder : ComponentConfig :=
{| type := ComponentType.HERO_PRISM;
   props := <["name" := Js.Str "A"]> (<["title" := Js.Str "B"]> ∅);
   order := Js.Num (Js.Finite (-1));
   theme := None |}.

Definition heroAt (order : Q) : ComponentConfig :=
{| type := ComponentType.HERO_PRISM;
   props := <["name" := Js.Str "A"]> (<["title" := Js.Str "B"]> ∅);
   order := Js.Num (Js.Finite order);
   theme := None |}.

Definition customComponentsForbidden : ComponentConfigManager.PartialGlobalConfig :=
{| ComponentConfigManager.defaultSettings' := None;
   ComponentConfigManager.componentOverrides' := None;
   ComponentConfigManager.disabledComponents' := None;
   ComponentConfigManager.maxComponentsPerLayout' := None;
   ComponentConfigManager.allowCustomComponents' := Some false;
   ComponentConfigManager.debugMode' := None |}.

Definition brandedDefaults : ComponentConfigManager.PartialGlobalConfig :=
{| ComponentConfigManager.defaultSettings' :=
     Some {| ComponentConfigManager.animationsEnabled := true;
             ComponentConfigManager.animationDuration := Js.Finite 300;
             ComponentConfigManager.showTooltips := true;
             ComponentConfigManager.customClasses := ["base"];
             ComponentConfigManager.themeOverrides :=
               {[ "primary" := "#000000"; "accent" := "#111111" ]};
             ComponentConfigManager.featureFlags := ∅ |};
   ComponentConfigManager.componentOverrides' := None;
   ComponentConfigManager.disabledComponents' := None;
   ComponentConfigManager.maxComponentsPerLayout' := None;
   ComponentConfigManager.allowCustomComponents' := None;
   ComponentConfigManager.debugMode' := None |}.

Definition heroOverrides : ComponentConfigManager.PartialSettings :=
{| ComponentConfigManager.animationsEnabled' := Some false;
   ComponentConfigManager.animationDuration' := None;
   ComponentConfigManager.showTooltips' := None;
   ComponentConfigManager.customClasses' := Some ["glow"];
   ComponentConfigManager.themeOverrides' := Some {[ "primary" := "#ffffff" ]};
   ComponentConfigManager.featureFlags' := None |}.

(** A profile as the backend sends it for a candidate without projects
  or achievements, and a configuration that brings no props. *)
Definition adaProfile : PortfolioRenderer.CandidateProfile :=
{| PortfolioRenderer.name := Js.Str "Ada";
   PortfolioRenderer.title := Js.Str "Engineer";
   PortfolioRenderer.contact := Js.Null;
   PortfolioRenderer.experience := Js.Array 1 [];
   PortfolioRenderer.projects := Js.Undefined;
   PortfolioRenderer.skills := Js.Array 2 [];
   PortfolioRenderer.achievements := Js.Undefined |}.

Definition bare (type : string) : ComponentConfig :=
{| type := type; props := ∅; order := Js.Num (Js.Finite 0); theme := None |}.

Definition noSkills : Props := <["skills" := Js.Array 0 []]> ∅.

End Examples.
Import Examples.

(* ===================================================================== *)
(** * Properties *)
(* ===================================================================== *)

(** ** Strings *)

Section StringFacts.

Lemma append_cons (c : ascii) (a b : string) :
  String c a +:+ b = String c (a +:+ b).
Proof. reflexivity. Qed.

Lemma append_empty (b : string) : "" +:+ b = b.
Proof. reflexivity. Qed.

Lemma prefix_append (n x : string) : String.prefix n (n +:+ x) = true.
Proof.
  induction n as [|c n IH].
  - rewrite append_empty. now destruct x.
  - rewrite append_cons. simpl.
    destruct (ascii_dec c c); [exact IH | congruence].
Qed.

Lemma prefix_append_l (n a b : string) :
  String.prefix n a = true -> String.prefix n (a +:+ b) = true.
Proof.
  revert a; induction n as [|c n IH]; intros a H.
  - now destruct (a +:+ b).
  - destruct a as [|d a]; [discriminate |].
    rewrite append_cons. simpl in *.
    destruct (ascii_dec c d); [now apply IH | discriminate].
Qed.

Lemma includes_unfold (hay needle : string) :
  Js.includes hay needle =
  String.prefix needle hay ||
  match hay with
  | EmptyString => false
  | String _ rest => Js.includes rest needle
  end.
Proof. destruct hay; reflexivity. Qed.

Lemma includes_prefix (hay needle : string) :
  String.prefix needle hay = true -> Js.includes hay needle = true.
Proof. intros H. rewrite includes_unfold, H. reflexivity. Qed.

Lemma includes_append_r (a b needle : string) :
  Js.includes b needle = true -> Js.includes (a +:+ b) needle = true.
Proof.
  intros H. induction a as [|c a IH]; [exact H |].
  rewrite append_cons, includes_unfold, IH. apply orb_true_r.
Qed.

Lemma includes_append_l (a b needle : string) :
  Js.includes a needle = true -> Js.includes (a +:+ b) needle = true.
Proof.
  induction a as [|c a IH]; intros H; rewrite includes_unfold in H.
  - rewrite orb_false_r in H. apply includes_prefix, prefix_append_l, H.
  - apply orb_true_iff in H as [H|H].
    + apply includes_prefix, prefix_append_l, H.
    + rewrite append_cons, includes_unfold, (IH H). apply orb_true_r.
Qed.

Lemma includes_middle (a x b : string) : Js.includes (a +:+ x +:+ b) x = true.
Proof. apply includes_append_r, includes_prefix, prefix_append. Qed.

Lemma toLowerCase_append (a b : string) :
  Js.toLowerCase (a +:+ b) = Js.toLowerCase a +:+ Js.toLowerCase b.
Proof.
  induction a as [|c a IH]; [reflexivity |].
  rewrite append_cons. simpl. now rewrite IH.
Qed.

Lemma mentions_append_l (a b word : string) :
  Js.mentions a word = true -> Js.mentions (a +:+ b) word = true.
Proof.
  unfold Js.mentions. rewrite toLowerCase_append. apply includes_append_l.
Qed.

Lemma mentions_append_r (a b word : string) :
  Js.mentions b word = true -> Js.mentions (a +:+ b) word = true.
Proof.
  unfold Js.mentions. rewrite toLowerCase_append. apply includes_append_r.
Qed.

(** Membership in an array of strings, as a proposition. *)
Lemma array_includes_In (xs : list string) (x : string) :
  Js.array_includes xs x = true <-> In x xs.
Proof.
  unfold Js.array_includes. rewrite existsb_exists. split.
  - intros (y & Hy & E). apply String.eqb_eq in E. now subst.
  - intros H. exists x. split; [exact H | apply String.eqb_refl].
Qed.

End StringFacts.

(** ** Theme engine *)

Section ThemeFacts.
Import ThemeEngine.

Lemma isValidTheme_cases (theme : string) :
  isValidTheme (Js.Str theme) = true ->
  theme = ThemePalette.NEON_BLUE \/ theme = ThemePalette.EMERALD_GREEN \/
  theme = ThemePalette.CYBER_PINK.
Proof.
  intros H. apply andb_true_iff in H as [_ H].
  apply array_includes_In in H. simpl in H. intuition.
Qed.

Lemma default_definition_populated :
  exists d, THEME_DEFINITIONS !! DEFAULT_THEME = Some d /\ populated d /\
            name d = DEFAULT_THEME.
Proof.
  eexists. split; [reflexivity |]. split; [|reflexivity].
  repeat split; discriminate.
Qed.

Lemma valid_definition_populated (theme : string) :
  isValidTheme (Js.Str theme) = true ->
  exists d, THEME_DEFINITIONS !! theme = Some d /\ populated d /\ name d = theme.
Proof.
  intros H. destruct (isValidTheme_cases _ H) as [-> | [-> | ->]];
    (eexists; split; [reflexivity |]; split; [repeat split; discriminate | reflexivity]).
Qed.

(** C6 (theme totality). For every string, [getThemeDefinition] returns a
    definition (never [undefined]) whose four colors and CSS class are
    non-empty; for one of the three palette identifiers it is the
    definition of that palette and nothing is logged, for any other
    string it is the definition of the default theme; and the value
    returned is a function of the argument alone. *)
Theorem getThemeDefinition_total (theme : string) :
  (exists d,
      fst (getThemeDefinition theme) = Some d /\ populated d /\
      ((isValidTheme (Js.Str theme) = true /\ name d = theme /\
        snd (getThemeDefinition theme) = []) \/
       (isValidTheme (Js.Str theme) = false /\
        Some d = THEME_DEFINITIONS !! DEFAULT_THEME /\
        name d = DEFAULT_THEME))) /\
  (forall again : string, again = theme ->
      getThemeDefinition again = getThemeDefinition theme).
Proof.
  split; [| now intros ? ->].
  unfold getThemeDefinition.
  destruct (isValidTheme (Js.Str theme)) eqn:V; simpl.
  - destruct (valid_definition_populated _ V) as (d & L & P & N).
    exists d. auto 6.
  - destruct default_definition_populated as (d & L & P & N).
    exists d. auto 7.
Qed.

End ThemeFacts.

(** ** Theme engine: deferred notification *)

Section ThemeNotification.
Import ThemeEngine.

Variable throws : Listener -> string -> option string.

Lemma iter_runMicrotask (pending : list Microtask) :
  forall w : World,
    microtasks w = pending ->
    let w' := Nat.iter (length pending) (runMicrotask throws) w in
    calls w' = (calls w ++ flat_map (invocations (listeners w)) pending)%list /\
    listeners w' = listeners w /\ currentTheme w' = currentTheme w /\
    microtasks w' = [].
Proof.
  induction pending as [|t rest IH]; intros w Hq; simpl.
  - rewrite app_nil_r. auto.
  - rewrite <- Nat.iter_succ, Nat.iter_succ_r.
    unfold runMicrotask at 2 4 6 8. rewrite Hq. destruct t as [v].
    match goal with
    | |- context [Nat.iter _ _ ?x] => destruct (IH x eq_refl) as (C & L & T & M)
    end.
    simpl in C, L, T, M. rewrite C, L, T, M.
    rewrite <- app_assoc. auto.
Qed.

(** Running the pending microtasks calls, for each of them in turn, every
    listener; it changes neither the theme nor the listeners. *)
Lemma runMicrotasks_calls (w : World) :
  calls (runMicrotasks throws w) =
    (calls w ++ flat_map (invocations (listeners w)) (microtasks w))%list /\
  listeners (runMicrotasks throws w) = listeners w /\
  currentTheme (runMicrotasks throws w) = currentTheme w.
Proof.
  destruct (iter_runMicrotask (microtasks w) w eq_refl) as (C & L & T & _).
  auto.
Qed.

Lemma applyGlobalTheme_frame (v : string) (w : World) :
  currentTheme (applyGlobalTheme v w) = currentTheme w /\
  listeners (applyGlobalTheme v w) = listeners w /\
  calls (applyGlobalTheme v w) = calls w /\
  microtasks (applyGlobalTheme v w) = microtasks w.
Proof.
  unfold applyGlobalTheme. destruct (hasDocument w); simpl; [|auto].
  destruct (getThemeDefinition v); simpl; auto.
Qed.

Lemma setTheme_same (theme : string) (w : World) :
  validated theme = currentTheme w -> setTheme theme w = w.
Proof.
  unfold setTheme, validated. intros ->. now rewrite String.eqb_refl.
Qed.

Lemma setTheme_changed (theme : string) (w : World) :
  validated theme <> currentTheme w ->
  currentTheme (setTheme theme w) = validated theme /\
  listeners (setTheme theme w) = listeners w /\
  calls (setTheme theme w) = calls w /\
  microtasks (setTheme theme w) =
    (microtasks w ++ [NotifyListeners (validated theme)])%list.
Proof.
  unfold setTheme, validated. intros Hne.
  apply String.eqb_neq in Hne. rewrite Hne.
  match goal with
  | |- context [applyGlobalTheme ?v ?x] =>
      destruct (applyGlobalTheme_frame v x) as (T & L & C & M)
  end.
  simpl. rewrite T, L, C, M. auto.
Qed.

(** C7 (non-blocking theme change). When [setTheme(theme)] changes the
    theme, it has stored the new theme by the time it returns, it has
    called no listener, and it has queued one microtask; the listeners are
    called, each once and with the new theme, when the host later runs
    the pending microtasks. When the theme it settles on is the current
    one, [setTheme] changes nothing and queues nothing: this is so for
    the current theme itself, and for an invalid identifier while the
    current theme is the default. *)
Theorem setTheme_defers_notification (theme : string) (w : World) :
  (validated theme <> currentTheme w ->
     getTheme (setTheme theme w) = validated theme /\
     calls (setTheme theme w) = calls w /\
     microtasks (setTheme theme w) =
       (microtasks w ++ [NotifyListeners (validated theme)])%list /\
     calls (runMicrotasks throws (setTheme theme w)) =
       (calls (runMicrotasks throws w) ++
        map (fun l => (l, validated theme)) (listeners w))%list) /\
  (validated theme = currentTheme w ->
     setTheme theme w = w /\
     calls (runMicrotasks throws (setTheme theme w)) =
       calls (runMicrotasks throws w)) /\
  (isValidTheme (Js.Str (currentTheme w)) = true ->
     setTheme (currentTheme w) w = w) /\
  (isValidTheme (Js.Str theme) = false -> currentTheme w = DEFAULT_THEME ->
     setTheme theme w = w).
Proof.
  repeat split.
  - now apply setTheme_changed.
  - now apply setTheme_changed.
  - now apply setTheme_changed.
  - destruct (setTheme_changed theme w H) as (T & L & C & M).
    destruct (runMicrotasks_calls (setTheme theme w)) as (-> & _ & _).
    destruct (runMicrotasks_calls w) as (-> & _ & _).
    rewrite C, L, M, flat_map_app. simpl.
    now rewrite app_nil_r, app_assoc.
  - now apply setTheme_same.
  - now rewrite setTheme_same.
  - intros V. apply setTheme_same. unfold validated. now rewrite V.
  - intros V D. apply setTheme_same. unfold validated. now rewrite V, D.
Qed.

End ThemeNotification.

(** A listener subscribed to a fresh engine sees nothing while
    [setTheme] runs and one call once the microtasks have run; setting the
    default theme again, or an unknown theme, does nothing. *)
Lemma setTheme_defers_notification_witness :
  let w := ThemeEngine.subscribe 7 (ThemeEngine.init true) in
  let quiet : ThemeEngine.Listener -> string -> option string := fun _ _ => None in
  ThemeEngine.calls (ThemeEngine.setTheme "emerald_green" w) = [] /\
  ThemeEngine.calls
    (ThemeEngine.runMicrotasks quiet (ThemeEngine.setTheme "emerald_green" w))
    = [(7, "emerald_green")] /\
  ThemeEngine.setTheme "neon_blue" w = w /\
  ThemeEngine.setTheme "solarized" w = w.
Proof.
  intros w quiet.
  destruct (setTheme_defers_notification quiet "emerald_green" w) as (Hc & _).
  destruct Hc as (_ & C & _ & R); [discriminate |].
  destruct (setTheme_defers_notification quiet "neon_blue" w) as (_ & _ & Hs & _).
  destruct (setTheme_defers_notification quiet "solarized" w) as (_ & _ & _ & Hi).
  split; [exact C |]. split; [exact R |].
  split; [exact (Hs eq_refl) | exact (Hi eq_refl eq_refl)].
Defined.

(** ** Core registry *)

Section CoreRegistryFacts.
Context {rt : Js.Runtime}.
Import ComponentRegistry.

Lemma isValidComponentType_cases (type : string) :
  isValidComponentType type = true ->
  type = ComponentType.HERO_PRISM \/ type = ComponentType.HERO_TERMINAL \/
  type = ComponentType.EXP_TIMELINE \/ type = ComponentType.EXP_MASONRY \/
  type = ComponentType.SKILLS_DOTS \/ type = ComponentType.SKILLS_RADAR \/
  type = ComponentType.STATS_BENTO.
Proof.
  intros H. apply array_includes_In in H. simpl in H. intuition.
Qed.

(** The three tables have an entry for every core identifier, so
    [initializeRegistry] registers each of them. *)
Lemma tables_complete (type : string) :
  isValidComponentType type = true ->
  exists c m v,
    COMPONENT_MAP !! type = Some c /\ componentMetadata !! type = Some m /\
    propValidators !! type = Some v /\
    registry !! type = Some (Build_RegistryEntry c m v).
Proof.
  intros H.
  destruct (isValidComponentType_cases _ H)
    as [-> | [-> | [-> | [-> | [-> | [-> | ->]]]]]];
    do 3 eexists; repeat split; reflexivity.
Qed.

Lemma registry_validator (type : string) :
  isValidComponentType type = true ->
  exists entry, registry !! type = Some entry /\
    In (Types.validateProps entry)
       [validateHeroPrism; validateHeroTerminal; validateExpTimeline;
        validateExpMasonry; validateSkillDots; validateSkillRadar; validateBentoGrid].
Proof.
  intros H.
  destruct (isValidComponentType_cases _ H)
    as [-> | [-> | [-> | [-> | [-> | [-> | ->]]]]]];
    (eexists; split; [reflexivity | simpl; auto 8]).
Qed.

(** No prop validator reports the error of the [order] check. *)
Lemma validateList_errors (key missing empty : string) (few : option (nat * string))
    (props : Props) (e : string) :
  In e (errors (validateList key missing empty few props)) -> e = missing.
Proof.
  unfold validateList.
  destruct (notAnArray _); [simpl; intuition |].
  destruct (Nat.eqb _ 0); [simpl; intuition |].
  destruct few as [[n msg]|]; [destruct (Nat.ltb _ n) |]; simpl; intuition.
Qed.

Lemma validator_errors_not_order (props : Props) (v : Props -> ValidationResult) :
  In v [validateHeroPrism; validateHeroTerminal; validateExpTimeline;
        validateExpMasonry; validateSkillDots; validateSkillRadar; validateBentoGrid] ->
  ~ In orderError (errors (v props)).
Proof.
  simpl. intros [<- | [<- | [<- | [<- | [<- | [<- | [<- | []]]]]]]] Hin;
    try (apply validateList_errors in Hin; discriminate).
  - unfold validateHeroPrism, result, pushIf in Hin.
    destruct (notAString (prop props "name")), (notAString (prop props "title"));
      simpl in Hin; intuition discriminate.
  - unfold validateHeroTerminal, result, pushIf in Hin.
    destruct (notAString (prop props "name")), (notAString (prop props "title")),
      (notAnArray (prop props "commands"));
      simpl in Hin; intuition discriminate.
Qed.

Lemma validateProps_unknown (type : string) (props : Props) :
  isValidComponentType type = false ->
  validateProps type props =
    {| valid := false; errors := ["Unknown component type: " +:+ type];
       warnings := [] |}.
Proof. unfold validateProps. now intros ->. Qed.

Lemma validateProps_not_order (type : string) (props : Props) :
  ~ In orderError (errors (validateProps type props)).
Proof.
  destruct (isValidComponentType type) eqn:V.
  - unfold validateProps. rewrite V. simpl.
    destruct (registry_validator _ V) as (entry & -> & Hv).
    now apply validator_errors_not_order.
  - rewrite validateProps_unknown by exact V. simpl.
    intros [E | []]. discriminate E.
Qed.

(** The [order] check passes exactly on the numbers that are not below
    zero: the non-negative finite ones, [Infinity] and [NaN]. *)
Lemma orderRejected_false (order : Js.Value) :
  orderRejected order = false <->
  exists n, order = Js.Num n /\
            (n = Js.NaN \/ n = Js.PosInfinity \/
             exists q, n = Js.Finite q /\ (0 <= q)%Q).
Proof.
  unfold orderRejected. split.
  - destruct order as [| |b|n|s|r l|r l|r]; simpl; try discriminate.
    intros H. exists n. split; [reflexivity |].
    destruct n as [q| | |]; simpl in H; try discriminate; auto.
    right; right. exists q. split; [reflexivity |].
    apply Qle_bool_iff. now destruct (Qle_bool 0 q).
  - intros (n & -> & [-> | [-> | (q & -> & Hq)]]); simpl; try reflexivity.
    apply Qle_bool_iff in Hq. now rewrite Hq.
Qed.

(** C4, as the code has it. [validateComponentConfig] reports the error
    about [order] exactly when [order] is not a number or is a number
    below zero; a number that is not below zero passes whether it is an
    integer or not. The errors are those of the prop validation followed
    by the [order] error if there is one, the warnings are those of the
    prop validation, and the configuration is valid exactly when there is
    no error of either kind. Hence every negative and every non-numeric
    [order] fails validation. *)
Theorem validateComponentConfig_order (config : ComponentConfig) :
  let r := validateComponentConfig config in
  let typeValidation := validateProps (type config) (props config) in
  errors r =
    (errors typeValidation ++
     if orderRejected (order config) then [orderError] else [])%list /\
  warnings r = warnings typeValidation /\
  (valid r = true <->
     errors typeValidation = [] /\ orderRejected (order config) = false) /\
  (In orderError (errors r) <-> orderRejected (order config) = true) /\
  (orderRejected (order config) = false <->
     exists n, order config = Js.Num n /\
               (n = Js.NaN \/ n = Js.PosInfinity \/
                exists q, n = Js.Finite q /\ (0 <= q)%Q)) /\
  Js.mentions orderError "order" = true.
Proof.
  intros r typeValidation. subst r. unfold validateComponentConfig.
  fold typeValidation. simpl.
  pose proof (validateProps_not_order (type config) (props config)) as Hno.
  fold typeValidation in Hno.
  unfold pushIf. destruct (orderRejected (order config)) eqn:R.
  - split; [reflexivity |]. split; [reflexivity |]. split.
    { split.
      - intros H. rewrite length_app, Nat.add_comm in H. discriminate H.
      - intros [_ H]. discriminate H. }
    split.
    { split; [reflexivity |]. intros _. apply in_or_app. right. now left. }
    split; [| reflexivity].
    split; [discriminate |].
    intros H. apply orderRejected_false in H. congruence.
  - rewrite app_nil_r. split; [reflexivity |]. split; [reflexivity |]. split.
    { split.
      - intros H. split; [| reflexivity].
        destruct (errors typeValidation); [reflexivity | discriminate H].
      - intros [-> _]. reflexivity. }
    split.
    { split; [intros H; contradiction | discriminate]. }
    split; [| reflexivity].
    split; [intros _; now apply orderRejected_false | reflexivity].
Qed.

End CoreRegistryFacts.

(** C4 as stated fails: [order: 1.5] is not an integer, and a hero
    configuration carrying it is valid, with no error at all. *)
Lemma validateComponentConfig_order_counterexample :
  Js.number_isInteger (Js.Finite (3 # 2)) = false /\
  @ComponentRegistry.validateComponentConfig Js.exampleRuntime fractionalOrder =
    {| valid := true; errors := []; warnings := [] |}.
Proof. split; reflexivity. Qed.

(** The same configuration with [order: -1] is rejected for its order
    alone, and with [order: 1.5] it is accepted. *)
Lemma validateComponentConfig_order_witness :
  In ComponentRegistry.orderError
     (errors (@ComponentRegistry.validateComponentConfig Js.exampleRuntime negativeOrder)) /\
  valid (@ComponentRegistry.validateComponentConfig Js.exampleRuntime fractionalOrder) = true.
Proof.
  destruct (@validateComponentConfig_order Js.exampleRuntime negativeOrder)
    as (_ & _ & _ & [_ Hneg] & _).
  destruct (@validateComponentConfig_order Js.exampleRuntime fractionalOrder)
    as (_ & _ & [_ Hfrac] & _).
  split.
  - apply Hneg. reflexivity.
  - apply Hfrac. split; reflexivity.
Defined.

(** ** Layout validation *)

Section LayoutFacts.
Context {rt : Js.Runtime}.
Import ComponentRegistry.

Lemma number_eq_trans (a b c : Js.Number) :
  Js.number_eq a b = true -> Js.number_eq b c = true -> Js.number_eq a c = true.
Proof.
  destruct a, b; simpl; try discriminate; destruct c; simpl;
    try discriminate; auto.
  apply Qeq_bool_trans.
Qed.

Lemma sameValueZero_trans (a b c : Js.Value) :
  Js.sameValueZero a b = true -> Js.sameValueZero b c = true ->
  Js.sameValueZero a c = true.
Proof.
  destruct a, b; simpl; try discriminate; destruct c; simpl;
    try discriminate; auto.
  - destruct b, b0, b1; simpl; congruence.
  - apply number_eq_trans.
  - rewrite !String.eqb_eq. congruence.
  - rewrite !Nat.eqb_eq. congruence.
  - rewrite !Nat.eqb_eq. congruence.
  - rewrite !Nat.eqb_eq. congruence.
Qed.

(** [orders] holds, up to the equality of the set, the values added. *)
Lemma ordersHas_add (orders : list Js.Value) (a v : Js.Value) :
  ordersHas (ordersAdd orders a) v = ordersHas orders v || Js.sameValueZero v a.
Proof.
  unfold ordersAdd. destruct (ordersHas orders a) eqn:Ha.
  - destruct (Js.sameValueZero v a) eqn:Hva; [| now rewrite orb_false_r].
    rewrite orb_true_r. unfold ordersHas in *.
    apply existsb_exists in Ha as (x & Hx & Hax).
    apply existsb_exists. exists x. split; [exact Hx |].
    now apply sameValueZero_trans with a.
  - unfold ordersHas. rewrite existsb_app. simpl. now rewrite orb_false_r.
Qed.

Lemma visit_loopErrors (i : nat) (c : ComponentConfig) (st : LoopState) :
  loopErrors (visit i c st) =
    if valid (validateComponentConfig c) then loopErrors st
    else (loopErrors st ++
          ["Component " +:+ pretty i +:+ " (" +:+ type c +:+ "): " +:+
           Js.join ", " (errors (validateComponentConfig c))])%list.
Proof.
  unfold visit, pushIf. cbn [loopErrors].
  now destruct (valid (validateComponentConfig c)).
Qed.

Lemma visit_loopWarnings (i : nat) (c : ComponentConfig) (st : LoopState) :
  exists added,
    loopWarnings (visit i c st) =
      ((loopWarnings st ++ added) ++
       if ordersHas (orders st) (order c) then [duplicateOrderWarning (order c)]
       else [])%list.
Proof.
  unfold visit, pushIf. cbn [loopWarnings]. eexists.
  destruct (ordersHas _ _); [reflexivity | now rewrite app_nil_r].
Qed.

Lemma visit_orders (i : nat) (c : ComponentConfig) (st : LoopState) :
  orders (visit i c st) = ordersAdd (orders st) (order c).
Proof. reflexivity. Qed.

Lemma visit_warnings (i : nat) (c : ComponentConfig) (st : LoopState) (w : string) :
  In w (loopWarnings st) -> In w (loopWarnings (visit i c st)).
Proof.
  intros H. destruct (visit_loopWarnings i c st) as (added & ->).
  rewrite !in_app_iff. auto.
Qed.

Lemma visitFrom_warnings (cs : list ComponentConfig) :
  forall (i : nat) (st : LoopState) (w : string),
    In w (loopWarnings st) -> In w (loopWarnings (visitFrom i cs st)).
Proof.
  induction cs as [|c cs IH]; intros i st w H; [exact H |].
  cbn [visitFrom]. apply IH, visit_warnings, H.
Qed.

Lemma visitFrom_errors (cs : list ComponentConfig) :
  forall (i : nat) (st : LoopState),
    (Forall componentError (loopErrors st) ->
     Forall componentError (loopErrors (visitFrom i cs st))) /\
    (Forall (fun c => valid (validateComponentConfig c) = true) cs ->
     loopErrors (visitFrom i cs st) = loopErrors st).
Proof.
  induction cs as [|c cs IH]; intros i st; [cbn [visitFrom]; auto |].
  cbn [visitFrom].
  destruct (IH (S i) (visit i c st)) as [IHp IHv]. split.
  - intros H. apply IHp. rewrite visit_loopErrors.
    destruct (valid (validateComponentConfig c)); [exact H |].
    apply Forall_app. split; [exact H |].
    constructor; [| constructor].
    unfold componentError. apply prefix_append.
  - intros H. inversion H as [|? ? Hc Hcs]; subst.
    rewrite (IHv Hcs), visit_loopErrors. now rewrite Hc.
Qed.

Lemma visitFrom_duplicate (pre : list ComponentConfig) :
  forall (i : nat) (st : LoopState) (b : ComponentConfig) (post : list ComponentConfig),
    ordersHas (orders st) (order b) = true \/
    (exists a, In a pre /\ Js.sameValueZero (order b) (order a) = true) ->
    In (duplicateOrderWarning (order b))
       (loopWarnings (visitFrom i (pre ++ b :: post) st)).
Proof.
  induction pre as [|p pre IH]; intros i st b post H.
  - destruct H as [H | (a & [] & _)].
    cbn [app visitFrom]. apply visitFrom_warnings.
    destruct (visit_loopWarnings i b st) as (added & ->).
    rewrite H. apply in_or_app. right. now left.
  - change ((p :: pre) ++ b :: post)%list with (p :: (pre ++ b :: post))%list.
    cbn [visitFrom]. apply IH. rewrite visit_orders, ordersHas_add.
    destruct H as [-> | (a & [<- | Ha] & E)].
    + now left.
    + left. rewrite E. apply orb_true_r.
    + right. eauto.
Qed.

Lemma layoutWarnings_cases (configs : list ComponentConfig) :
  (configs = [] -> In "Layout has no components configured" (layoutWarnings configs)) /\
  (length (List.filter isHero configs) = 0 ->
   In "Layout has no hero component" (layoutWarnings configs)) /\
  (1 < length (List.filter isHero configs) ->
   In "Layout has multiple hero components" (layoutWarnings configs)).
Proof.
  unfold layoutWarnings, pushIf. repeat split.
  - intros ->. simpl. now left.
  - intros ->. simpl. apply in_or_app. right. now left.
  - intros H. destruct (Nat.eqb_spec (length (List.filter isHero configs)) 0); [lia |].
    apply Nat.ltb_lt in H. rewrite H. apply in_or_app. right. now left.
Qed.

Lemma duplicateOrderWarning_mentions (v : Js.Value) :
  Js.mentions (duplicateOrderWarning v) "duplicate order" = true.
Proof. unfold duplicateOrderWarning. now apply mentions_append_l. Qed.

(** C5. The result of [validateLayoutComponents] is valid exactly when
    its list of errors is empty. For an array of configurations, every
    error is the failure of one component ("Component i (type): ..."), so
    none is one of the layout-level messages, and there is no error at
    all when each component validates on its own. The empty layout, the
    layout without a hero component, the layout with several hero
    components and a repeated [order] each add their message to the
    warnings; the message about a repeated [order] mentions "duplicate
    order" whatever the case of the letters. *)
Theorem validateLayoutComponents_warnings_only (input : LayoutInput) :
  let r := validateLayoutComponents input in
  (valid r = true <-> errors r = []) /\
  (forall configs : list ComponentConfig, input = Configs configs ->
     (forall e, In e (errors r) ->
        componentError e /\
        e <> "Layout has no components configured" /\
        e <> "Layout has no hero component" /\
        e <> "Layout has multiple hero components" /\
        forall v, e <> duplicateOrderWarning v) /\
     (Forall (fun c => valid (validateComponentConfig c) = true) configs ->
        errors r = [] /\ valid r = true) /\
     (configs = [] -> In "Layout has no components configured" (warnings r)) /\
     (length (List.filter isHero configs) = 0 ->
        In "Layout has no hero component" (warnings r)) /\
     (1 < length (List.filter isHero configs) ->
        In "Layout has multiple hero components" (warnings r)) /\
     (forall pre a mid b post,
        configs = (pre ++ a :: mid ++ b :: post)%list ->
        Js.sameValueZero (order b) (order a) = true ->
        In (duplicateOrderWarning (order b)) (warnings r))) /\
  (forall v, Js.mentions (duplicateOrderWarning v) "duplicate order" = true).
Proof.
  intros r. split; [| split; [| apply duplicateOrderWarning_mentions]].
  - subst r. destruct input as [|configs]; simpl.
    + split; discriminate.
    + destruct (loopErrors _); simpl; split; (reflexivity || discriminate).
  - intros configs ->. subst r. simpl.
    set (st0 := {| loopErrors := []; loopWarnings := layoutWarnings configs;
                   orders := [] |}).
    destruct (visitFrom_errors configs 0 st0) as [Hp Hv].
    destruct (layoutWarnings_cases configs) as (W0 & W1 & W2).
    split; [| split; [| split; [| split; [| split]]]].
    + intros e He.
      assert (Hc : componentError e).
      { specialize (Hp ltac:(constructor)). rewrite Forall_forall in Hp.
        apply Hp. now apply list_elem_of_In. }
      split; [exact Hc |]. unfold componentError in Hc.
      repeat split; try (intros ->; discriminate Hc).
      intros v ->. discriminate Hc.
    + intros H. rewrite (Hv H). simpl. auto.
    + intros H. apply visitFrom_warnings, W0, H.
    + intros H. apply visitFrom_warnings, W1, H.
    + intros H. apply visitFrom_warnings, W2, H.
    + intros pre a mid b post -> E.
      change (pre ++ a :: mid ++ b :: post)%list
        with (pre ++ (a :: mid) ++ b :: post)%list.
      rewrite app_assoc. apply visitFrom_duplicate. right.
      exists a. split; [| exact E]. apply in_or_app. right. now left.
Qed.

End LayoutFacts.

(** Two hero components that both have [order: 0] make a valid layout
    with two warnings; the empty layout is valid with a warning too. *)
Lemma validateLayoutComponents_warnings_only_witness :
  let twice := ComponentRegistry.Configs [heroAt 0; heroAt 0] in
  let r := @ComponentRegistry.validateLayoutComponents Js.exampleRuntime twice in
  let r0 := @ComponentRegistry.validateLayoutComponents Js.exampleRuntime
              (ComponentRegistry.Configs []) in
  valid r = true /\
  In "Layout has multiple hero components" (warnings r) /\
  In "Duplicate order value 0 found" (warnings r) /\
  valid r0 = true /\
  In "Layout has no components configured" (warnings r0) /\
  In "Layout has no hero component" (warnings r0).
Proof.
  intros twice r r0.
  destruct (@validateLayoutComponents_warnings_only Js.exampleRuntime twice)
    as (_ & H & _).
  destruct (H [heroAt 0; heroAt 0] eq_refl) as (_ & Hv & _ & _ & Hm & Hd).
  destruct (@validateLayoutComponents_warnings_only Js.exampleRuntime
              (ComponentRegistry.Configs [])) as (_ & H0 & _).
  destruct (H0 [] eq_refl) as (_ & Hv0 & He & Hh & _).
  split.
  { apply Hv. repeat constructor. }
  split.
  { apply Hm. simpl. lia. }
  split.
  { apply (Hd [] (heroAt 0) [] (heroAt 0) [] eq_refl). reflexivity. }
  split.
  { apply Hv0. constructor. }
  split.
  { apply He. reflexivity. }
  apply Hh. reflexivity.
Defined.

(** ** Extensible registry *)

Section ExtensibleRegistryFacts.
Context {rt : Js.Runtime}.
Import ExtensibleComponentRegistry.

Lemma core_getComponent (componentId : string) :
  isCoreComponent componentId = true ->
  exists c m,
    ComponentRegistry.getComponent componentId = (Some c, []) /\
    ComponentRegistry.COMPONENT_MAP !! componentId = Some c /\
    ComponentRegistry.getMetadata componentId = Some m /\
    ComponentRegistry.componentMetadata !! componentId = Some m.
Proof.
  intros H.
  destruct (tables_complete componentId H) as (c & m & v & Hc & Hm & _ & Hr).
  exists c, m.
  unfold ComponentRegistry.getComponent, ComponentRegistry.getMetadata.
  unfold isCoreComponent in H. unfold ComponentRegistry.isValidComponentType.
  rewrite H, Hr. auto.
Qed.

(** C1 (core inviolability). Whatever operations have been performed on
    the registry and on its two managers, from whatever state, looking up
    a core identifier reports the source "core", is not a plugin, and
    returns the renderer and the metadata of the core tables, both
    non-null; and [unregisterComponent] on it returns false and leaves
    the registry as it was. *)
Theorem core_inviolable (ops : list Operation) (s0 : State) (componentId : string) :
  isCoreComponent componentId = true ->
  let s := performAll ops s0 in
  let lookup := getComponent componentId s in
  source lookup = core /\
  isPlugin lookup = false /\
  is_Some (component lookup) /\
  is_Some (metadata lookup) /\
  component lookup = ComponentRegistry.COMPONENT_MAP !! componentId /\
  metadata lookup = ComponentRegistry.componentMetadata !! componentId /\
  component lookup = component (getComponent componentId s0) /\
  metadata lookup = metadata (getComponent componentId s0) /\
  unregisterComponent componentId s = (false, s).
Proof.
  intros H s lookup. subst lookup.
  destruct (core_getComponent componentId H) as (c & m & Hc & Hc' & Hm & Hm').
  unfold getComponent, unregisterComponent. rewrite H. simpl.
  rewrite Hc, Hc', Hm, Hm'. simpl. repeat split; eauto.
Qed.

(** *** Fallback components *)

Lemma fallback_tables (category : string) :
  In category ["hero"; "experience"; "skills"; "stats"] ->
  exists fallbackType renderer,
    ComponentRegistry.FALLBACK_COMPONENTS !! category = Some fallbackType /\
    ComponentRegistry.COMPONENT_MAP !! fallbackType = Some renderer /\
    isCoreComponent fallbackType = true /\
    Js.truthy (Js.Str fallbackType) = true.
Proof.
  simpl. intros [<- | [<- | [<- | [<- | []]]]];
    do 2 eexists; repeat split; reflexivity.
Qed.

(** C2, as the code has it. For each of the four categories the core
    fallback identifier is a core identifier with a renderer, and
    [getFallbackComponent] returns: the category default set on the
    plugin manager when that resolves to an enabled component; otherwise
    the core fallback renderer when the core fallback identifier is not
    disabled; otherwise null. So the fallback is non-null whenever the
    core fallback identifier is not disabled, and it is null when that
    identifier is disabled and no category default takes its place. *)
Theorem getFallbackComponent_unless_disabled (category : string) (s : State) :
  In category ["hero"; "experience"; "skills"; "stats"] ->
  exists fallbackType renderer,
    ComponentRegistry.FALLBACK_COMPONENTS !! category = Some fallbackType /\
    isCoreComponent fallbackType = true /\
    ComponentRegistry.COMPONENT_MAP !! fallbackType = Some renderer /\
    getFallbackComponent category s =
      match categoryDefaultComponent category s with
      | Some c => Some c
      | None =>
          if ComponentConfigManager.isComponentDisabled fallbackType (configManager s)
          then None else Some renderer
      end /\
    (ComponentConfigManager.isComponentDisabled fallbackType (configManager s) = false ->
     is_Some (getFallbackComponent category s)) /\
    (ComponentConfigManager.isComponentDisabled fallbackType (configManager s) = true ->
     categoryDefaultComponent category s = None ->
     getFallbackComponent category s = None).
Proof.
  intros H. destruct (fallback_tables category H) as (ft & r & Hf & Hc & Hcore & Ht).
  exists ft, r.
  assert (E : getFallbackComponent category s =
              match categoryDefaultComponent category s with
              | Some c => Some c
              | None =>
                  if ComponentConfigManager.isComponentDisabled ft (configManager s)
                  then None else Some r
              end).
  { unfold getFallbackComponent. rewrite Hf, Ht, Hc. simpl.
    now destruct (ComponentConfigManager.isComponentDisabled ft (configManager s)). }
  repeat split; auto.
  - intros Hd. rewrite E, Hd. destruct (categoryDefaultComponent category s); eauto.
  - intros Hd Hn. now rewrite E, Hn, Hd.
Qed.

(** *** Registration when custom components are not allowed *)

(** C10. While [allowCustomComponents] is false, [registerComponent]
    fails with the single error that custom components are not allowed,
    without warnings, and the registry (the plugin map, the per-plugin
    configurations and the custom components among the rest) is left as
    it was. *)
Theorem registerComponent_not_allowed
    (p : PluginManager.ExtendedComponentPlugin) (s : State) :
  ComponentConfigManager.allowCustomComponents
    (ComponentConfigManager.getGlobalConfig (configManager s)) = false ->
  let '(r, s') := registerComponent p s in
  success r = false /\
  errors r = ["Custom components are not allowed in current configuration"] /\
  warnings r = [] /\
  s' = s /\
  PluginManager.plugins (pluginManager s') = PluginManager.plugins (pluginManager s) /\
  PluginManager.configs (pluginManager s') = PluginManager.configs (pluginManager s) /\
  customComponents s' = customComponents s.
Proof.
  intros H. unfold registerComponent. rewrite H. simpl. repeat split.
Qed.

(** *** Identifiers nobody registered *)

(** C3, as the code has it. For a string that is neither a core
    identifier nor registered (in the map of custom components or with
    the plugin manager): the core registry returns null for the renderer
    and for the metadata, and its [validateProps] fails with the one
    error "Unknown component type: id", which mentions "unknown"; the
    extensible registry reports "not_found" with null renderer and
    metadata, and its [validateProps] fails with the one error "Plugin
    not found: id". *)
Theorem unknown_identifier_safety (componentId : string) (props : Props) (s : State) :
  isCoreComponent componentId = false ->
  customComponents s !! componentId = None ->
  PluginManager.plugins (pluginManager s) !! componentId = None ->
  fst (ComponentRegistry.getComponent componentId) = None /\
  ComponentRegistry.getMetadata componentId = None /\
  ComponentRegistry.validateProps componentId props =
    {| valid := false; Types.errors := ["Unknown component type: " +:+ componentId];
       Types.warnings := [] |} /\
  Js.mentions ("Unknown component type: " +:+ componentId) "unknown" = true /\
  getComponent componentId s =
    {| component := None; metadata := None; isPlugin := false;
       isEnabled := false; source := not_found |} /\
  validateProps componentId props s =
    {| valid := false; Types.errors := ["Plugin not found: " +:+ componentId];
       Types.warnings := [] |}.
Proof.
  intros Hcore Hcustom Hplugin.
  unfold ComponentRegistry.getComponent, ComponentRegistry.getMetadata,
    ComponentRegistry.validateProps, getComponent, validateProps,
    PluginManager.validatePluginProps.
  unfold isCoreComponent in Hcore.
  unfold isCoreComponent, ComponentRegistry.isValidComponentType.
  rewrite Hcore, Hcustom, Hplugin. simpl.
  repeat split; try reflexivity; now apply mentions_append_l.
Qed.

End ExtensibleRegistryFacts.

(** A plugin registered under a core identifier, that identifier disabled
    and an attempt made to unregister it: the lookup still answers from
    the core tables. *)
Lemma core_inviolable_witness :
  let ops :=
    [ExtensibleComponentRegistry.RegisterComponent
       (galleryPlugin (Js.Str ComponentType.HERO_PRISM));
     ExtensibleComponentRegistry.DisableComponent ComponentType.HERO_PRISM;
     ExtensibleComponentRegistry.DisablePlugin ComponentType.HERO_PRISM;
     ExtensibleComponentRegistry.UnregisterComponent ComponentType.HERO_PRISM] in
  let s := @ExtensibleComponentRegistry.performAll Js.exampleRuntime ops
             ExtensibleComponentRegistry.init in
  ExtensibleComponentRegistry.isCoreComponent ComponentType.HERO_PRISM = true /\
  ExtensibleComponentRegistry.source
    (@ExtensibleComponentRegistry.getComponent Js.exampleRuntime
       ComponentType.HERO_PRISM s) = ExtensibleComponentRegistry.core /\
  ExtensibleComponentRegistry.component
    (@ExtensibleComponentRegistry.getComponent Js.exampleRuntime
       ComponentType.HERO_PRISM s) = Some HeroPrism.
Proof.
  intros ops s.
  destruct (@core_inviolable Js.exampleRuntime ops ExtensibleComponentRegistry.init
              ComponentType.HERO_PRISM eq_refl) as (Hs & _ & _ & _ & Hc & _).
  split; [reflexivity |]. split; [exact Hs |].
  fold s in Hc. rewrite Hc. reflexivity.
Defined.

(** C2 as stated fails: with the core registry untouched, disabling the
    hero fallback identifier leaves the hero category without a fallback. *)
Lemma getFallbackComponent_counterexample :
  let s := ExtensibleComponentRegistry.disableComponent
             ComponentType.HERO_PRISM ExtensibleComponentRegistry.init in
  ComponentRegistry.FALLBACK_COMPONENTS !! "hero" = Some ComponentType.HERO_PRISM /\
  ExtensibleComponentRegistry.source
    (@ExtensibleComponentRegistry.getComponent Js.exampleRuntime
       ComponentType.HERO_PRISM s) = ExtensibleComponentRegistry.core /\
  @ExtensibleComponentRegistry.getFallbackComponent Js.exampleRuntime "hero" s = None.
Proof. repeat split; reflexivity. Qed.

(** In a fresh registry no fallback identifier is disabled and every
    category has its fallback. *)
Lemma getFallbackComponent_unless_disabled_witness :
  is_Some (@ExtensibleComponentRegistry.getFallbackComponent Js.exampleRuntime
             "skills" ExtensibleComponentRegistry.init).
Proof.
  destruct (@getFallbackComponent_unless_disabled Js.exampleRuntime "skills"
              ExtensibleComponentRegistry.init)
    as (ft & r & Hf & _ & _ & _ & Hsome & _).
  { simpl. auto. }
  apply Hsome. vm_compute in Hf. injection Hf as <-. reflexivity.
Defined.

(** After [updateGlobalConfig({allowCustomComponents: false})] a
    well-formed plugin is turned away. *)
Lemma registerComponent_not_allowed_witness :
  let s := @ExtensibleComponentRegistry.perform Js.exampleRuntime
             (ExtensibleComponentRegistry.UpdateGlobalConfig customComponentsForbidden)
             ExtensibleComponentRegistry.init in
  let out := @ExtensibleComponentRegistry.registerComponent Js.exampleRuntime
               (galleryPlugin (Js.Str "tool_custom_gallery")) s in
  ExtensibleComponentRegistry.success (fst out) = false /\ snd out = s.
Proof.
  intros s out.
  pose proof (@registerComponent_not_allowed Js.exampleRuntime
                (galleryPlugin (Js.Str "tool_custom_gallery")) s eq_refl) as H.
  fold out in H. destruct out as [r s']. simpl.
  destruct H as (Hf & _ & _ & Hs & _). auto.
Defined.

(** C3 as stated fails for the extensible registry: the one error it
    reports for an identifier nobody registered does not mention
    "unknown". *)
Lemma unknown_identifier_safety_counterexample :
  let s := ExtensibleComponentRegistry.init in
  let r := @ExtensibleComponentRegistry.validateProps Js.exampleRuntime
             "tool_custom_gallery" ∅ s in
  ExtensibleComponentRegistry.isCoreComponent "tool_custom_gallery" = false /\
  ExtensibleComponentRegistry.customComponents s !! "tool_custom_gallery" = None /\
  PluginManager.plugins (ExtensibleComponentRegistry.pluginManager s)
    !! "tool_custom_gallery" = None /\
  errors r = ["Plugin not found: tool_custom_gallery"] /\
  forallb (fun e => Js.mentions e "unknown") (errors r) = false.
Proof. repeat split; reflexivity. Qed.

(** The two entry points on an identifier nobody registered, in a fresh
    registry. *)
Lemma unknown_identifier_safety_witness :
  errors (@ExtensibleComponentRegistry.validateProps Js.exampleRuntime
            "tool_custom_gallery" ∅ ExtensibleComponentRegistry.init)
    = ["Plugin not found: tool_custom_gallery"] /\
  errors (@ComponentRegistry.validateProps Js.exampleRuntime "tool_custom_gallery" ∅)
    = ["Unknown component type: tool_custom_gallery"].
Proof.
  destruct (@unknown_identifier_safety Js.exampleRuntime "tool_custom_gallery" ∅
              ExtensibleComponentRegistry.init eq_refl eq_refl eq_refl)
    as (_ & _ & Hcore & _ & _ & Hext).
  split; [now rewrite Hext | now rewrite Hcore].
Defined.

(** ** Plugin manager *)

Section PluginManagerFacts.
Context {rt : Js.Runtime}.
Import PluginManager.

Lemma structurallyComplete_no_errors (p : ExtendedComponentPlugin) :
  structurallyComplete p -> structuralErrors p = [].
Proof.
  intros ((key & Hid & Hkey) & [c Hc] & (m & Hm & Hn & Hcat & [rp Hrp]) & [v Hv]).
  unfold structuralErrors, pushIf. rewrite Hid, Hc, Hm, Hrp, Hv. simpl.
  apply String.eqb_neq in Hkey, Hn, Hcat. rewrite Hkey, Hn, Hcat. simpl.
  reflexivity.
Qed.

Lemma overwriteWarning_text (key : string) :
  overwriteWarning (Js.Str key) =
    "Plugin " +:+ key +:+ " already registered, will be overwritten" /\
  Js.mentions (overwriteWarning (Js.Str key)) "overwritten" = true /\
  Js.includes (overwriteWarning (Js.Str key)) key = true.
Proof.
  unfold overwriteWarning. rewrite Js.ToString_Str. split; [reflexivity |]. split.
  - now do 2 apply mentions_append_r.
  - apply includes_middle.
Qed.

(** C8 (plugin overwrite). Registering a structurally complete plugin
    under an identifier that is already registered succeeds without
    errors; the warnings hold "Plugin id already registered, will be
    overwritten", which mentions "overwritten" and the identifier; the
    stored plugin is replaced, the other plugins and the plugin count are
    unchanged; the per-plugin configurations are unchanged when the
    identifier has one, and otherwise the identifier gets the
    configuration of the plugin or, failing that, the default
    [enabled: true, priority: 0]. *)
Theorem registerPlugin_overwrite (p old : ExtendedComponentPlugin) (key : string)
    (s : State) :
  structurallyComplete p ->
  id p = Js.Str key ->
  plugins s !! key = Some old ->
  let '(r, s') := registerPlugin p s in
  success r = true /\
  errors r = [] /\
  In (overwriteWarning (Js.Str key)) (warnings r) /\
  overwriteWarning (Js.Str key) =
    "Plugin " +:+ key +:+ " already registered, will be overwritten" /\
  Js.mentions (overwriteWarning (Js.Str key)) "overwritten" = true /\
  Js.includes (overwriteWarning (Js.Str key)) key = true /\
  plugins s' !! key = Some p /\
  (forall other, other <> key -> plugins s' !! other = plugins s !! other) /\
  getPluginCount s' = getPluginCount s /\
  (is_Some (configs s !! key) -> configs s' = configs s) /\
  (configs s !! key = None ->
     configs s' = <[key := default defaultConfig (config p)]> (configs s)) /\
  defaultConfig = {| enabled := true; priority := Js.Finite 0; settings := ∅ |}.
Proof.
  intros Hp Hid Hold.
  unfold registerPlugin.
  rewrite (structurallyComplete_no_errors p Hp), Hid. simpl.
  rewrite Hold. rewrite bool_decide_true by eauto. simpl.
  destruct (overwriteWarning_text key) as (Ht & Hm & Hi).
  split; [reflexivity |]. split; [reflexivity |]. split.
  { destruct (hooks p ≫= onRegister) as [[|]|]; simpl; auto. }
  split; [exact Ht |]. split; [exact Hm |]. split; [exact Hi |]. split.
  { apply lookup_insert_eq. }
  split.
  { intros other Hne. now apply lookup_insert_ne. }
  split.
  { unfold getPluginCount. simpl. apply map_size_insert_Some. eauto. }
  split.
  { intros Hc. now rewrite bool_decide_true. }
  split; [| reflexivity].
  intros Hc. rewrite bool_decide_false; [reflexivity |].
  rewrite Hc. now intros [? ?].
Qed.

End PluginManagerFacts.

(** Registering the same plugin twice in a fresh manager: the second call
    succeeds with the warning, and one plugin is registered. *)
Lemma registerPlugin_overwrite_witness :
  let p := galleryPlugin (Js.Str "tool_custom_gallery") in
  let s1 := snd (@PluginManager.registerPlugin Js.exampleRuntime p PluginManager.init) in
  let out := @PluginManager.registerPlugin Js.exampleRuntime p s1 in
  PluginManager.success (fst out) = true /\
  PluginManager.warnings (fst out) =
    ["Plugin tool_custom_gallery already registered, will be overwritten"] /\
  PluginManager.getPluginCount (snd out) = 1 /\
  PluginManager.configs (snd out) = PluginManager.configs s1.
Proof.
  intros p s1 out.
  assert (Hp : PluginManager.structurallyComplete p).
  { split.
    { exists "tool_custom_gallery". split; [reflexivity | discriminate]. }
    split.
    { eexists. reflexivity. }
    split.
    { eexists. split; [reflexivity |]. split; [discriminate |].
      split; [discriminate |]. eexists. reflexivity. }
    eexists. reflexivity. }
  pose proof (@registerPlugin_overwrite Js.exampleRuntime p p "tool_custom_gallery" s1
                Hp eq_refl eq_refl) as H.
  fold out in H. destruct out as [r s'] eqn:E.
  destruct H as (Hs & _ & _ & _ & _ & _ & _ & _ & Hn & Hc & _).
  split; [exact Hs |]. split.
  { apply (f_equal fst) in E. simpl in E. rewrite <- E. reflexivity. }
  split.
  { simpl. rewrite Hn. reflexivity. }
  simpl. apply Hc. eexists. reflexivity.
Defined.

(** ** Configuration manager *)

Section ConfigManagerFacts.
Import ComponentConfigManager.

(** C9 (settings deep-merge). [getComponentSettings] returns, for an
    identifier with overrides: for each scalar field the override when it
    is present and the default otherwise; for [customClasses] the default
    list followed by the override list; for [themeOverrides] and
    [featureFlags] the key-wise merge in which an entry of the override
    wins over the entry of the default with the same key. For an
    identifier without overrides it returns the defaults. *)
Theorem getComponentSettings_deep_merge (componentId : string) (s : State) :
  let defaults := defaultSettings (globalConfig s) in
  let r := getComponentSettings componentId s in
  (forall o : PartialSettings,
     componentOverrides (globalConfig s) !! componentId = Some o ->
     animationsEnabled r = default (animationsEnabled defaults) (animationsEnabled' o) /\
     animationDuration r = default (animationDuration defaults) (animationDuration' o) /\
     showTooltips r = default (showTooltips defaults) (showTooltips' o) /\
     customClasses r =
       (customClasses defaults ++ default [] (customClasses' o))%list /\
     (forall key,
        themeOverrides r !! key =
          match themeOverrides' o ≫= (fun m => m !! key) with
          | Some v => Some v
          | None => themeOverrides defaults !! key
          end) /\
     (forall key,
        featureFlags r !! key =
          match featureFlags' o ≫= (fun m => m !! key) with
          | Some v => Some v
          | None => featureFlags defaults !! key
          end)) /\
  (componentOverrides (globalConfig s) !! componentId = None -> r = defaults).
Proof.
  intros defaults r. subst r defaults. unfold getComponentSettings. split.
  - intros o ->. simpl. repeat split.
    + intros key. rewrite lookup_union.
      destruct (themeOverrides' o) as [m|]; simpl.
      * destruct (m !! key), (themeOverrides (defaultSettings (globalConfig s)) !! key);
          reflexivity.
      * rewrite lookup_empty.
        now destruct (themeOverrides (defaultSettings (globalConfig s)) !! key).
    + intros key. rewrite lookup_union.
      destruct (featureFlags' o) as [m|]; simpl.
      * destruct (m !! key), (featureFlags (defaultSettings (globalConfig s)) !! key);
          reflexivity.
      * rewrite lookup_empty.
        now destruct (featureFlags (defaultSettings (globalConfig s)) !! key).
  - intros ->. simpl. destruct (defaultSettings (globalConfig s)). simpl.
    rewrite app_nil_r, !(left_id_L ∅ (∪)). reflexivity.
Qed.

End ConfigManagerFacts.

(** Defaults with a class and two theme entries, overrides for one
    identifier with a class and one of those entries. *)
Lemma getComponentSettings_deep_merge_witness :
  let s := ComponentConfigManager.updateComponentSettings ComponentType.HERO_PRISM
             heroOverrides
             (ComponentConfigManager.updateGlobalConfig brandedDefaults
                ComponentConfigManager.init) in
  let r := ComponentConfigManager.getComponentSettings ComponentType.HERO_PRISM s in
  ComponentConfigManager.animationsEnabled r = false /\
  ComponentConfigManager.customClasses r = ["base"; "glow"] /\
  ComponentConfigManager.themeOverrides r !! "primary" = Some "#ffffff" /\
  ComponentConfigManager.themeOverrides r !! "accent" = Some "#111111" /\
  ComponentConfigManager.getComponentSettings ComponentType.SKILLS_DOTS s =
    ComponentConfigManager.defaultSettings (ComponentConfigManager.globalConfig s).
Proof.
  intros s r.
  destruct (getComponentSettings_deep_merge ComponentType.HERO_PRISM s) as [H _].
  destruct (H heroOverrides eq_refl) as (Ha & _ & _ & Hc & Ht & _).
  destruct (getComponentSettings_deep_merge ComponentType.SKILLS_DOTS s) as [_ Hn].
  split; [exact Ha |]. split; [exact Hc |].
  split; [exact (Ht "primary") |]. split; [exact (Ht "accent") |].
  apply Hn. reflexivity.
Defined.

(* ===================================================================== *)
(** * Further properties of the code *)
(* ===================================================================== *)

(** ** Theme engine: validity of the current theme *)

Section ThemeEngineMore.
Import ThemeEngine.

Lemma validated_valid (theme : string) :
  isValidTheme (Js.Str (validated theme)) = true.
Proof.
  unfold validated. destruct (isValidTheme (Js.Str theme)) eqn:V; [exact V | reflexivity].
Qed.

Lemma getCurrentTheme_valid (root : option Root) :
  isValidTheme (Js.Str (getCurrentTheme root)) = true.
Proof.
  destruct root as [root|]; [| reflexivity]. unfold getCurrentTheme.
  destruct (List.find _ ThemePalette.values) as [palette|] eqn:F; [| reflexivity].
  apply find_some in F as [Hin _]. simpl.
  apply array_includes_In. exact Hin.
Qed.

Lemma applyGlobalTheme_currentTheme (v : string) (w : World) :
  currentTheme (applyGlobalTheme v w) = currentTheme w.
Proof. apply applyGlobalTheme_frame. Qed.

Lemma step_currentTheme_valid (throws : Listener -> string -> option string)
    (s : Step) (w : World) :
  isValidTheme (Js.Str (currentTheme w)) = true ->
  isValidTheme (Js.Str (currentTheme (step throws s w))) = true.
Proof.
  intros V. destruct s as [theme|l|l|root|]; simpl; try exact V.
  - destruct (String.eqb_spec (validated theme) (currentTheme w)) as [E|E].
    + now rewrite setTheme_same.
    + destruct (setTheme_changed theme w E) as (-> & _). apply validated_valid.
  - unfold initialize. destruct (hasDocument w); simpl; [| exact V].
    rewrite applyGlobalTheme_currentTheme. apply (getCurrentTheme_valid (Some root)).
  - unfold runMicrotask. destruct (microtasks w) as [|[v] rest]; [exact V | exact V].
Qed.

(** X1 (theme stays valid). The current theme of the engine is one of the
    three palettes after any sequence of [setTheme], [subscribe],
    unsubscribe, [initialize] and microtask runs that starts from a valid
    theme, so the [getThemeDefinition()] method of the engine always finds a
    fully populated definition, filed under the current theme. *)
Theorem currentTheme_stays_valid (throws : Listener -> string -> option string)
    (ss : list Step) (w : World) :
  isValidTheme (Js.Str (currentTheme w)) = true ->
  isValidTheme (Js.Str (currentTheme (steps throws ss w))) = true /\
  exists d, engineThemeDefinition (steps throws ss w) = Some d /\
            populated d /\ name d = currentTheme (steps throws ss w).
Proof.
  intros V.
  assert (V' : isValidTheme (Js.Str (currentTheme (steps throws ss w))) = true).
  { unfold steps. revert w V. induction ss as [|s ss IH]; intros w V; [exact V |].
    simpl. apply IH. now apply step_currentTheme_valid. }
  split; [exact V' |]. now apply valid_definition_populated.
Qed.

(** A second [setTheme] with the same argument changes nothing: the
    theme is stored once and one notification is queued. *)
Lemma setTheme_idempotent (theme : string) (w : World) :
  setTheme theme (setTheme theme w) = setTheme theme w /\
  (validated theme <> currentTheme w ->
   microtasks (setTheme theme (setTheme theme w)) =
     (microtasks w ++ [NotifyListeners (validated theme)])%list).
Proof.
  destruct (String.eqb_spec (validated theme) (currentTheme w)) as [E|E].
  - rewrite !(setTheme_same theme w E). split; [reflexivity | contradiction].
  - destruct (setTheme_changed theme w E) as (T & _ & _ & M).
    rewrite (setTheme_same theme (setTheme theme w)) by now rewrite T.
    split; [reflexivity | intros _; exact M].
Qed.

(** ** Theme engine: who is notified *)

Lemma subscribe_frame (l : Listener) (w : World) :
  calls (subscribe l w) = calls w /\ microtasks (subscribe l w) = microtasks w.
Proof. split; reflexivity. Qed.

(** X2 (listeners at delivery). A queued notification goes to the listeners
    that are subscribed when the microtask runs, not to those subscribed
    when [setTheme] was called: a listener removed in between is not called,
    a listener added in between is. *)
Theorem notification_uses_listeners_at_delivery
    (throws : Listener -> string -> option string) (theme : string) (l : Listener)
    (w : World) :
  validated theme <> currentTheme w ->
  microtasks w = [] ->
  calls (runMicrotasks throws (unsubscribe l (setTheme theme w))) =
    (calls w ++
     map (fun l' => (l', validated theme)) (filter (fun l' => l' <> l) (listeners w)))%list /\
  ~ In (l, validated theme)
       (map (fun l' => (l', validated theme)) (filter (fun l' => l' <> l) (listeners w))) /\
  calls (runMicrotasks throws (subscribe l (setTheme theme w))) =
    (calls w ++ map (fun l' => (l', validated theme)) (listeners (subscribe l w)))%list /\
  In (l, validated theme)
     (map (fun l' => (l', validated theme)) (listeners (subscribe l w))).
Proof.
  intros E Q. destruct (setTheme_changed theme w E) as (T & L & C & M).
  rewrite Q in M. simpl in M.
  split; [| split; [| split]].
  - destruct (runMicrotasks_calls throws (unsubscribe l (setTheme theme w))) as (-> & _).
    simpl. rewrite C, M, L. simpl. now rewrite app_nil_r.
  - rewrite in_map_iff. intros (l' & E' & Hin). injection E' as ->.
    apply list_elem_of_In, list_elem_of_filter in Hin as [Hne _]. now apply Hne.
  - destruct (runMicrotasks_calls throws (subscribe l (setTheme theme w))) as (-> & _).
    simpl. rewrite C, M, L. simpl. now rewrite app_nil_r.
  - apply in_map_iff. exists l. split; [reflexivity |]. simpl.
    destruct (existsb (Nat.eqb l) (listeners w)) eqn:X.
    + apply existsb_exists in X as (x & Hx & Ex). apply Nat.eqb_eq in Ex. now subst.
    + apply in_or_app. right. now left.
Qed.

(** ** Theme engine: the fallbacks agree *)

(** X3 (theme fallbacks). [ensureValidTheme], [validateThemeProp] and
    [setTheme] settle on the same theme for a string, that theme is always
    one of the three palettes (the default one for a value that is not a
    string), and [getThemeClass] is the class of the definition
    [getThemeDefinition] returns; [validateThemeProp] logs exactly for the
    non-empty strings that are not a palette. *)
Theorem theme_fallbacks_agree (v : Js.Value) :
  isValidTheme (Js.Str (ensureValidTheme v)) = true /\
  fst (validateThemeProp v) = ensureValidTheme v /\
  (forall s, v = Js.Str s ->
     ensureValidTheme v = validated s /\
     getThemeClass v = cssClass <$> fst (getThemeDefinition s) /\
     (snd (validateThemeProp v) <> [] <-> isValidTheme v = false /\ s <> "")) /\
  ((forall s, v <> Js.Str s) ->
     ensureValidTheme v = DEFAULT_THEME /\ snd (validateThemeProp v) = []) /\
  is_Some (getThemeClass v).
Proof.
  assert (H1 : isValidTheme (Js.Str (ensureValidTheme v)) = true).
  { unfold ensureValidTheme. destruct v; try reflexivity.
    destruct (isValidTheme (Js.Str s)) eqn:V; [exact V | reflexivity]. }
  split; [exact H1 |]. split; [| split; [| split]].
  - unfold validateThemeProp. destruct (isValidTheme v) eqn:V; [reflexivity |].
    unfold ensureValidTheme.
    destruct v; try reflexivity. rewrite V. now destruct (Nat.ltb 0 _).
  - intros s ->. split; [reflexivity |]. split.
    + unfold getThemeClass, getThemeDefinition, ensureValidTheme.
      now destruct (isValidTheme (Js.Str s)).
    + unfold validateThemeProp. destruct (isValidTheme (Js.Str s)); simpl.
      * split; [contradiction | intros [? _]; discriminate].
      * destruct s as [|c s]; simpl.
        -- split; [contradiction | intros [_ ?]; congruence].
        -- split; [intros _; split; [reflexivity | discriminate] | discriminate].
  - intros Hn. destruct v; try (split; reflexivity). now destruct (Hn s).
  - unfold getThemeClass.
    destruct (valid_definition_populated _ H1) as (d & -> & _). simpl. eauto.
Qed.

(** ** Theme engine: the class on the document root *)

Lemma classListRemove_includes (token x : string) (classes : list string) :
  Js.array_includes (classListRemove token classes) x =
    Js.array_includes classes x && negb (String.eqb x token).
Proof.
  unfold classListRemove, Js.array_includes.
  induction classes as [|c classes IH]; simpl; [reflexivity |].
  destruct (String.eqb_spec c token) as [->|Hc]; simpl.
  - rewrite IH. destruct (String.eqb_spec x token) as [->|Hx]; simpl.
    + now rewrite !andb_false_r.
    + now rewrite !andb_true_r.
  - rewrite IH. destruct (String.eqb_spec x c) as [->|Hx]; simpl; [| reflexivity].
    destruct (String.eqb_spec c token); [contradiction | reflexivity].
Qed.

Lemma classListAdd_includes (token x : string) (classes : list string) :
  Js.array_includes (classListAdd token classes) x =
    Js.array_includes classes x || String.eqb x token.
Proof.
  unfold classListAdd. destruct (Js.array_includes classes token) eqn:I.
  - destruct (String.eqb_spec x token) as [->|]; [| now rewrite orb_false_r].
    now rewrite I.
  - unfold Js.array_includes. rewrite existsb_app. simpl. now rewrite orb_false_r.
Qed.

Lemma removeAll_includes (defs : list ThemeDefinition) :
  forall (classes : list string) (x : string),
    Js.array_includes
      (foldl (fun classes def => classListRemove (cssClass def) classes) classes defs) x =
    Js.array_includes classes x && negb (Js.array_includes (map cssClass defs) x).
Proof.
  induction defs as [|def defs IH]; intros classes x; simpl.
  - now rewrite andb_true_r.
  - rewrite IH, classListRemove_includes.
    unfold Js.array_includes at 3. simpl. fold (Js.array_includes (map cssClass defs) x).
    rewrite negb_orb. now rewrite andb_assoc.
Qed.

Lemma available_themes (d : ThemeDefinition) :
  In d getAvailableThemes <->
  exists palette, In palette ThemePalette.values /\ THEME_DEFINITIONS !! palette = Some d.
Proof.
  unfold getAvailableThemes. rewrite <- list_elem_of_In, list_elem_of_omap.
  split; intros (p & Hp & L); exists p; split; auto; now apply list_elem_of_In.
Qed.

(** X4 (applied theme). Once the host has run the animation-frame callback
    that [applyGlobalTheme(theme)] scheduled, [getCurrentTheme()] reads back
    the theme applied (the default one for an unknown theme), whatever
    classes the root had before: the root carries the class of that theme
    and of no other theme, its other classes are as they were, and the four
    CSS variables hold the colors of the theme. *)
Theorem applied_theme_is_read_back (theme : string) (root : Root) :
  exists d,
    fst (getThemeDefinition theme) = Some d /\
    name d = validated theme /\
    getCurrentTheme (Some (runFrame (ApplyDefinition (Some d)) root)) = validated theme /\
    (forall d', In d' getAvailableThemes ->
       Js.array_includes (classList (runFrame (ApplyDefinition (Some d)) root)) (cssClass d')
       = String.eqb (cssClass d') (cssClass d)) /\
    (forall c, (forall d', In d' getAvailableThemes -> c <> cssClass d') ->
       Js.array_includes (classList (runFrame (ApplyDefinition (Some d)) root)) c
       = Js.array_includes (classList root) c) /\
    (style (runFrame (ApplyDefinition (Some d)) root) !! "--theme-primary")
      = Some (primary (colors d)) /\
    (style (runFrame (ApplyDefinition (Some d)) root) !! "--theme-secondary")
      = Some (secondary (colors d)) /\
    (style (runFrame (ApplyDefinition (Some d)) root) !! "--theme-accent")
      = Some (accent (colors d)) /\
    (style (runFrame (ApplyDefinition (Some d)) root) !! "--theme-glow")
      = Some (glow (colors d)).
Proof.
  assert (Hd : exists d, fst (getThemeDefinition theme) = Some d /\
                         THEME_DEFINITIONS !! validated theme = Some d /\
                         name d = validated theme).
  { unfold getThemeDefinition, validated.
    destruct (isValidTheme (Js.Str theme)) eqn:V; simpl.
    - destruct (valid_definition_populated _ V) as (d & L & _ & N). eauto.
    - destruct default_definition_populated as (d & L & _ & N). eauto. }
  destruct Hd as (d & Hf & Hl & Hn). exists d.
  split; [exact Hf |]. split; [exact Hn |].
  pose proof (validated_valid theme) as V.
  assert (Hav : In d getAvailableThemes).
  { apply available_themes. exists (validated theme). split; [| exact Hl].
    apply array_includes_In. apply andb_true_iff in V as [_ V]. exact V. }
  set (root' := runFrame (ApplyDefinition (Some d)) root).
  assert (Hincl : forall x,
            Js.array_includes (classList root') x =
              Js.array_includes (classList root) x &&
              negb (Js.array_includes (map cssClass getAvailableThemes) x)
              || String.eqb x (cssClass d)).
  { intros x. subst root'. cbn [runFrame classList].
    now rewrite classListAdd_includes, removeAll_includes. }
  assert (Hthemes : forall d', In d' getAvailableThemes ->
            Js.array_includes (classList root') (cssClass d')
            = String.eqb (cssClass d') (cssClass d)).
  { intros d' Hin. rewrite Hincl.
    replace (Js.array_includes (map cssClass getAvailableThemes) (cssClass d')) with true.
    - now rewrite andb_false_r.
    - symmetry. apply array_includes_In, in_map, Hin. }
  split; [| split; [exact Hthemes | split; [| repeat split]]].
  - unfold getCurrentTheme. cbn [ThemePalette.values List.find].
    destruct (THEME_DEFINITIONS !! ThemePalette.NEON_BLUE) as [d1|] eqn:L1;
      [| discriminate L1].
    destruct (THEME_DEFINITIONS !! ThemePalette.EMERALD_GREEN) as [d2|] eqn:L2;
      [| discriminate L2].
    destruct (THEME_DEFINITIONS !! ThemePalette.CYBER_PINK) as [d3|] eqn:L3;
      [| discriminate L3].
    rewrite (Hthemes d1), (Hthemes d2), (Hthemes d3)
      by (apply available_themes; eexists; split; [| eassumption]; simpl; auto).
    destruct (isValidTheme_cases _ V) as [E | [E | E]]; rewrite E in *;
      rewrite ?L1, ?L2, ?L3 in Hl; injection Hl as <-;
      vm_compute in L1, L2, L3;
      injection L1 as <-; injection L2 as <-; injection L3 as <-; reflexivity.
  - intros c Hc. rewrite Hincl.
    replace (Js.array_includes (map cssClass getAvailableThemes) c) with false.
    + destruct (String.eqb_spec c (cssClass d)) as [->|_].
      * now destruct (Hc d Hav).
      * now rewrite andb_true_r, orb_false_r.
    + symmetry. apply not_true_is_false. rewrite array_includes_In, in_map_iff.
      intros (d' & <- & Hin). now apply (Hc d').
  - subst root'. cbn [runFrame style THEME_CSS_VARIABLES glow accent secondary primary].
    now rewrite !lookup_insert_ne, lookup_insert_eq by discriminate.
  - subst root'. cbn [runFrame style THEME_CSS_VARIABLES glow accent secondary primary].
    now rewrite !lookup_insert_ne, lookup_insert_eq by discriminate.
  - subst root'. cbn [runFrame style THEME_CSS_VARIABLES glow accent secondary primary].
    now rewrite !lookup_insert_ne, lookup_insert_eq by discriminate.
  - subst root'. cbn [runFrame style THEME_CSS_VARIABLES glow accent secondary primary].
    now rewrite lookup_insert_eq.
Qed.

End ThemeEngineMore.

(** From a fresh engine, a valid theme, a microtask and an unknown theme
    later, the current theme is still a palette. *)
Lemma currentTheme_stays_valid_witness :
  let quiet : ThemeEngine.Listener -> string -> option string := fun _ _ => None in
  let ss := [ThemeEngine.SetTheme "emerald_green"; ThemeEngine.RunMicrotask;
             ThemeEngine.SetTheme "solarized"] in
  ThemeEngine.isValidTheme
    (Js.Str (ThemeEngine.currentTheme
               (ThemeEngine.steps quiet ss (ThemeEngine.init true)))) = true.
Proof.
  intros quiet ss.
  exact (proj1 (currentTheme_stays_valid quiet ss (ThemeEngine.init true) eq_refl)).
Defined.

(** A listener that unsubscribes between [setTheme] and the microtask is
    not called. *)
Lemma notification_uses_listeners_at_delivery_witness :
  let quiet : ThemeEngine.Listener -> string -> option string := fun _ _ => None in
  let w := ThemeEngine.subscribe 7 (ThemeEngine.init true) in
  ThemeEngine.calls
    (ThemeEngine.runMicrotasks quiet
       (ThemeEngine.unsubscribe 7 (ThemeEngine.setTheme "emerald_green" w))) = [].
Proof.
  intros quiet w.
  destruct (notification_uses_listeners_at_delivery quiet "emerald_green" 7 w)
    as (H & _); [discriminate | reflexivity |].
  rewrite H. reflexivity.
Defined.

(** ** Core registry: completeness and categories *)

Section CoreRegistryMore.
Context {rt : Js.Runtime}.
Import ComponentRegistry.

Lemma registry_outside (type : string) :
  isValidComponentType type = false -> registry !! type = None.
Proof.
  intros H. unfold registry, initializeRegistry.
  assert (G : forall (l : list string) (acc : gmap string RegistryEntry),
             ~ In type l -> acc !! type = None ->
             foldl (fun registry type =>
                      match COMPONENT_MAP !! type, componentMetadata !! type,
                            propValidators !! type with
                      | Some c, Some m, Some v =>
                          <[type := Build_RegistryEntry c m v]> registry
                      | _, _, _ => registry
                      end) acc l !! type = None).
  { induction l as [|x l IH]; intros acc Hn Ha; [exact Ha |].
    simpl. apply IH; [intros ?; apply Hn; now right |].
    destruct (COMPONENT_MAP !! x), (componentMetadata !! x), (propValidators !! x);
      try exact Ha.
    rewrite lookup_insert_ne; [exact Ha |]. intros ->. apply Hn. now left. }
  apply G; [| apply lookup_empty].
  intros Hin. apply array_includes_In in Hin. unfold isValidComponentType in H. congruence.
Qed.

Lemma getMetadata_Some (type : string) (m : ComponentMetadata) :
  getMetadata type = Some m <->
  isValidComponentType type = true /\ componentMetadata !! type = Some m.
Proof.
  unfold getMetadata. destruct (isValidComponentType type) eqn:V; simpl.
  - destruct (tables_complete type V) as (c & m' & v & _ & Hm & _ & ->). simpl.
    rewrite Hm. intuition congruence.
  - split; [discriminate | intros [? _]; discriminate].
Qed.

(** X5 (core registry lookups). Lookups in the core registry succeed exactly
    on the seven core identifiers, which are the registered types;
    [getComponentsByCategory] lists the identifiers whose metadata carries
    the category asked for, so that every core identifier is listed under
    the category of its metadata and under no other. *)
Theorem core_registry_complete (type : string) :
  hasComponent type = isValidComponentType type /\
  (is_Some (fst (getComponent type)) <-> isValidComponentType type = true) /\
  (is_Some (getMetadata type) <-> isValidComponentType type = true) /\
  getRegisteredTypes = ComponentType.values /\
  (forall category : string,
     In type (getComponentsByCategory category) <->
     exists m, getMetadata type = Some m /\ Types.category m = category) /\
  (isValidComponentType type = true ->
     exists category,
       In category ["hero"; "experience"; "skills"; "stats"] /\
       In type (getComponentsByCategory category) /\
       forall other, In type (getComponentsByCategory other) -> other = category).
Proof.
  assert (Hcat : forall category : string,
            In type (getComponentsByCategory category) <->
            exists m, getMetadata type = Some m /\ Types.category m = category).
  { intros category. unfold getComponentsByCategory. rewrite filter_In.
    rewrite <- array_includes_In. fold (isValidComponentType type). split.
    - intros [V H]. destruct (tables_complete type V) as (c & m & v & _ & Hm & _ & Hr).
      rewrite Hr in H. simpl in H. apply String.eqb_eq in H.
      exists m. split; [| exact H]. apply getMetadata_Some. auto.
    - intros (m & Hm & <-). apply getMetadata_Some in Hm as [V Hm].
      split; [exact V |].
      destruct (tables_complete type V) as (c & m' & v & _ & Hm' & _ & ->). simpl.
      rewrite Hm in Hm'. injection Hm' as <-. apply String.eqb_refl. }
  split; [| split; [| split; [| split; [| split]]]].
  - unfold hasComponent. destruct (isValidComponentType type) eqn:V; [| reflexivity].
    destruct (tables_complete type V) as (c & m & v & _ & _ & _ & ->).
    simpl. first [reflexivity | apply bool_decide_true; eauto].
  - unfold getComponent. destruct (isValidComponentType type) eqn:V; simpl.
    + destruct (tables_complete type V) as (c & m & v & _ & _ & _ & ->). simpl.
      split; eauto.
    + split; [intros [? ?]; discriminate | discriminate].
  - destruct (isValidComponentType type) eqn:V.
    + destruct (tables_complete type V) as (c & m & v & _ & Hm & _ & _).
      split; [reflexivity |]. intros _. exists m. apply getMetadata_Some. auto.
    + split; [| discriminate]. intros [m Hm]. apply getMetadata_Some in Hm as [? _].
      congruence.
  - reflexivity.
  - exact Hcat.
  - intros V. destruct (tables_complete type V) as (c & m & v & _ & Hm & _ & _).
    exists (Types.category m).
    assert (Hg : getMetadata type = Some m) by (apply getMetadata_Some; auto).
    split; [| split].
    + destruct (isValidComponentType_cases _ V)
        as [-> | [-> | [-> | [-> | [-> | [-> | ->]]]]]];
        vm_compute in Hm; injection Hm as <-; simpl; auto.
    + apply Hcat. eauto.
    + intros other Ho. apply Hcat in Ho as (m' & Hm' & <-). congruence.
Qed.

(** ** Core registry: validators, metadata and fallbacks agree *)

Lemma notAString_false (v : Js.Value) :
  notAString v = false -> Js.truthy v = true /\ exists s, v = Js.Str s /\ s <> "".
Proof.
  unfold notAString. intros H. apply orb_false_iff in H as [Ht Hs].
  apply negb_false_iff in Ht, Hs. split; [exact Ht |].
  destruct v; try discriminate Hs. exists s. split; [reflexivity |].
  intros ->. discriminate Ht.
Qed.

Lemma notAnArray_isArray (v : Js.Value) : notAnArray v = negb (Js.isArray v).
Proof. unfold notAnArray. destruct v; simpl; rewrite ?orb_true_r; reflexivity. Qed.

Lemma validateList_valid (key missing empty : string) (few : option (nat * string))
    (props : Props) :
  valid (validateList key missing empty few props) = Js.isArray (prop props key).
Proof.
  unfold validateList. rewrite notAnArray_isArray.
  destruct (Js.isArray (prop props key)); simpl; [| reflexivity].
  destruct (Nat.eqb _ 0); [reflexivity |].
  destruct few as [[n msg]|]; [destruct (Nat.ltb _ n) |]; reflexivity.
Qed.

Lemma validateProps_core (type : string) (props : Props) (v : Props -> ValidationResult) :
  isValidComponentType type = true ->
  propValidators !! type = Some v ->
  validateProps type props = v props.
Proof.
  intros V Hv. unfold validateProps. rewrite V. simpl.
  destruct (tables_complete type V) as (c & m & v' & _ & _ & Hv' & ->). simpl.
  congruence.
Qed.

(** X6 (required props). Props that pass the validation of a core component
    hold a truthy value for every prop that the metadata of the component
    lists as required. *)
Theorem valid_props_hold_required (type : string) (props : Props) (m : ComponentMetadata) :
  getMetadata type = Some m ->
  valid (validateProps type props) = true ->
  forall key, In key (requiredProps m) -> Js.truthy (prop props key) = true.
Proof.
  intros Hm Hv key Hk. apply getMetadata_Some in Hm as [V Hm].
  assert (Harr : forall k, Js.isArray (prop props k) = true -> Js.truthy (prop props k) = true).
  { intros k. now destruct (prop props k). }
  assert (Hlist : forall type k missing empty few,
            validateProps type props = validateList k missing empty few props ->
            valid (validateProps type props) = true ->
            Js.truthy (prop props k) = true).
  { intros type' k missing empty few E Hv'. apply Harr.
    now rewrite E, validateList_valid in Hv'. }
  destruct (isValidComponentType_cases _ V)
    as [-> | [-> | [-> | [-> | [-> | [-> | ->]]]]]];
    vm_compute in Hm; injection Hm as <-; simpl in Hk.
  - rewrite (validateProps_core ComponentType.HERO_PRISM _ validateHeroPrism eq_refl eq_refl) in Hv.
    unfold validateHeroPrism, result, pushIf in Hv.
    destruct (notAString (prop props "name")) eqn:N;
      destruct (notAString (prop props "title")) eqn:T; try discriminate Hv.
    destruct Hk as [<- | [<- | []]]; now apply notAString_false.
  - rewrite (validateProps_core ComponentType.HERO_TERMINAL _ validateHeroTerminal eq_refl eq_refl) in Hv.
    unfold validateHeroTerminal, result, pushIf in Hv.
    destruct (notAString (prop props "name")) eqn:N;
      destruct (notAString (prop props "title")) eqn:T;
      destruct (notAnArray (prop props "commands")) eqn:C; try discriminate Hv.
    destruct Hk as [<- | [<- | [<- | []]]];
      try now apply notAString_false.
    apply Harr. rewrite notAnArray_isArray in C. now apply negb_false_iff in C.
  - destruct Hk as [<- | []]. eapply Hlist; [| exact Hv].
    apply (validateProps_core ComponentType.EXP_TIMELINE _ validateExpTimeline eq_refl eq_refl).
  - destruct Hk as [<- | []]. eapply Hlist; [| exact Hv].
    apply (validateProps_core ComponentType.EXP_MASONRY _ validateExpMasonry eq_refl eq_refl).
  - destruct Hk as [<- | []]. eapply Hlist; [| exact Hv].
    apply (validateProps_core ComponentType.SKILLS_DOTS _ validateSkillDots eq_refl eq_refl).
  - destruct Hk as [<- | []]. eapply Hlist; [| exact Hv].
    apply (validateProps_core ComponentType.SKILLS_RADAR _ validateSkillRadar eq_refl eq_refl).
  - destruct Hk as [<- | []]. eapply Hlist; [| exact Hv].
    apply (validateProps_core ComponentType.STATS_BENTO _ validateBentoGrid eq_refl eq_refl).
Qed.

(** The exported [getFallbackComponent(category)] returns a renderer
    exactly for the four categories, and it is the renderer of a core
    component whose metadata carries that category. *)
Lemma fallback_belongs_to_category (category : string) :
  (is_Some (getFallbackComponent category) <->
   In category ["hero"; "experience"; "skills"; "stats"]) /\
  (forall renderer, getFallbackComponent category = Some renderer ->
     exists type m,
       FALLBACK_COMPONENTS !! category = Some type /\
       fst (getComponent type) = Some renderer /\
       getMetadata type = Some m /\
       Types.category m = category).
Proof.
  unfold getFallbackComponent.
  destruct (FALLBACK_COMPONENTS !! category) as [type|] eqn:F; simpl.
  - assert (Hc : In (category, type)
                   [("hero", ComponentType.HERO_PRISM);
                    ("experience", ComponentType.EXP_TIMELINE);
                    ("skills", ComponentType.SKILLS_DOTS);
                    ("stats", ComponentType.STATS_BENTO)]).
    { apply list_elem_of_In. apply elem_of_list_to_map_2. exact F. }
    simpl in Hc.
    destruct Hc as [E | [E | [E | [E | []]]]]; injection E as <- <-;
      (split; [split; [intros _; simpl; auto 6 | intros _; eexists; reflexivity] |]);
      intros renderer Hr; vm_compute in Hr; injection Hr as <-;
      do 2 eexists; repeat split; reflexivity.
  - split; [| intros ? H; discriminate H].
    split; [intros [? H]; discriminate H |].
    simpl. intros [<- | [<- | [<- | [<- | []]]]]; discriminate F.
Qed.

(** ** Core registry: what each validator accepts *)

(** X7 (hero props). The two hero validators accept exactly the props whose
    [name] and [title] are non-empty strings (and, for the terminal, whose
    [commands] is an array); the [theme] prop can add a warning and never an
    error. *)
Theorem hero_props_accepted (props : Props) :
  let nonEmptyString v := exists s, v = Js.Str s /\ s <> "" in
  (valid (validateProps ComponentType.HERO_PRISM props) = true <->
     nonEmptyString (prop props "name") /\ nonEmptyString (prop props "title")) /\
  (valid (validateProps ComponentType.HERO_TERMINAL props) = true <->
     nonEmptyString (prop props "name") /\ nonEmptyString (prop props "title") /\
     Js.isArray (prop props "commands") = true) /\
  (forall v, errors (validateProps ComponentType.HERO_PRISM (<["theme" := v]> props))
             = errors (validateProps ComponentType.HERO_PRISM props)) /\
  (forall v, errors (validateProps ComponentType.HERO_TERMINAL (<["theme" := v]> props))
             = errors (validateProps ComponentType.HERO_TERMINAL props)).
Proof.
  intros nonEmptyString.
  assert (Hs : forall v, notAString v = false <-> nonEmptyString v).
  { intros v. split.
    - intros H. now apply notAString_false in H.
    - intros (s & -> & Hne). unfold notAString. simpl.
      apply String.eqb_neq in Hne. now rewrite Hne. }
  rewrite (validateProps_core ComponentType.HERO_PRISM props validateHeroPrism eq_refl eq_refl).
  rewrite (validateProps_core ComponentType.HERO_TERMINAL props validateHeroTerminal eq_refl eq_refl).
  split; [| split; [| split]].
  - unfold validateHeroPrism, result, pushIf. rewrite <- !Hs.
    destruct (notAString (prop props "name")), (notAString (prop props "title"));
      simpl; intuition discriminate.
  - unfold validateHeroTerminal, result, pushIf. rewrite <- !Hs.
    rewrite notAnArray_isArray.
    destruct (notAString (prop props "name")), (notAString (prop props "title")),
      (Js.isArray (prop props "commands")); simpl; intuition discriminate.
  - intros v. rewrite (validateProps_core ComponentType.HERO_PRISM _ validateHeroPrism eq_refl eq_refl).
    unfold validateHeroPrism, result. cbn [Types.errors].
    unfold prop. now rewrite !lookup_insert_ne by discriminate.
  - intros v. rewrite (validateProps_core ComponentType.HERO_TERMINAL _ validateHeroTerminal eq_refl eq_refl).
    unfold validateHeroTerminal, result. cbn [Types.errors].
    unfold prop. now rewrite !lookup_insert_ne by discriminate.
Qed.

(** X8 (list props). The five validators of list-valued components accept
    exactly the props whose list is an array. An empty array is accepted
    with one warning; an array of three elements or more is accepted without
    warning, and so is any non-empty array except for the radar, which warns
    below three. *)
Theorem list_props_accepted (type key : string) (props : Props) :
  In (type, key)
     [(ComponentType.EXP_TIMELINE, "experiences"); (ComponentType.EXP_MASONRY, "experiences");
      (ComponentType.SKILLS_DOTS, "skills"); (ComponentType.SKILLS_RADAR, "skills");
      (ComponentType.STATS_BENTO, "achievements")] ->
  let r := validateProps type props in
  valid r = Js.isArray (prop props key) /\
  (valid r = true <-> errors r = []) /\
  (forall ref, prop props key = Js.Array ref [] -> length (warnings r) = 1) /\
  (forall ref elems, prop props key = Js.Array ref elems ->
     3 <= length elems \/ (elems <> [] /\ type <> ComponentType.SKILLS_RADAR) ->
     warnings r = []) /\
  (forall ref elems, prop props key = Js.Array ref elems ->
     type = ComponentType.SKILLS_RADAR -> 0 < length elems < 3 ->
     warnings r =
       ["SkillRadar works best with at least 3 skills for radar visualization"]).
Proof.
  intros Hin r.
  assert (E : exists missing empty few,
            r = validateList key missing empty few props /\
            (few = None /\ type <> ComponentType.SKILLS_RADAR \/
             few = Some (3, "SkillRadar works best with at least 3 skills for radar visualization")
             /\ type = ComponentType.SKILLS_RADAR)).
  { subst r. simpl in Hin.
    destruct Hin as [E | [E | [E | [E | [E | []]]]]]; injection E as <- <-.
    - rewrite (validateProps_core ComponentType.EXP_TIMELINE _ validateExpTimeline eq_refl eq_refl).
      do 3 eexists. split; [reflexivity |]. left. split; [reflexivity | discriminate].
    - rewrite (validateProps_core ComponentType.EXP_MASONRY _ validateExpMasonry eq_refl eq_refl).
      do 3 eexists. split; [reflexivity |]. left. split; [reflexivity | discriminate].
    - rewrite (validateProps_core ComponentType.SKILLS_DOTS _ validateSkillDots eq_refl eq_refl).
      do 3 eexists. split; [reflexivity |]. left. split; [reflexivity | discriminate].
    - rewrite (validateProps_core ComponentType.SKILLS_RADAR _ validateSkillRadar eq_refl eq_refl).
      do 3 eexists. split; [reflexivity |]. right. split; reflexivity.
    - rewrite (validateProps_core ComponentType.STATS_BENTO _ validateBentoGrid eq_refl eq_refl).
      do 3 eexists. split; [reflexivity |]. left. split; [reflexivity | discriminate]. }
  destruct E as (missing & empty & few & -> & Hfew).
  split; [apply validateList_valid |].
  unfold validateList. rewrite notAnArray_isArray.
  split; [| split; [| split]].
  - destruct (Js.isArray (prop props key)); simpl; [| split; discriminate].
    destruct (Nat.eqb _ 0); simpl; [split; reflexivity |].
    destruct few as [[n msg]|]; [destruct (Nat.ltb _ n) |]; simpl; split; reflexivity.
  - intros ref ->. reflexivity.
  - intros ref elems -> H. simpl.
    destruct elems as [|e1 elems]; simpl.
    + destruct H as [H | [H _]]; [simpl in H; lia | congruence].
    + destruct Hfew as [[-> _] | [-> ->]]; [reflexivity |].
      destruct H as [H | [_ H]]; [| congruence].
      destruct elems as [|e2 [|e3 elems]]; simpl in *; try lia. reflexivity.
  - intros ref elems -> -> H. simpl.
    destruct Hfew as [[_ Hne] | [-> _]]; [congruence |].
    destruct elems as [|e1 [|e2 [|e3 elems]]]; simpl in *; try lia; reflexivity.
Qed.

End CoreRegistryMore.

(** The props of the example hero pass, so its [name] is truthy. *)
Lemma valid_props_hold_required_witness :
  Js.truthy (prop (props (heroAt 0)) "name") = true.
Proof.
  eapply (@valid_props_hold_required Js.exampleRuntime ComponentType.HERO_PRISM
            (props (heroAt 0))).
  - reflexivity.
  - reflexivity.
  - simpl. auto.
Defined.

(** The radar accepts an empty array of skills. *)
Lemma list_props_accepted_witness :
  valid (@ComponentRegistry.validateProps Js.exampleRuntime
           ComponentType.SKILLS_RADAR noSkills) = true.
Proof.
  destruct (@list_props_accepted Js.exampleRuntime ComponentType.SKILLS_RADAR "skills"
              noSkills) as (H & _).
  { simpl. auto 10. }
  rewrite H. reflexivity.
Defined.

(** ** Layout validation: the errors and the warnings, exactly *)

Section LayoutMore.
Context {rt : Js.Runtime}.
Import ComponentRegistry.

Lemma prefix_head (a : ascii) (p w : string) :
  String.prefix (String a p) w = true -> exists rest, w = String a rest.
Proof.
  destruct w as [|c w]; simpl; [discriminate |].
  destruct (ascii_dec a c) as [->|]; [eauto | discriminate].
Qed.

Lemma omap_id_cons (o : option string) (l : list (option string)) :
  omap id (o :: l) =
    match o with
    | Some e => e :: omap id l
    | None => omap id l
    end.
Proof. reflexivity. Qed.

Lemma componentFailure_valid (i : nat) (c : ComponentConfig) :
  valid (validateComponentConfig c) = true -> componentFailure i c = None.
Proof. unfold componentFailure. now intros ->. Qed.

Lemma componentFailure_invalid (i : nat) (c : ComponentConfig) :
  valid (validateComponentConfig c) = false ->
  componentFailure i c =
    Some ("Component " +:+ pretty i +:+ " (" +:+ type c +:+ "): " +:+
          Js.join ", " (errors (validateComponentConfig c))).
Proof. unfold componentFailure. now intros ->. Qed.

Lemma visitFrom_errors_exact (cs : list ComponentConfig) :
  forall (i : nat) (st : LoopState),
    loopErrors (visitFrom i cs st) =
      (loopErrors st ++ omap id (imap (fun j => componentFailure (i + j)) cs))%list.
Proof.
  induction cs as [|c cs IH]; intros i st.
  - simpl. now rewrite app_nil_r.
  - cbn [visitFrom]. rewrite IH, visit_loopErrors, imap_cons.
    rewrite Nat.add_0_r.
    rewrite (imap_ext (fun j => componentFailure (S i + j))
                      ((fun j => componentFailure (i + j)) ∘ S) cs)
      by (intros j x _; simpl; f_equal; lia).
    rewrite omap_id_cons.
    destruct (valid (validateComponentConfig c)) eqn:Vc.
    + now rewrite componentFailure_valid.
    + rewrite componentFailure_invalid by exact Vc. now rewrite <- app_assoc.
Qed.

Lemma failures_length (cs : list ComponentConfig) :
  forall i : nat,
    length (omap id (imap (fun j => componentFailure (i + j)) cs)) =
    length (List.filter (fun c => negb (valid (validateComponentConfig c))) cs).
Proof.
  induction cs as [|c cs IH]; intros i; [reflexivity |].
  rewrite imap_cons.
  rewrite (imap_ext ((fun j => componentFailure (i + j)) ∘ S)
                    (fun j => componentFailure (S i + j)) cs)
    by (intros j x _; simpl; f_equal; lia).
  rewrite omap_id_cons. rewrite Nat.add_0_r. cbn [List.filter].
  destruct (valid (validateComponentConfig c)) eqn:Vc.
  - rewrite componentFailure_valid by exact Vc. apply IH.
  - rewrite componentFailure_invalid by exact Vc. cbn [negb length]. now rewrite IH.
Qed.

(** X9 (layout errors). The errors of [validateLayoutComponents] are, in the
    order of the array, one message for each configuration that fails its
    own validation, naming its index and its type; so the layout is valid
    exactly when every configuration is, and it has as many errors as it has
    failing configurations. *)
Theorem layout_errors_exact (configs : list ComponentConfig) :
  let r := validateLayoutComponents (Configs configs) in
  errors r = omap id (imap componentFailure configs) /\
  length (errors r) =
    length (List.filter (fun c => negb (valid (validateComponentConfig c))) configs) /\
  (valid r = true <-> Forall (fun c => valid (validateComponentConfig c) = true) configs).
Proof.
  intros r. subst r. cbn [validateLayoutComponents Types.errors valid].
  rewrite visitFrom_errors_exact. cbn [loopErrors app].
  split; [reflexivity |]. split; [apply (failures_length configs 0) |].
  rewrite Nat.eqb_eq, (failures_length configs 0).
  induction configs as [|c cs IH]; cbn [List.filter].
  - split; [constructor | reflexivity].
  - destruct (valid (validateComponentConfig c)) eqn:Vc; cbn [negb length].
    + rewrite IH. split; [now constructor |]. now inversion 1.
    + split; [discriminate |]. inversion 1; congruence.
Qed.

Lemma visit_loopWarnings_exact (i : nat) (c : ComponentConfig) (st : LoopState) :
  loopWarnings (visit i c st) =
    ((loopWarnings st ++
      map (fun w => "Component " +:+ pretty i +:+ ": " +:+ w)
          (warnings (validateComponentConfig c))) ++
     if ordersHas (orders st) (order c) then [duplicateOrderWarning (order c)] else [])%list.
Proof.
  unfold visit, pushIf. cbn [loopWarnings].
  destruct (ordersHas _ _); [reflexivity | now rewrite app_nil_r].
Qed.

(** Where a warning of the loop comes from. *)
Lemma visitFrom_warnings_origin (cs : list ComponentConfig) :
  forall (i : nat) (st : LoopState) (pre : list ComponentConfig) (w : string),
    (forall o, In o (orders st) -> exists a, In a pre /\ o = order a) ->
    In w (loopWarnings (visitFrom i cs st)) ->
    In w (loopWarnings st) \/
    componentError w \/
    exists before b after a,
      cs = (before ++ b :: after)%list /\ In a (pre ++ before)%list /\
      Js.sameValueZero (order b) (order a) = true /\
      w = duplicateOrderWarning (order b).
Proof.
  induction cs as [|c cs IH]; intros i st pre w Hinv Hw; [now left |].
  cbn [visitFrom] in Hw.
  apply (IH (S i) (visit i c st) (pre ++ [c])%list) in Hw.
  - destruct Hw as [Hw | [Hw | (before & b & after & a & -> & Ha & E & ->)]].
    + rewrite visit_loopWarnings_exact, !in_app_iff in Hw.
      destruct Hw as [[Hw | Hw] | Hw].
      * now left.
      * right; left. apply in_map_iff in Hw as (w' & <- & _).
        apply prefix_append.
      * destruct (ordersHas (orders st) (order c)) eqn:Ho; [| contradiction].
        destruct Hw as [<- | []].
        apply existsb_exists in Ho as (o & Hin & E).
        destruct (Hinv o Hin) as (a & Ha & ->).
        right; right. exists [], c, cs, a. rewrite app_nil_r. auto.
    + now (right; left).
    + right; right. exists (c :: before), b, after, a.
      rewrite <- app_assoc in Ha. auto.
  - intros o Ho. rewrite visit_orders in Ho. unfold ordersAdd in Ho.
    destruct (ordersHas (orders st) (order c)).
    + destruct (Hinv o Ho) as (a & Ha & ->). exists a.
      split; [apply in_or_app; now left | reflexivity].
    + apply in_app_iff in Ho as [Ho | [<- | []]].
      * destruct (Hinv o Ho) as (a & Ha & ->). exists a.
        split; [apply in_or_app; now left | reflexivity].
      * exists c. split; [apply in_or_app; right; now left | reflexivity].
Qed.

Lemma layoutWarnings_only (configs : list ComponentConfig) (w : string) :
  In w (layoutWarnings configs) ->
  (w = "Layout has no components configured" /\ configs = []) \/
  (w = "Layout has no hero component" /\ length (List.filter isHero configs) = 0) \/
  (w = "Layout has multiple hero components" /\ 1 < length (List.filter isHero configs)).
Proof.
  unfold layoutWarnings, pushIf.
  destruct (Nat.eqb_spec (length (List.filter isHero configs)) 0) as [H0|H0].
  - rewrite in_app_iff. intros [Hw | [<- | []]]; [| auto].
    destruct configs; simpl in Hw; [| contradiction].
    destruct Hw as [<- | []]. auto.
  - destruct (Nat.ltb_spec 1 (length (List.filter isHero configs))) as [H1|H1].
    + rewrite in_app_iff. intros [Hw | [<- | []]]; [| auto].
      destruct configs; simpl in Hw; [| contradiction].
      destruct Hw as [<- | []]. auto.
    + intros Hw. destruct configs; simpl in *; [lia | contradiction].
Qed.

(** X10 (layout warnings). The layout-level warnings are given for their
    condition and for nothing else: "no components" exactly for the empty
    array, "no hero" exactly without a hero component, "multiple hero"
    exactly with more than one; and a warning about a duplicate order is
    only ever given when a configuration has the order of a configuration
    before it. *)
Theorem layout_warnings_exact (configs : list ComponentConfig) :
  let r := validateLayoutComponents (Configs configs) in
  (In "Layout has no components configured" (warnings r) <-> configs = []) /\
  (In "Layout has no hero component" (warnings r) <->
     length (List.filter isHero configs) = 0) /\
  (In "Layout has multiple hero components" (warnings r) <->
     1 < length (List.filter isHero configs)) /\
  (forall v, In (duplicateOrderWarning v) (warnings r) ->
     exists pre a mid b post,
       configs = (pre ++ a :: mid ++ b :: post)%list /\
       Js.sameValueZero (order b) (order a) = true /\
       duplicateOrderWarning (order b) = duplicateOrderWarning v).
Proof.
  intros r. subst r. cbn [validateLayoutComponents Types.warnings].
  set (st0 := {| loopErrors := []; loopWarnings := layoutWarnings configs;
                 orders := [] |}).
  assert (Horigin : forall w,
            In w (loopWarnings (visitFrom 0 configs st0)) ->
            In w (layoutWarnings configs) \/ componentError w \/
            exists before b after a,
              configs = (before ++ b :: after)%list /\ In a before /\
              Js.sameValueZero (order b) (order a) = true /\
              w = duplicateOrderWarning (order b)).
  { intros w Hw. apply (visitFrom_warnings_origin configs 0 st0 []) in Hw; [exact Hw |].
    intros o []. }
  destruct (layoutWarnings_cases configs) as (W0 & W1 & W2).
  assert (Hlayout : forall w,
            String.prefix "Layout " w = true ->
            In w (loopWarnings (visitFrom 0 configs st0)) ->
            In w (layoutWarnings configs)).
  { intros w Hp Hw.
    destruct (Horigin w Hw) as [H | [H | (before & b & after & a & _ & _ & _ & ->)]].
    - exact H.
    - apply prefix_head in H as (rest & ->). apply prefix_head in Hp as (rest' & Hp).
      discriminate Hp.
    - discriminate Hp. }
  split; [| split; [| split]].
  - split; [| intros H; apply visitFrom_warnings, W0, H].
    intros Hw. apply Hlayout in Hw; [| reflexivity].
    apply layoutWarnings_only in Hw as [[_ H] | [[H _] | [H _]]];
      [exact H | discriminate H | discriminate H].
  - split; [| intros H; apply visitFrom_warnings, W1, H].
    intros Hw. apply Hlayout in Hw; [| reflexivity].
    apply layoutWarnings_only in Hw as [[H _] | [[_ H] | [H _]]];
      [discriminate H | exact H | discriminate H].
  - split; [| intros H; apply visitFrom_warnings, W2, H].
    intros Hw. apply Hlayout in Hw; [| reflexivity].
    apply layoutWarnings_only in Hw as [[H _] | [[H _] | [_ H]]];
      [discriminate H | discriminate H | exact H].
  - intros v Hw.
    destruct (Horigin _ Hw) as [H | [H | (before & b & after & a & -> & Ha & E & Hd)]].
    + apply layoutWarnings_only in H as [[H _] | [[H _] | [H _]]]; discriminate H.
    + apply prefix_head in H as (rest & H). discriminate H.
    + apply in_split in Ha as (pre & mid & ->).
      exists pre, a, mid, b, after. rewrite <- app_assoc. auto.
Qed.

End LayoutMore.

(** ** Configuration manager: the set of disabled components *)

Section ConfigManagerMore.
Import ComponentConfigManager.

Lemma isComponentDisabled_In (id : string) (s : State) :
  isComponentDisabled id s = true <-> In id (getDisabledComponents s).
Proof. apply array_includes_In. Qed.

Lemma emitChange_globalConfig (e : ConfigChangeEvent) (s : State) :
  globalConfig (emitChange e s) = globalConfig s.
Proof. reflexivity. Qed.

Lemma disableComponent_list (id : string) (s : State) :
  getDisabledComponents (disableComponent id s) =
    if isComponentDisabled id s then getDisabledComponents s
    else (getDisabledComponents s ++ [id])%list.
Proof. unfold disableComponent. now destruct (isComponentDisabled id s). Qed.

Lemma removeFirst_absent (x : string) (l : list string) :
  ~ In x l -> removeFirst x l = l.
Proof.
  induction l as [|y l IH]; intros H; [reflexivity |]. simpl.
  destruct (String.eqb_spec y x) as [->|_]; [exfalso; apply H; now left |].
  rewrite IH; [reflexivity |]. intros ?. apply H. now right.
Qed.

Lemma removeFirst_snoc (x : string) (l : list string) :
  ~ In x l -> removeFirst x (l ++ [x]) = l.
Proof.
  induction l as [|y l IH]; intros H; simpl.
  - now rewrite String.eqb_refl.
  - destruct (String.eqb_spec y x) as [->|_]; [exfalso; apply H; now left |].
    rewrite IH; [reflexivity |]. intros ?. apply H. now right.
Qed.

Lemma removeFirst_In (x y : string) (l : list string) :
  In y (removeFirst x l) -> In y l.
Proof.
  induction l as [|z l IH]; simpl; [auto |].
  destruct (String.eqb z x); [now right |]. intros [-> | H]; [now left | right; auto].
Qed.

Lemma removeFirst_other (x y : string) (l : list string) :
  y <> x -> (In y (removeFirst x l) <-> In y l).
Proof.
  intros Hne. induction l as [|z l IH]; simpl; [reflexivity |].
  destruct (String.eqb_spec z x) as [->|_]; simpl; [| now rewrite IH].
  intuition congruence.
Qed.

Lemma removeFirst_count (x : string) (l : list string) :
  In x (removeFirst x l) <-> 2 <= length (List.filter (String.eqb x) l).
Proof.
  induction l as [|z l IH]; simpl; [split; [contradiction | lia] |].
  destruct (String.eqb_spec z x) as [->|Hne].
  - rewrite String.eqb_refl. simpl.
    rewrite <- array_includes_In. unfold Js.array_includes.
    rewrite existsb_exists. split.
    + intros (y & Hy & E). apply String.eqb_eq in E. subst y.
      assert (In x (List.filter (String.eqb x) l))
        by (apply filter_In; split; [exact Hy | apply String.eqb_refl]).
      destruct (List.filter (String.eqb x) l); [contradiction | simpl; lia].
    + intros H. destruct (List.filter (String.eqb x) l) as [|y f] eqn:F; [simpl in H; lia |].
      assert (Hy : In y (List.filter (String.eqb x) l)) by (rewrite F; now left).
      apply filter_In in Hy as [Hy E]. exists y. split; [exact Hy | exact E].
  - destruct (String.eqb_spec x z) as [->|_]; [contradiction |]. simpl.
    rewrite <- IH. intuition congruence.
Qed.

Lemma removeFirst_NoDup (x : string) (l : list string) :
  NoDup l -> NoDup (removeFirst x l) /\ ~ In x (removeFirst x l).
Proof.
  induction l as [|z l IH]; intros H; simpl.
  - split; [constructor | auto].
  - apply NoDup_cons in H as [Hz Hl].
    rewrite list_elem_of_In in Hz.
    destruct (String.eqb_spec z x) as [->|Hne]; [auto |].
    destruct (IH Hl) as [IH1 IH2]. split.
    + apply NoDup_cons. split; [| exact IH1].
      rewrite list_elem_of_In. intros Hin. apply Hz. eapply removeFirst_In, Hin.
    + intros [-> | Hin]; [congruence | auto].
Qed.

Lemma disableComponent_disabled (id : string) (s : State) :
  isComponentDisabled id (disableComponent id s) = true.
Proof.
  apply isComponentDisabled_In. rewrite disableComponent_list.
  destruct (isComponentDisabled id s) eqn:D.
  - now apply isComponentDisabled_In.
  - apply in_or_app. right. now left.
Qed.

Lemma disableComponent_other (id other : string) (s : State) :
  other <> id ->
  isComponentDisabled other (disableComponent id s) = isComponentDisabled other s.
Proof.
  intros Hne. apply eq_true_iff_eq.
  rewrite !isComponentDisabled_In, disableComponent_list.
  destruct (isComponentDisabled id s); [reflexivity |].
  rewrite in_app_iff. simpl. intuition congruence.
Qed.

Lemma disableComponent_NoDup (id : string) (s : State) :
  NoDup (getDisabledComponents s) -> NoDup (getDisabledComponents (disableComponent id s)).
Proof.
  intros N. rewrite disableComponent_list.
  destruct (isComponentDisabled id s) eqn:D; [exact N |].
  apply NoDup_app. split; [exact N |]. split; [| apply NoDup_singleton].
  intros x Hx Hx'. apply list_elem_of_In in Hx. apply list_elem_of_In in Hx'.
  destruct Hx' as [<- | []].
  apply isComponentDisabled_In in Hx. congruence.
Qed.

Lemma enableComponent_list (id : string) (s : State) :
  getDisabledComponents (enableComponent id s) = removeFirst id (getDisabledComponents s).
Proof.
  unfold enableComponent. destruct (isComponentDisabled id s) eqn:D; [reflexivity |].
  symmetry. apply removeFirst_absent. rewrite <- isComponentDisabled_In. congruence.
Qed.

Lemma enableComponent_other (id other : string) (s : State) :
  other <> id ->
  isComponentDisabled other (enableComponent id s) = isComponentDisabled other s.
Proof.
  intros Hne. apply eq_true_iff_eq.
  rewrite !isComponentDisabled_In, enableComponent_list. now apply removeFirst_other.
Qed.

(** X11 (disabling). After [disableComponent(id)] the identifier is disabled
    and the others are as before; a second call, and a call on an identifier
    already disabled, change nothing (no event is recorded either); and the
    call never makes the list of disabled identifiers repeat an entry. *)
Theorem disableComponent_effect (id : string) (s : State) :
  isComponentDisabled id (disableComponent id s) = true /\
  (forall other, other <> id ->
     isComponentDisabled other (disableComponent id s) = isComponentDisabled other s) /\
  disableComponent id (disableComponent id s) = disableComponent id s /\
  (isComponentDisabled id s = true -> disableComponent id s = s) /\
  (NoDup (getDisabledComponents s) ->
     NoDup (getDisabledComponents (disableComponent id s))).
Proof.
  split; [apply disableComponent_disabled |].
  split; [intros other; apply disableComponent_other |]. split; [| split].
  - unfold disableComponent at 1. now rewrite disableComponent_disabled.
  - intros D. unfold disableComponent. now rewrite D.
  - apply disableComponent_NoDup.
Qed.

(** X12 (enabling). [enableComponent(id)] removes the first entry for the
    identifier from the list of disabled identifiers and leaves the others
    alone. The identifier is enabled afterwards unless the list held it more
    than once, which [disableComponent] never causes; and enabling what was
    just disabled gives back the list there was. *)
Theorem enableComponent_effect (id : string) (s : State) :
  getDisabledComponents (enableComponent id s) = removeFirst id (getDisabledComponents s) /\
  (isComponentDisabled id (enableComponent id s) = true <->
     2 <= length (List.filter (String.eqb id) (getDisabledComponents s))) /\
  (forall other, other <> id ->
     isComponentDisabled other (enableComponent id s) = isComponentDisabled other s) /\
  (NoDup (getDisabledComponents s) ->
     isComponentDisabled id (enableComponent id s) = false /\
     NoDup (getDisabledComponents (enableComponent id s))) /\
  (isComponentDisabled id s = false ->
     getDisabledComponents (enableComponent id (disableComponent id s))
     = getDisabledComponents s).
Proof.
  split; [apply enableComponent_list |]. split; [| split; [| split]].
  - rewrite isComponentDisabled_In, enableComponent_list. apply removeFirst_count.
  - intros other. apply enableComponent_other.
  - intros N. destruct (removeFirst_NoDup id _ N) as [N' Hn]. split.
    + apply not_true_is_false. now rewrite isComponentDisabled_In, enableComponent_list.
    + now rewrite enableComponent_list.
  - intros D. rewrite enableComponent_list, disableComponent_list, D.
    apply removeFirst_snoc. rewrite <- isComponentDisabled_In. congruence.
Qed.

(** ** Configuration manager: the history of changes *)

Lemma emitChange_history (e : ConfigChangeEvent) (s : State) :
  length (configHistory s) <= maxHistorySize ->
  length (configHistory (emitChange e s)) = Nat.min maxHistorySize (S (length (configHistory s))) /\
  last (configHistory (emitChange e s)) = Some e /\
  (length (configHistory s) < maxHistorySize ->
   configHistory (emitChange e s) = (configHistory s ++ [e])%list) /\
  (length (configHistory s) = maxHistorySize ->
   configHistory (emitChange e s) = (tail (configHistory s) ++ [e])%list).
Proof.
  intros Hb.
  assert (E : configHistory (emitChange e s) =
              if Nat.ltb maxHistorySize (length (configHistory s ++ [e]))
              then tail (configHistory s ++ [e]) else (configHistory s ++ [e])%list)
    by reflexivity.
  rewrite E. clear E.
  assert (Hpos : 0 < maxHistorySize) by (unfold maxHistorySize; lia).
  destruct (Nat.ltb_spec maxHistorySize (length (configHistory s ++ [e]))) as [Hf|Hf];
    rewrite length_app in Hf; cbn [length] in Hf.
  - assert (Hl : length (configHistory s) = maxHistorySize) by lia.
    destruct (configHistory s) as [|e0 h] eqn:Eh; [cbn [length] in Hl; lia |].
    cbn [tail app length] in *. rewrite length_app. cbn [length].
    split; [lia |]. split; [apply last_snoc |]. split; [intros; lia | reflexivity].
  - rewrite length_app. cbn [length].
    split; [lia |]. split; [apply last_snoc |]. split; [reflexivity | intros; lia].
Qed.

Lemma mutate_history (m : Mutation) (s : State) :
  configHistory (mutate m s) = configHistory s \/
  configHistory (mutate m s) = [] \/
  exists e s0, mutate m s = emitChange e s0 /\ configHistory s0 = configHistory s.
Proof.
  destruct m; cbn [mutate].
  1-3, 6-7, 11-12: right; right; eexists _, _; split; reflexivity.
  - unfold disableComponent. destruct (isComponentDisabled componentId s); [now left |].
    right. right. eexists _, _. split; reflexivity.
  - unfold enableComponent. destruct (isComponentDisabled componentId s); [| now left].
    right. right. eexists _, _. split; reflexivity.
  - now left.
  - now left.
  - right. now left.
Qed.

(** X13 (change history). The history of changes never holds more than a
    hundred events after any sequence of calls that change the manager; each
    recorded change is added as the newest entry, and once a hundred are
    held the oldest is dropped to make room. *)
Theorem history_is_bounded (ms : list Mutation) (e : ConfigChangeEvent) (s : State) :
  length (configHistory s) <= maxHistorySize ->
  length (getConfigHistory (mutateAll ms s)) <= maxHistorySize /\
  last (getConfigHistory (emitChange e s)) = Some e /\
  (length (configHistory s) < maxHistorySize ->
   getConfigHistory (emitChange e s) = (configHistory s ++ [e])%list) /\
  (length (configHistory s) = maxHistorySize ->
   getConfigHistory (emitChange e s) = (tail (configHistory s) ++ [e])%list) /\
  maxHistorySize = 100.
Proof.
  intros Hb. split.
  - unfold mutateAll, getConfigHistory. revert s Hb.
    induction ms as [|m ms IH]; intros s Hb; [exact Hb |].
    simpl. apply IH.
    destruct (mutate_history m s) as [-> | [-> | (e' & s0 & -> & E)]];
      [exact Hb | cbn [length]; lia |].
    rewrite <- E in Hb. destruct (emitChange_history e' s0 Hb) as (-> & _). lia.
  - destruct (emitChange_history e s Hb) as (_ & H2 & H3 & H4). auto.
Qed.

(** ** Configuration manager: overrides of one component *)

Lemma getComponentSettings_overrides (id : string) (s : State) :
  getComponentSettings id s =
    mergeSettings (defaultSettings (globalConfig s))
      (default noOverrides (componentOverrides (globalConfig s) !! id)).
Proof. reflexivity. Qed.

Lemma updateComponentSettings_overrides (id id' : string) (settings : PartialSettings)
    (s : State) :
  defaultSettings (globalConfig (updateComponentSettings id settings s))
    = defaultSettings (globalConfig s) /\
  componentOverrides (globalConfig (updateComponentSettings id settings s)) !! id'
    = if decide (id = id')
      then Some (spread (default noOverrides (componentOverrides (globalConfig s) !! id))
                        settings)
      else componentOverrides (globalConfig s) !! id'.
Proof.
  unfold updateComponentSettings. cbn [globalConfig emitChange withGlobalConfig
    defaultSettings componentOverrides].
  split; [reflexivity |]. apply lookup_insert.
Qed.


Lemma updateComponentSettings_merged (id : string) (settings : PartialSettings)
    (s : State) :
  getComponentSettings id (updateComponentSettings id settings s) =
    mergeSettings (defaultSettings (globalConfig s))
      (spread (default noOverrides (componentOverrides (globalConfig s) !! id)) settings).
Proof.
  rewrite getComponentSettings_overrides.
  destruct (updateComponentSettings_overrides id id settings s) as [-> ->].
  now rewrite decide_True.
Qed.

Lemma updateComponentSettings_keeps (id : string) (settings : PartialSettings)
    (s : State) :
  let s' := updateComponentSettings id settings s in
  (customClasses' settings = None ->
     customClasses (getComponentSettings id s') = customClasses (getComponentSettings id s)) /\
  (featureFlags' settings = None ->
     featureFlags (getComponentSettings id s') = featureFlags (getComponentSettings id s)) /\
  (themeOverrides' settings = None ->
     themeOverrides (getComponentSettings id s') = themeOverrides (getComponentSettings id s)) /\
  (forall other, other <> id ->
     getComponentSettings other s' = getComponentSettings other s).
Proof.
  intros s'. subst s'. rewrite updateComponentSettings_merged.
  rewrite (getComponentSettings_overrides id s).
  set (before := default noOverrides (componentOverrides (globalConfig s) !! id)).
  split; [| split; [| split]].
  - intros E. unfold mergeSettings, spread. cbn [customClasses customClasses']. rewrite E.
    now destruct (customClasses' before).
  - intros E. unfold mergeSettings, spread. cbn [featureFlags featureFlags']. rewrite E.
    now destruct (featureFlags' before).
  - intros E. unfold mergeSettings, spread. cbn [themeOverrides themeOverrides']. rewrite E.
    now destruct (themeOverrides' before).
  - intros other Hne. rewrite !getComponentSettings_overrides.
    destruct (updateComponentSettings_overrides id other settings s) as [-> ->].
    now rewrite decide_False by congruence.
Qed.



(** A theme override that is set is found in the settings of the
    component, over the default of the same name; the other overrides,
    the other settings and the other components are as they were. *)
Lemma themeOverride_roundtrip (id property value : string) (s : State) :
  let s' := setThemeOverride id property value s in
  themeOverrides (getComponentSettings id s') !! property = Some value /\
  themeOverrides (getComponentSettings id s') =
    <[property := value]> (themeOverrides (getComponentSettings id s)) /\
  customClasses (getComponentSettings id s') = customClasses (getComponentSettings id s) /\
  featureFlags (getComponentSettings id s') = featureFlags (getComponentSettings id s) /\
  (forall other, other <> id ->
     getComponentSettings other s' = getComponentSettings other s).
Proof.
  intros s'.
  assert (H1 : themeOverrides (getComponentSettings id s') =
               <[property := value]> (themeOverrides (getComponentSettings id s))).
  { subst s'. unfold setThemeOverride. rewrite !getComponentSettings_overrides.
    destruct (updateComponentSettings_overrides id id
                (onlyThemeOverrides
                   (<[property := value]>
                      (default ∅ (themeOverrides'
                         (default noOverrides (componentOverrides (globalConfig s) !! id))))))
                s) as [-> ->].
    rewrite decide_True by reflexivity. simpl.
    rewrite insert_union_l.
    now destruct (themeOverrides' (default noOverrides (componentOverrides (globalConfig s) !! id))). }
  destruct (updateComponentSettings_keeps id
              (onlyThemeOverrides
                 (<[property := value]>
                    (default ∅ (themeOverrides'
                       (default noOverrides (componentOverrides (globalConfig s) !! id))))))
              s) as (Hc & Hf & _ & Ho).
  split; [now rewrite H1, lookup_insert_eq |]. split; [exact H1 |].
  split; [now apply Hc |]. split; [now apply Hf |]. exact Ho.
Qed.

Lemma settings_helpers_agree (id : string) (s : State) (overrides : PartialSettings)
    (base : ComponentSettings) :
  getComponentSettings id s =
    mergeSettings (defaultSettings (globalConfig s))
      (default noOverrides (componentOverrides (globalConfig s) !! id)) /\
  createComponentSettings overrides = mergeSettings DEFAULT_SETTINGS overrides /\
  mergeSettings base noOverrides = base /\
  getComponentSettings id init = DEFAULT_SETTINGS.
Proof.
  split; [reflexivity |]. split; [| split].
  - unfold createComponentSettings, mergeSettings. simpl.
    now rewrite !(right_id_L ∅ (∪)).
  - unfold mergeSettings. destruct base. simpl.
    now rewrite app_nil_r, !(left_id_L ∅ (∪)).
  - reflexivity.
Qed.

(** ** Configuration manager: layouts and telemetry *)

Lemma filter_length_0 {A : Type} (f : A -> bool) (l : list A) :
  length (List.filter f l) = 0 <-> Forall (fun x => f x = false) l.
Proof.
  induction l as [|x l IH]; simpl.
  - split; [constructor | reflexivity].
  - destruct (f x) eqn:E; simpl.
    + split; [lia | intros H; inversion H; congruence].
    + rewrite IH. split; [now constructor | intros H; now inversion H].
Qed.

Lemma validateLayout_errors_length `{rt : Js.Runtime} (ids : list string) (s : State) :
  length (Types.errors (validateLayout ids s)) =
    (if lengthExceeds (length ids) (maxComponentsPerLayout (globalConfig s)) then 1 else 0)
    + length (List.filter (fun id => isComponentDisabled id s) ids)
    + (if allowCustomComponents (globalConfig s) then 0
       else length (List.filter
                      (fun id => negb (Js.array_includes ComponentType.values id)) ids)).
Proof.
  unfold validateLayout. cbn [Types.errors].
  destruct (lengthExceeds _ _), (allowCustomComponents _); cbn [negb];
    rewrite ?length_app, ?length_map; cbn [length app]; lia.
Qed.

(** X16 (layout against the configuration). [validateLayout] accepts a
    layout exactly when it is not longer than the configured maximum, none
    of its identifiers is disabled and, where custom components are not
    allowed, all of them are core types. It reports one error for the
    length, one for each disabled entry and one for each entry that is not a
    core type, and never a warning. *)
Theorem validateLayout_exact `{rt : Js.Runtime} (ids : list string) (s : State) :
  let r := validateLayout ids s in
  (valid r = true <->
     lengthExceeds (length ids) (maxComponentsPerLayout (globalConfig s)) = false /\
     Forall (fun id => isComponentDisabled id s = false) ids /\
     (allowCustomComponents (globalConfig s) = true \/
      Forall (fun id => In id ComponentType.values) ids)) /\
  length (Types.errors r) =
    (if lengthExceeds (length ids) (maxComponentsPerLayout (globalConfig s)) then 1 else 0)
    + length (List.filter (fun id => isComponentDisabled id s) ids)
    + (if allowCustomComponents (globalConfig s) then 0
       else length (List.filter
                      (fun id => negb (Js.array_includes ComponentType.values id)) ids)) /\
  (forall id, In id ids -> isComponentDisabled id s = true ->
     In ("Component " +:+ id +:+ " is disabled") (Types.errors r)) /\
  Types.warnings r = [].
Proof.
  intros r. split; [| split; [apply validateLayout_errors_length | split; [| reflexivity]]].
  - assert (E : valid r = Nat.eqb (length (Types.errors r)) 0) by reflexivity.
    rewrite E, Nat.eqb_eq. subst r. rewrite validateLayout_errors_length.
    pose proof (filter_length_0 (fun id => isComponentDisabled id s) ids) as Hd.
    pose proof (filter_length_0
                  (fun id => negb (Js.array_includes ComponentType.values id)) ids) as Hc.
    assert (Hcore : Forall (fun id => negb (Js.array_includes ComponentType.values id) = false)
                      ids <-> Forall (fun id => In id ComponentType.values) ids).
    { apply Forall_iff. intros id. rewrite negb_false_iff. apply array_includes_In. }
    destruct (lengthExceeds _ _), (allowCustomComponents _).
    + split; [lia | intros [? _]; discriminate].
    + split; [lia | intros [? _]; discriminate].
    + rewrite <- Hd. split; [intros; repeat split; [lia | now left] | intros (_ & ? & _); lia].
    + rewrite <- Hd, <- Hcore, <- Hc. split.
      * intros. repeat split; [lia | right; lia].
      * intros (_ & ? & [? | ?]); [discriminate | lia].
  - intros id Hin Hdis. subst r. unfold validateLayout. cbn [Types.errors].
    assert (Hm : In ("Component " +:+ id +:+ " is disabled")
                   (map (fun id => "Component " +:+ id +:+ " is disabled")
                        (List.filter (fun id => isComponentDisabled id s) ids))).
    { apply in_map_iff. exists id. split; [reflexivity |].
      apply filter_In. now split. }
    destruct (lengthExceeds _ _), (allowCustomComponents _); cbn [negb];
      rewrite ?in_app_iff; auto.
Qed.

Lemma getRuntimeState_fst (id : string) (states : RuntimeStates) :
  (getRuntimeState id states).1 = default freshRuntimeState (states !! id).
Proof. unfold getRuntimeState. now destruct (states !! id). Qed.

Lemma getRuntimeState_snd (id other : string) (states : RuntimeStates) :
  (getRuntimeState id states).2 !! other =
    if decide (id = other) then Some (default freshRuntimeState (states !! id))
    else states !! other.
Proof.
  unfold getRuntimeState. destruct (states !! id) eqn:E; simpl.
  - destruct (decide (id = other)) as [<-|]; [exact E | reflexivity].
  - apply lookup_insert.
Qed.

Lemma updateRuntimeState_lookup (id other : string) (p : PartialRuntimeState)
    (states : RuntimeStates) :
  updateRuntimeState id p states !! other =
    if decide (id = other)
    then Some {| isRendering :=
                   default (isRendering (default freshRuntimeState (states !! id)))
                           (isRendering' p);
                 lastRenderTime :=
                   default (lastRenderTime (default freshRuntimeState (states !! id)))
                           (lastRenderTime' p);
                 renderCount :=
                   default (renderCount (default freshRuntimeState (states !! id)))
                           (renderCount' p);
                 errors :=
                   default (errors (default freshRuntimeState (states !! id))) (errors' p) |}
    else states !! other.
Proof.
  unfold updateRuntimeState.
  pose proof (getRuntimeState_snd id other states) as H.
  pose proof (getRuntimeState_fst id states) as H'.
  destruct (getRuntimeState id states) as [cur st]. simpl in H, H'. subst cur.
  rewrite lookup_insert. destruct (decide (id = other)); [reflexivity | exact H].
Qed.


Lemma recordError_lookup (id error other : string) (states : RuntimeStates) :
  recordError id error states !! other =
    if decide (id = other)
    then Some {| isRendering := isRendering (default freshRuntimeState (states !! id));
                 lastRenderTime := lastRenderTime (default freshRuntimeState (states !! id));
                 renderCount := renderCount (default freshRuntimeState (states !! id));
                 errors :=
                   (errors (default freshRuntimeState (states !! id)) ++ [error])%list |}
    else states !! other.
Proof.
  unfold recordError.
  pose proof (getRuntimeState_snd id other states) as H.
  pose proof (getRuntimeState_snd id id states) as Hid.
  pose proof (getRuntimeState_fst id states) as H'.
  destruct (getRuntimeState id states) as [cur st]. simpl in H, Hid, H'. subst cur.
  rewrite decide_True in Hid by reflexivity.
  rewrite updateRuntimeState_lookup, Hid.
  destruct (decide (id = other)); [reflexivity | exact H].
Qed.


(** X18 (error telemetry). [recordError] appends to the errors of the
    component, in the order of the calls, and [clearErrors] empties them;
    neither changes the render count or the last render time of the
    component, nor the telemetry of another component. *)
Theorem recordError_collects (errs : list string) (id : string) (states : RuntimeStates) :
  let states' := foldl (fun st e => recordError id e st) states errs in
  errors (getRuntimeState id states').1 = (errors (getRuntimeState id states).1 ++ errs)%list /\
  renderCount (getRuntimeState id states').1 = renderCount (getRuntimeState id states).1 /\
  lastRenderTime (getRuntimeState id states').1
    = lastRenderTime (getRuntimeState id states).1 /\
  (forall other, other <> id -> states' !! other = states !! other) /\
  errors (getRuntimeState id (clearErrors id states')).1 = [] /\
  renderCount (getRuntimeState id (clearErrors id states')).1
    = renderCount (getRuntimeState id states).1 /\
  (forall other, other <> id -> clearErrors id states' !! other = states !! other).
Proof.
  cbv zeta. rewrite !getRuntimeState_fst.
  assert (H : errors (default freshRuntimeState
                        (foldl (fun st e => recordError id e st) states errs !! id))
              = (errors (default freshRuntimeState (states !! id)) ++ errs)%list /\
            renderCount (default freshRuntimeState
                           (foldl (fun st e => recordError id e st) states errs !! id))
              = renderCount (default freshRuntimeState (states !! id)) /\
            lastRenderTime (default freshRuntimeState
                              (foldl (fun st e => recordError id e st) states errs !! id))
              = lastRenderTime (default freshRuntimeState (states !! id)) /\
            (forall other, other <> id ->
               foldl (fun st e => recordError id e st) states errs !! other
               = states !! other)).
  { induction errs as [|e errs IH] using rev_ind.
    - simpl. rewrite app_nil_r. auto.
    - rewrite foldl_snoc.
      set (mid := foldl (fun st e => recordError id e st) states errs) in *.
      destruct IH as (He & Hc & Ht & Ho).
      rewrite recordError_lookup.
      rewrite decide_True by reflexivity. cbn [from_option Datatypes.id renderCount lastRenderTime errors].
      split; [rewrite He; now rewrite <- app_assoc |]. split; [exact Hc |].
      split; [exact Ht |].
      intros other Hne. rewrite recordError_lookup, decide_False by congruence.
      now apply Ho. }
  destruct H as (He & Hc & Ht & Ho).
  split; [exact He |]. split; [exact Hc |]. split; [exact Ht |]. split; [exact Ho |].
  unfold clearErrors.
  rewrite updateRuntimeState_lookup, decide_True by reflexivity.
  cbn [from_option Datatypes.id renderCount errors errors' renderCount'].
  split; [reflexivity |]. split; [exact Hc |].
  intros other Hne. rewrite updateRuntimeState_lookup, decide_False by congruence.
  now apply Ho.
Qed.

End ConfigManagerMore.

(** A fresh manager, a component disabled and enabled again: two events
    are held, which is within the bound. *)
Lemma history_is_bounded_witness :
  let ms := [ComponentConfigManager.DoDisableComponent "tool_hero_prism";
             ComponentConfigManager.DoEnableComponent "tool_hero_prism"] in
  length (ComponentConfigManager.getConfigHistory
            (ComponentConfigManager.mutateAll ms ComponentConfigManager.init))
  <= ComponentConfigManager.maxHistorySize.
Proof.
  intros ms.
  refine (proj1 (history_is_bounded ms
                   (ComponentConfigManager.ComponentChange "tool_hero_prism" None None)
                   ComponentConfigManager.init _)).
  unfold ComponentConfigManager.maxHistorySize. simpl. lia.
Defined.

(** ** Plugin manager *)

Section PluginManagerMore.
Import PluginManager.
Context {rt : Js.Runtime}.

Lemma pushIf_nil (cond : bool) (msg : string) (acc : list string) :
  pushIf cond msg acc = [] <-> cond = false /\ acc = [].
Proof.
  unfold pushIf. destruct cond.
  - split; [intros H; now apply app_eq_nil in H as [_ H] | intros [? _]; discriminate].
  - split; [auto | now intros [_ ?]].
Qed.

Lemma no_errors_structurallyComplete (p : ExtendedComponentPlugin) :
  structuralErrors p = [] -> structurallyComplete p.
Proof.
  unfold structuralErrors. intros H.
  apply pushIf_nil in H as [Hv H]. apply negb_false_iff, bool_decide_eq_true in Hv.
  destruct (metadata p) as [m|] eqn:Hm;
    [| now apply app_eq_nil in H as [_ H]].
  apply pushIf_nil in H as [Hrp H]. apply negb_false_iff, bool_decide_eq_true in Hrp.
  apply pushIf_nil in H as [Hcat H]. apply pushIf_nil in H as [Hn H].
  apply pushIf_nil in H as [Hc H]. apply negb_false_iff, bool_decide_eq_true in Hc.
  apply pushIf_nil in H as [Hid _]. apply orb_false_iff in Hid as [Ht Hs].
  apply negb_false_iff in Ht, Hs. apply String.eqb_eq in Hs.
  apply String.eqb_neq in Hcat, Hn.
  repeat split; auto.
  - destruct (id p) as [| | | |key| | |]; try discriminate Hs.
    exists key. split; [reflexivity |]. simpl in Ht.
    apply negb_true_iff, String.eqb_neq in Ht. exact Ht.
  - exists m. auto.
Qed.

Lemma registerPlugin_rejected (p : ExtendedComponentPlugin) (s : State) :
  structuralErrors p <> [] ->
  registerPlugin p s =
    ({| success := false;
        pluginId := if Js.truthy (id p) then id p else Js.Str "unknown";
        errors := structuralErrors p;
        warnings := pushIf (hasKey (plugins s) (id p)) (overwriteWarning (id p)) [] |}, s).
Proof.
  intros H. unfold registerPlugin.
  destruct (structuralErrors p) as [|e l]; [congruence | reflexivity].
Qed.

Lemma registerPlugin_accepted (p : ExtendedComponentPlugin) (key : string) (s : State) :
  structuralErrors p = [] -> id p = Js.Str key ->
  registerPlugin p s =
    ({| success := true; pluginId := Js.Str key; errors := [];
        warnings :=
          match hooks p ≫= onRegister with
          | Some (Throws error) =>
              (pushIf (hasKey (plugins s) (Js.Str key)) (overwriteWarning (Js.Str key)) []
               ++ ["onRegister hook failed: " +:+ error])%list
          | _ => pushIf (hasKey (plugins s) (Js.Str key)) (overwriteWarning (Js.Str key)) []
          end |},
     {| plugins := <[key := p]> (plugins s);
        configs := if negb (bool_decide (is_Some (configs s !! key)))
                   then <[key := default defaultConfig (config p)]> (configs s)
                   else configs s;
        availabilityConfig := availabilityConfig s |}).
Proof.
  intros H Hid. unfold registerPlugin. rewrite H, Hid. reflexivity.
Qed.

(** X19 (plugin registration). [registerPlugin] succeeds exactly for a
    structurally complete plugin. A plugin it refuses leaves the manager as
    it was, whatever was registered before, and its result lists the
    structural errors, at least one; a plugin it accepts gets an empty list
    of errors. *)
Theorem registerPlugin_success_exact (p : ExtendedComponentPlugin) (s : State) :
  (success (registerPlugin p s).1 = true <-> structurallyComplete p) /\
  (success (registerPlugin p s).1 = false ->
     (registerPlugin p s).2 = s /\
     errors (registerPlugin p s).1 = structuralErrors p /\
     errors (registerPlugin p s).1 <> []) /\
  (success (registerPlugin p s).1 = true -> errors (registerPlugin p s).1 = []).
Proof.
  destruct (structuralErrors p) as [|e l] eqn:E.
  - pose proof (no_errors_structurallyComplete p E) as Hp.
    destruct Hp as ((key & Hid & Hkey) & Hrest).
    rewrite (registerPlugin_accepted p key s E Hid). cbn [fst snd success errors].
    split; [| split; [discriminate | reflexivity]].
    split; [intros _ | reflexivity].
    split; [exists key; auto | exact Hrest].
  - assert (Hne : structuralErrors p <> []) by (rewrite E; discriminate).
    rewrite (registerPlugin_rejected p s Hne). cbn [fst snd success errors].
    split; [| split; [intros _; rewrite E; repeat split; discriminate | discriminate]].
    split; [discriminate |].
    intros Hp. apply structurallyComplete_no_errors in Hp. congruence.
Qed.

(** X20 (fresh plugin). Registering a structurally complete plugin under an
    identifier the manager does not know stores it, with the configuration
    it brings or else the default one, which enables it, and counts one
    plugin more; a failing [onRegister] hook costs a warning, not the
    registration. Unregistering the identifier then gives back the plugins
    and the configurations there were. *)
Theorem registerPlugin_fresh (p : ExtendedComponentPlugin) (key : string) (s : State) :
  structurallyComplete p -> id p = Js.Str key ->
  plugins s !! key = None -> configs s !! key = None ->
  let r := (registerPlugin p s).1 in
  let s' := (registerPlugin p s).2 in
  success r = true /\
  pluginId r = Js.Str key /\
  warnings r = match hooks p ≫= onRegister with
               | Some (Throws error) => ["onRegister hook failed: " +:+ error]
               | _ => []
               end /\
  getPlugin key s' = Some p /\
  getPluginConfig key s' = Some (default defaultConfig (config p)) /\
  (config p = None -> isPluginEnabled key s' = true) /\
  getPluginCount s' = S (getPluginCount s) /\
  (forall other, other <> key ->
     getPlugin other s' = getPlugin other s /\
     getPluginConfig other s' = getPluginConfig other s) /\
  (unregisterPlugin key s').1 = true /\
  plugins (unregisterPlugin key s').2 = plugins s /\
  configs (unregisterPlugin key s').2 = configs s.
Proof.
  intros Hp Hid Hnew Hcfg r s'. subst r s'.
  rewrite (registerPlugin_accepted p key s (structurallyComplete_no_errors p Hp) Hid).
  cbn [fst snd success pluginId warnings].
  assert (Hk : hasKey (plugins s) (Js.Str key) = false).
  { simpl. apply bool_decide_eq_false. rewrite Hnew. now intros [? ?]. }
  rewrite Hk. cbn [pushIf app].
  assert (Hc : bool_decide (is_Some (configs s !! key)) = false).
  { apply bool_decide_eq_false. rewrite Hcfg. now intros [? ?]. }
  rewrite Hc. cbn [negb].
  unfold getPlugin, getPluginConfig, getPluginCount, isPluginEnabled, unregisterPlugin.
  cbn [plugins configs].
  rewrite !lookup_insert_eq. cbn [fst snd plugins configs].
  split; [reflexivity |]. split; [reflexivity |].
  split; [now destruct (hooks p ≫= onRegister) as [[|]|] |].
  split; [reflexivity |]. split; [reflexivity |].
  split; [intros ->; reflexivity |].
  split; [now apply map_size_insert_None |].
  split; [intros other Hne; now rewrite !lookup_insert_ne by congruence |].
  split; [reflexivity |].
  split; now apply delete_insert_id.
Qed.

Lemma updatePluginConfig_configs (key other : string) (c : PartialPluginConfig) (s : State) :
  configs (updatePluginConfig key c s).2 !! other =
    if decide (key = other)
    then (fun old => {| enabled := default (enabled old) (enabled' c);
                        priority := default (priority old) (priority' c);
                        settings := default ∅ (settings' c) ∪ settings old |})
         <$> configs s !! key
    else configs s !! other.
Proof.
  unfold updatePluginConfig. destruct (configs s !! key) as [old|] eqn:E; cbn [snd configs].
  - rewrite lookup_insert. now destruct (decide (key = other)).
  - destruct (decide (key = other)) as [<-|]; [exact E | reflexivity].
Qed.

Lemma updatePluginConfig_plugins (key : string) (c : PartialPluginConfig) (s : State) :
  plugins (updatePluginConfig key c s).2 = plugins s /\
  availabilityConfig (updatePluginConfig key c s).2 = availabilityConfig s /\
  (updatePluginConfig key c s).1 = bool_decide (is_Some (configs s !! key)).
Proof.
  unfold updatePluginConfig.
  destruct (configs s !! key) as [old|] eqn:E; cbn [fst snd plugins availabilityConfig];
    (split; [reflexivity | split; [reflexivity |]]); symmetry.
  - apply bool_decide_eq_true. eauto.
  - apply bool_decide_eq_false. now intros [? ?].
Qed.

(** X21 (plugin switch). [disablePlugin] and [enablePlugin] answer whether
    the manager has a configuration for the identifier. After
    [disablePlugin] the plugin is not enabled; after [enablePlugin] it is
    enabled exactly when it has a configuration. Both keep the priority and
    the settings of the plugin, the plugins themselves and the configuration
    of every other plugin. *)
Theorem enablePlugin_disablePlugin_effect (key : string) (s : State) :
  (disablePlugin key s).1 = bool_decide (is_Some (getPluginConfig key s)) /\
  (enablePlugin key s).1 = bool_decide (is_Some (getPluginConfig key s)) /\
  isPluginEnabled key (disablePlugin key s).2 = false /\
  isPluginEnabled key (enablePlugin key s).2
    = bool_decide (is_Some (getPluginConfig key s)) /\
  isPluginEnabled key (enablePlugin key (disablePlugin key s).2).2
    = bool_decide (is_Some (getPluginConfig key s)) /\
  priority <$> getPluginConfig key (disablePlugin key s).2
    = priority <$> getPluginConfig key s /\
  settings <$> getPluginConfig key (disablePlugin key s).2
    = settings <$> getPluginConfig key s /\
  plugins (disablePlugin key s).2 = plugins s /\
  plugins (enablePlugin key s).2 = plugins s /\
  (forall other, other <> key ->
     getPluginConfig other (disablePlugin key s).2 = getPluginConfig other s /\
     getPluginConfig other (enablePlugin key s).2 = getPluginConfig other s).
Proof.
  unfold disablePlugin, enablePlugin, isPluginEnabled, getPluginConfig.
  rewrite !updatePluginConfig_configs, !decide_True by reflexivity.
  rewrite ?updatePluginConfig_configs, ?decide_True by reflexivity.
  destruct (updatePluginConfig_plugins key (onlyEnabled false) s) as (Hp & _ & Hr).
  destruct (updatePluginConfig_plugins key (onlyEnabled true) s) as (Hp' & _ & Hr').
  split; [exact Hr |]. split; [exact Hr' |].
  destruct (configs s !! key) as [old|] eqn:E; cbn.
  - rewrite !(left_id_L ∅ (∪)).
    repeat split; auto;
      rewrite updatePluginConfig_configs, decide_False by congruence; reflexivity.
  - repeat split; auto;
      rewrite updatePluginConfig_configs, decide_False by congruence; reflexivity.
Qed.

Lemma getEnabledPlugins_In (key : string) (p : ExtendedComponentPlugin) (s : State) :
  In (key, p) (getEnabledPlugins s) <->
  getPlugin key s = Some p /\ isPluginEnabled key s = true.
Proof.
  unfold getEnabledPlugins, getPlugin. rewrite filter_In.
  rewrite <- list_elem_of_In, elem_of_map_to_list. reflexivity.
Qed.

Lemma filter_length_le {A : Type} (f : A -> bool) (l : list A) :
  length (List.filter f l) <= length l.
Proof. induction l as [|x l IH]; simpl; [lia |]. destruct (f x); simpl; lia. Qed.

Lemma omap_length_le {A B : Type} (f : A -> option B) (l : list A) :
  length (omap f l) <= length l.
Proof.
  induction l as [|x l IH]; [simpl; lia |].
  change (omap f (x :: l)) with (match f x with Some y => y :: omap f l | None => omap f l end).
  destruct (f x); cbn [length]; lia.
Qed.

(** X22 (tool definitions). The tool definitions offered for function
    calling are those of the plugins that are registered and enabled, and of
    no other: disabling a plugin withdraws its tool. There are no more of
    them than enabled plugins, and no more enabled plugins than plugins. *)
Theorem getToolDefinitions_enabled_only (tool : ToolDefinition) (key : string) (s : State) :
  (In tool (getToolDefinitions s) <->
     exists k p, getPlugin k s = Some p /\ isPluginEnabled k s = true /\
                 toolDefinition p = Some tool) /\
  length (getToolDefinitions s) <= getEnabledPluginCount s /\
  getEnabledPluginCount s <= getPluginCount s /\
  (forall k p, In (k, p) (getEnabledPlugins (disablePlugin key s).2) -> k <> key).
Proof.
  split; [| split; [| split]].
  - unfold getToolDefinitions. rewrite <- list_elem_of_In, list_elem_of_omap. split.
    + intros ([k p] & Hin & Ht). exists k, p.
      apply list_elem_of_In, getEnabledPlugins_In in Hin as [Hp He]. auto.
    + intros (k & p & Hp & He & Ht). exists (k, p). split; [| exact Ht].
      apply list_elem_of_In, getEnabledPlugins_In. auto.
  - apply omap_length_le.
  - unfold getEnabledPluginCount, getEnabledPlugins, getPluginCount.
    rewrite <- (length_map_to_list (plugins s)). apply filter_length_le.
  - intros k p Hin ->. apply getEnabledPlugins_In in Hin as [_ He].
    unfold isPluginEnabled, disablePlugin in He.
    rewrite updatePluginConfig_configs, decide_True in He by reflexivity.
    destruct (configs s !! key); discriminate He.
Qed.

(** X23 (plugin manager invariant). From a new manager, whatever is called
    on it: every stored plugin is structurally complete and stored under its
    own identifier, and the manager holds a configuration for exactly the
    identifiers it holds a plugin for. So a registered plugin always has a
    validator to run, and [enablePlugin] succeeds exactly on the registered
    identifiers. *)
Theorem plugins_and_configs_agree (cs : list Call) (key : string) :
  let s := callAll cs init in
  (forall p, getPlugin key s = Some p ->
     id p = Js.Str key /\ structurallyComplete p /\ is_Some (validateProps p)) /\
  (is_Some (getPlugin key s) <-> is_Some (getPluginConfig key s)) /\
  hasPlugin key s = (enablePlugin key s).1 /\
  (isPluginEnabled key s = true -> hasPlugin key s = true).
Proof.
  intros s.
  assert (Inv : forall k,
            (forall p, plugins s !! k = Some p -> id p = Js.Str k /\ structuralErrors p = []) /\
            (is_Some (plugins s !! k) <-> is_Some (configs s !! k))).
  { subst s. unfold callAll.
    assert (H0 : forall k,
              (forall p, plugins init !! k = Some p ->
                 id p = Js.Str k /\ structuralErrors p = []) /\
              (is_Some (plugins init !! k) <-> is_Some (configs init !! k))).
    { intros k. simpl. rewrite !lookup_empty.
      split; [discriminate | split; intros [? ?]; discriminate]. }
    revert H0. generalize init as s.
    induction cs as [|c cs IH]; intros s Hs; [exact Hs |].
    cbn [foldl]. apply IH. intros k. destruct (Hs k) as [H1 H2].
    destruct c as [p | pid | pid config | pid | pid | config | cat cid | cid pr]; cbn [call].
    - destruct (structuralErrors p) as [|e l] eqn:E.
      + destruct (no_errors_structurallyComplete p E) as ((k' & Hid & _) & _).
        rewrite (registerPlugin_accepted p k' s E Hid). cbn [snd plugins configs].
        destruct (decide (k' = k)) as [->|Hne].
        * rewrite lookup_insert_eq. split; [intros ? [= <-]; auto |].
          destruct (configs s !! k) as [c|] eqn:Ec.
          -- rewrite bool_decide_true by eauto. cbn [negb]. rewrite Ec. split; eauto.
          -- rewrite bool_decide_false by (now intros [? ?]). cbn [negb].
             rewrite lookup_insert_eq. split; eauto.
        * rewrite lookup_insert_ne by exact Hne. split; [exact H1 |].
          destruct (negb _); [now rewrite lookup_insert_ne by exact Hne | exact H2].
      + rewrite registerPlugin_rejected by (rewrite E; discriminate). now split.
    - unfold unregisterPlugin. destruct (plugins s !! pid) eqn:Ep; [| now split].
      cbn [snd plugins configs]. destruct (decide (pid = k)) as [->|Hne].
      + rewrite !lookup_delete_eq. split; [discriminate |].
        split; intros [? ?]; discriminate.
      + now rewrite !lookup_delete_ne by exact Hne.
    - destruct (updatePluginConfig_plugins pid config s) as (-> & _ & _).
      split; [exact H1 |]. rewrite updatePluginConfig_configs.
      destruct (decide (pid = k)) as [->|]; [| exact H2].
      rewrite H2. now rewrite fmap_is_Some.
    - unfold enablePlugin.
      destruct (updatePluginConfig_plugins pid (onlyEnabled true) s) as (-> & _ & _).
      split; [exact H1 |]. rewrite updatePluginConfig_configs.
      destruct (decide (pid = k)) as [->|]; [| exact H2].
      rewrite H2. now rewrite fmap_is_Some.
    - unfold disablePlugin.
      destruct (updatePluginConfig_plugins pid (onlyEnabled false) s) as (-> & _ & _).
      split; [exact H1 |]. rewrite updatePluginConfig_configs.
      destruct (decide (pid = k)) as [->|]; [| exact H2].
      rewrite H2. now rewrite fmap_is_Some.
    - now split.
    - now split.
    - now split. }
  destruct (Inv key) as [H1 H2]. unfold getPlugin, getPluginConfig, hasPlugin.
  split; [| split; [exact H2 | split]].
  - intros p Hp. destruct (H1 p Hp) as [Hid He].
    pose proof (no_errors_structurallyComplete p He) as Hc.
    split; [exact Hid |]. split; [exact Hc |]. apply Hc.
  - unfold enablePlugin.
    destruct (updatePluginConfig_plugins key (onlyEnabled true) s) as (_ & _ & ->).
    apply bool_decide_ext. exact H2.
  - unfold isPluginEnabled. intros He. apply bool_decide_eq_true, H2.
    destruct (configs s !! key); [eauto | discriminate He].
Qed.




End PluginManagerMore.

Lemma galleryPlugin_complete (key : string) :
  key <> "" -> PluginManager.structurallyComplete (galleryPlugin (Js.Str key)).
Proof.
  intros Hkey. split.
  { exists key. split; [reflexivity | exact Hkey]. }
  split.
  { eexists. reflexivity. }
  split.
  { eexists. split; [reflexivity |]. split; [discriminate |].
    split; [discriminate |]. eexists. reflexivity. }
  eexists. reflexivity.
Qed.

(** The gallery registered in a fresh manager: one plugin, enabled. *)
Lemma registerPlugin_fresh_witness :
  let p := galleryPlugin (Js.Str "tool_custom_gallery") in
  let out := @PluginManager.registerPlugin Js.exampleRuntime p PluginManager.init in
  PluginManager.success out.1 = true /\
  PluginManager.getPluginCount out.2 = 1 /\
  PluginManager.isPluginEnabled "tool_custom_gallery" out.2 = true.
Proof.
  intros p out.
  destruct (@registerPlugin_fresh Js.exampleRuntime p "tool_custom_gallery"
              PluginManager.init)
    as (Hs & _ & _ & _ & _ & He & Hn & _).
  - apply galleryPlugin_complete. discriminate.
  - reflexivity.
  - reflexivity.
  - reflexivity.
  - split; [exact Hs |]. split; [exact Hn | exact (He eq_refl)].
Defined.

(** ** Extensible registry *)

Section ExtensibleRegistryMore.
Import ExtensibleComponentRegistry.
Context {rt : Js.Runtime}.

Lemma entryOf_complete (key : string) (p : PluginManager.ExtendedComponentPlugin) :
  PluginManager.structurallyComplete p ->
  exists entry, entryOf key p = Some entry /\
    Some (entryComponent entry) = PluginManager.component p /\
    entryIsPlugin entry = true /\
    entryToolDefinition entry = PluginManager.toolDefinition p.
Proof.
  intros (_ & [c Hc] & (m & Hm & _) & [v Hv]).
  unfold entryOf. rewrite Hc, Hm, Hv. simpl. eexists. split; [reflexivity |]. auto.
Qed.

Lemma registerComponent_accepted (p : PluginManager.ExtendedComponentPlugin)
    (key : string) (s : State) :
  PluginManager.structurallyComplete p -> PluginManager.id p = Js.Str key ->
  ComponentConfigManager.allowCustomComponents
    (ComponentConfigManager.globalConfig (configManager s)) = true ->
  exists entry,
    entryOf key p = Some entry /\
    success (registerComponent p s).1 = true /\
    errors (registerComponent p s).1 = [] /\
    (registerComponent p s).2 =
      {| pluginManager := (PluginManager.registerPlugin p (pluginManager s)).2;
         configManager := configManager s;
         customComponents := <[key := entry]> (customComponents s) |} /\
    PluginManager.plugins (PluginManager.registerPlugin p (pluginManager s)).2 !! key = Some p.
Proof.
  intros Hp Hid Hallow.
  destruct (entryOf_complete key p Hp) as (entry & He & _).
  exists entry. split; [exact He |].
  unfold registerComponent, ComponentConfigManager.getGlobalConfig. rewrite Hallow.
  cbn [negb].
  rewrite (registerPlugin_accepted p key (pluginManager s)
             (structurallyComplete_no_errors p Hp) Hid).
  cbn [fst snd PluginManager.success PluginManager.errors success errors
       PluginManager.plugins].
  rewrite Hid, He. repeat split. apply lookup_insert_eq.
Qed.

(** X25 (custom component round trip). A structurally complete plugin with
    an identifier that is not a core type, registered while custom
    components are allowed, is found by [getComponent] as a plugin, with the
    component it brought, and by [hasComponent]; its [isEnabled] is what
    [isComponentEnabled] answers. [unregisterComponent] then succeeds, after
    which the identifier is not found any more; the configuration manager is
    not touched by either call. *)
Theorem registerComponent_roundtrip (p : PluginManager.ExtendedComponentPlugin)
    (key : string) (s : State) :
  PluginManager.structurallyComplete p -> PluginManager.id p = Js.Str key ->
  isCoreComponent key = false ->
  ComponentConfigManager.allowCustomComponents
    (ComponentConfigManager.globalConfig (configManager s)) = true ->
  let r := (registerComponent p s).1 in
  let s' := (registerComponent p s).2 in
  success r = true /\ errors r = [] /\
  source (getComponent key s') = plugin /\
  component (getComponent key s') = PluginManager.component p /\
  isPlugin (getComponent key s') = true /\
  hasComponent key s' = true /\
  isEnabled (getComponent key s') = isComponentEnabled key s' /\
  (unregisterComponent key s').1 = true /\
  source (getComponent key (unregisterComponent key s').2) = not_found /\
  hasComponent key (unregisterComponent key s').2 = false /\
  configManager (unregisterComponent key s').2 = configManager s.
Proof.
  intros Hp Hid Hcore Hallow r s'. subst r s'.
  destruct (registerComponent_accepted p key s Hp Hid Hallow)
    as (entry & He & Hs & Herr & -> & Hpl).
  destruct (entryOf_complete key p Hp) as (entry' & He' & Hc & _).
  assert (entry' = entry) by congruence. subst entry'.
  split; [exact Hs |]. split; [exact Herr |].
  unfold getComponent, hasComponent, isComponentEnabled, unregisterComponent.
  rewrite Hcore. cbn [pluginManager configManager customComponents negb].
  rewrite lookup_insert_eq. cbn [source component isPlugin isEnabled].
  unfold PluginManager.unregisterPlugin. rewrite Hpl.
  cbn [fst snd pluginManager configManager customComponents].
  rewrite lookup_delete_eq. cbn [source].
  split; [reflexivity |]. split; [exact Hc |]. split; [reflexivity |].
  split; [apply bool_decide_eq_true; eauto |].
  split; [now destruct (ComponentConfigManager.isComponentDisabled key (configManager s)) |].
  split; [reflexivity |]. split; [reflexivity |].
  split; [apply bool_decide_eq_false; now intros [? ?] | reflexivity].
Qed.

Lemma isPluginEnabled_disablePlugin (id other : string) (pm : PluginManager.State) :
  PluginManager.isPluginEnabled other (PluginManager.disablePlugin id pm).2 =
    if decide (id = other) then false else PluginManager.isPluginEnabled other pm.
Proof.
  unfold PluginManager.isPluginEnabled, PluginManager.disablePlugin.
  rewrite updatePluginConfig_configs.
  destruct (decide (id = other)) as [->|]; [| reflexivity].
  now destruct (PluginManager.configs pm !! other).
Qed.

Lemma disableComponent_parts (id : string) (s : State) :
  customComponents (disableComponent id s) = customComponents s /\
  configManager (disableComponent id s)
    = ComponentConfigManager.disableComponent id (configManager s) /\
  pluginManager (disableComponent id s)
    = if isCoreComponent id then pluginManager s
      else (PluginManager.disablePlugin id (pluginManager s)).2.
Proof. unfold disableComponent. now destruct (isCoreComponent id). Qed.

(** X26 (disabling in the registry). For an identifier the registry knows,
    [isComponentEnabled] and the [isEnabled] of [getComponent] agree.
    [disableComponent] makes both false for the identifier and changes
    neither for any other; it removes nothing: every identifier is found as
    before, from the same source and with the same component. *)
Theorem disableComponent_registry_effect (id : string) (s : State) :
  (source (getComponent id s) <> not_found ->
     isEnabled (getComponent id s) = isComponentEnabled id s) /\
  isComponentEnabled id (disableComponent id s) = false /\
  isEnabled (getComponent id (disableComponent id s)) = false /\
  (forall other, other <> id ->
     isComponentEnabled other (disableComponent id s) = isComponentEnabled other s /\
     isEnabled (getComponent other (disableComponent id s))
       = isEnabled (getComponent other s)) /\
  (forall x,
     source (getComponent x (disableComponent id s)) = source (getComponent x s) /\
     component (getComponent x (disableComponent id s)) = component (getComponent x s) /\
     hasComponent x (disableComponent id s) = hasComponent x s).
Proof.
  destruct (disableComponent_parts id s) as (Hc & Hcm & Hpm).
  split; [| split; [| split; [| split]]].
  - unfold getComponent, isComponentEnabled.
    destruct (isCoreComponent id); cbn [negb isEnabled source].
    + intros _. now destruct (ComponentConfigManager.isComponentDisabled id _).
    + destruct (customComponents s !! id); cbn [isEnabled source]; [| congruence].
      intros _. now destruct (ComponentConfigManager.isComponentDisabled id _).
  - unfold isComponentEnabled. rewrite Hcm, disableComponent_disabled. reflexivity.
  - unfold getComponent. rewrite Hcm, Hc, disableComponent_disabled.
    destruct (isCoreComponent id); [reflexivity |].
    now destruct (customComponents s !! id).
  - intros other Hne. unfold isComponentEnabled, getComponent.
    rewrite Hcm, Hc, Hpm, disableComponent_other by exact Hne.
    assert (Hpe : PluginManager.isPluginEnabled other
                    (if isCoreComponent id then pluginManager s
                     else (PluginManager.disablePlugin id (pluginManager s)).2)
                  = PluginManager.isPluginEnabled other (pluginManager s)).
    { destruct (isCoreComponent id); [reflexivity |].
      rewrite isPluginEnabled_disablePlugin. now rewrite decide_False by congruence. }
    rewrite Hpe. split; [reflexivity |].
    destruct (isCoreComponent other); [reflexivity |].
    now destruct (customComponents s !! other).
  - intros x. unfold getComponent, hasComponent. rewrite Hc.
    destruct (isCoreComponent x); [now repeat split |].
    now destruct (customComponents s !! x).
Qed.

Lemma coreEntries_lookup (disabled : string -> bool) (l : list string)
    (acc : gmap string ExtendedRegistryEntry) (id : string) :
  foldl (fun result type =>
           if negb (disabled type)
           then match coreEntry type with
                | Some entry => <[type := entry]> result
                | None => result
                end
           else result) acc l !! id =
    if Js.array_includes l id && negb (disabled id)
    then match coreEntry id with Some e => Some e | None => acc !! id end
    else acc !! id.
Proof.
  revert acc. induction l as [|t l IH]; intros acc; [reflexivity |].
  cbn [foldl]. rewrite IH. unfold Js.array_includes. cbn [existsb].
  fold (Js.array_includes l id).
  destruct (String.eqb_spec id t) as [->|Hne]; cbn [orb].
  - destruct (disabled t); cbn [negb andb]; rewrite ?andb_false_r; [reflexivity |].
    destruct (coreEntry t) as [e|] eqn:E.
    + rewrite lookup_insert_eq. now destruct (Js.array_includes l t).
    + now destruct (Js.array_includes l t).
  - assert (Hl : (if negb (disabled t)
                  then match coreEntry t with
                       | Some entry => <[t := entry]> acc
                       | None => acc
                       end
                  else acc) !! id = acc !! id).
    { destruct (negb (disabled t)); [| reflexivity].
      destruct (coreEntry t); [| reflexivity].
      apply lookup_insert_ne. congruence. }
    now rewrite Hl.
Qed.

Lemma coreEntry_core (id : string) :
  isCoreComponent id = true -> exists e, coreEntry id = Some e /\ entryIsPlugin e = false.
Proof.
  intros H. destruct (core_getComponent id H) as (c & m & _ & Hc & Hm & _).
  unfold coreEntry. rewrite Hc, Hm. simpl. eauto.
Qed.

Lemma getAllComponents_lookup (id : string) (s : State) :
  getAllComponents s !! id =
    match customComponents s !! id with
    | Some e =>
        if negb (ComponentConfigManager.isComponentDisabled id (configManager s)) &&
           PluginManager.isPluginEnabled id (pluginManager s)
        then Some e
        else if isCoreComponent id &&
                negb (ComponentConfigManager.isComponentDisabled id (configManager s))
             then coreEntry id else None
    | None =>
        if isCoreComponent id &&
           negb (ComponentConfigManager.isComponentDisabled id (configManager s))
        then coreEntry id else None
    end.
Proof.
  unfold getAllComponents. rewrite lookup_union, coreEntries_lookup, lookup_empty.
  fold (isCoreComponent id).
  assert (Hcore : (if isCoreComponent id &&
                      negb (ComponentConfigManager.isComponentDisabled id (configManager s))
                   then match coreEntry id with Some e => Some e | None => None end
                   else None)
                  = if isCoreComponent id &&
                       negb (ComponentConfigManager.isComponentDisabled id (configManager s))
                    then coreEntry id else None).
  { destruct (_ && _); [| reflexivity]. now destruct (coreEntry id). }
  rewrite Hcore. clear Hcore.
  destruct (customComponents s !! id) as [e|] eqn:E.
  - destruct (ComponentConfigManager.isComponentDisabled id (configManager s)) eqn:D;
      [| destruct (PluginManager.isPluginEnabled id (pluginManager s)) eqn:P];
      cbn [negb andb].
    + rewrite map_lookup_filter_None_2; [now rewrite (left_id_L None (∪)) |].
      right. intros e' _ [? _]. congruence.
    + erewrite map_lookup_filter_Some_2; [| exact E | now split].
      destruct (isCoreComponent id); cbn [andb]; [destruct (coreEntry id) |]; reflexivity.
    + rewrite map_lookup_filter_None_2; [now rewrite (left_id_L None (∪)) |].
      right. intros e' _ [_ ?]. congruence.
  - rewrite map_lookup_filter_None_2 by now left.
    now rewrite (left_id_L None (∪)).
Qed.

(** X27 (listing of components). What [getAllComponents] lists. Nothing it
    lists is disabled in the configuration; a core type that is not disabled
    is always listed; an identifier that is not a core type is listed
    exactly when [getComponent] finds it as a plugin that is enabled. Where
    a custom entry is stored under an identifier and enabled, it is the
    entry listed for that identifier, also for the identifier of a core
    type; where none is stored, the entry of an enabled core type is the one
    built from the core tables. *)
Theorem getAllComponents_exact (id : string) (s : State) :
  (is_Some (getAllComponents s !! id) ->
     ComponentConfigManager.isComponentDisabled id (configManager s) = false) /\
  (isCoreComponent id = true ->
     ComponentConfigManager.isComponentDisabled id (configManager s) = false ->
     is_Some (getAllComponents s !! id)) /\
  (isCoreComponent id = false ->
     (is_Some (getAllComponents s !! id) <->
      source (getComponent id s) = plugin /\ isEnabled (getComponent id s) = true)) /\
  (forall e, customComponents s !! id = Some e ->
     ComponentConfigManager.isComponentDisabled id (configManager s) = false ->
     PluginManager.isPluginEnabled id (pluginManager s) = true ->
     getAllComponents s !! id = Some e) /\
  (customComponents s !! id = None -> isCoreComponent id = true ->
     ComponentConfigManager.isComponentDisabled id (configManager s) = false ->
     getAllComponents s !! id = coreEntry id /\
     entryIsPlugin <$> getAllComponents s !! id = Some false).
Proof.
  rewrite getAllComponents_lookup. unfold getComponent.
  split; [| split; [| split; [| split]]].
  - destruct (ComponentConfigManager.isComponentDisabled id (configManager s));
      [| reflexivity].
    cbn [negb andb]. rewrite andb_false_r.
    destruct (customComponents s !! id); intros [? ?]; discriminate.
  - intros Hc Hd. rewrite Hc, Hd. cbn [negb andb].
    destruct (coreEntry_core id Hc) as (e & -> & _).
    destruct (customComponents s !! id); [| eauto].
    destruct (PluginManager.isPluginEnabled id (pluginManager s)); eauto.
  - intros Hc. rewrite Hc. cbn [andb].
    destruct (customComponents s !! id) as [e|]; cbn [source isEnabled].
    + destruct (_ && _).
      * split; [auto | eauto].
      * split; [intros [? ?]; discriminate | intros [_ ?]; discriminate].
    + split; [intros [? ?]; discriminate | intros [? _]; discriminate].
  - intros e -> Hd Hp. now rewrite Hd, Hp.
  - intros -> Hc Hd. rewrite Hc, Hd. cbn [negb andb].
    destruct (coreEntry_core id Hc) as (e & -> & He). simpl. now rewrite He.
Qed.

Lemma array_includes_cons (x : string) (v : list string) (y : string) :
  Js.array_includes (x :: v) y = String.eqb y x || Js.array_includes v y.
Proof. reflexivity. Qed.

Lemma filter_mem_cons (x : string) (v l : list string) :
  NoDup l -> ~ In x v ->
  length (List.filter (Js.array_includes (x :: v)) l) =
    (if Js.array_includes l x then 1 else 0) + length (List.filter (Js.array_includes v) l).
Proof.
  intros N Hx. induction l as [|y l IH]; [reflexivity |].
  apply NoDup_cons in N as [Hy N]. rewrite list_elem_of_In in Hy.
  specialize (IH N). cbn [List.filter].
  rewrite (array_includes_cons x v y), (array_includes_cons y l x).
  destruct (String.eqb_spec y x) as [->|Hne]; cbn [orb].
  - rewrite String.eqb_refl. cbn [orb].
    assert (Hv : Js.array_includes v x = false)
      by (apply not_true_is_false; now rewrite array_includes_In).
    assert (Hl : Js.array_includes l x = false)
      by (apply not_true_is_false; now rewrite array_includes_In).
    rewrite Hv. rewrite Hl in IH. cbn [length]. lia.
  - destruct (String.eqb_spec x y) as [->|_]; [congruence |]. cbn [orb].
    destruct (Js.array_includes v y); cbn [length]; lia.
Qed.

Lemma filter_mem_swap (v l : list string) :
  NoDup l -> NoDup v ->
  length (List.filter (Js.array_includes v) l)
  + length (List.filter (fun x => negb (Js.array_includes l x)) v) = length v.
Proof.
  intros Nl Nv. induction v as [|x v IH].
  - cbn [List.filter length].
    assert (H : List.filter (Js.array_includes []) l = []).
    { clear. induction l; [reflexivity | exact IHl]. }
    now rewrite H.
  - apply NoDup_cons in Nv as [Hx Nv]. rewrite list_elem_of_In in Hx.
    rewrite (filter_mem_cons x v l Nl Hx). specialize (IH Nv).
    cbn [List.filter]. destruct (Js.array_includes l x); cbn [negb length]; lia.
Qed.

Lemma values_NoDup : NoDup ComponentType.values.
Proof.
  unfold ComponentType.values.
  repeat (apply NoDup_cons; split;
          [rewrite list_elem_of_In; simpl; intuition discriminate |]).
  apply NoDup_nil. constructor.
Qed.

(** X28 (component count). The numbers of [getComponentCount] add up when
    the list of disabled identifiers has no repetition, as
    [disableComponent] keeps it: there are seven core components, the total
    is the core components and the plugins, and the enabled ones are the
    core types that are not disabled and the enabled plugins, between none
    and all. *)
Theorem getComponentCount_consistent (s : State) :
  NoDup (ComponentConfigManager.getDisabledComponents (configManager s)) ->
  coreCount (getComponentCount s) = 7%Z /\
  pluginCount (getComponentCount s)
    = Z.of_nat (PluginManager.getPluginCount (pluginManager s)) /\
  total (getComponentCount s)
    = (coreCount (getComponentCount s) + pluginCount (getComponentCount s))%Z /\
  enabledCount (getComponentCount s)
    = (Z.of_nat (length (ComponentConfigManager.getEnabledCoreComponents (configManager s)))
       + Z.of_nat (PluginManager.getEnabledPluginCount (pluginManager s)))%Z /\
  (0 <= enabledCount (getComponentCount s) <= total (getComponentCount s))%Z.
Proof.
  intros N.
  pose proof (filter_mem_swap ComponentType.values _ N values_NoDup) as H.
  assert (Hlen : length ComponentType.values = 7) by reflexivity.
  assert (Hen : PluginManager.getEnabledPluginCount (pluginManager s)
                <= PluginManager.getPluginCount (pluginManager s)).
  { unfold PluginManager.getEnabledPluginCount, PluginManager.getEnabledPlugins,
      PluginManager.getPluginCount.
    rewrite <- (length_map_to_list (PluginManager.plugins (pluginManager s))).
    apply filter_length_le. }
  unfold getComponentCount. cbn [coreCount pluginCount total enabledCount].
  unfold ComponentConfigManager.getEnabledCoreComponents,
    ComponentConfigManager.isComponentDisabled.
  fold (ComponentConfigManager.getDisabledComponents (configManager s)).
  unfold isCoreComponent at 1 2.
  change (fun id => Js.array_includes ComponentType.values id)
    with (Js.array_includes ComponentType.values).
  rewrite Hlen in *.
  repeat split; try reflexivity; lia.
Qed.

End ExtensibleRegistryMore.

(** The gallery registered in a fresh registry is found as a plugin, and
    is gone after it is unregistered. *)
Lemma registerComponent_roundtrip_witness :
  let p := galleryPlugin (Js.Str "tool_custom_gallery") in
  let s' := (@ExtensibleComponentRegistry.registerComponent Js.exampleRuntime p
               ExtensibleComponentRegistry.init).2 in
  ExtensibleComponentRegistry.source
    (@ExtensibleComponentRegistry.getComponent Js.exampleRuntime "tool_custom_gallery" s')
    = ExtensibleComponentRegistry.plugin /\
  ExtensibleComponentRegistry.source
    (@ExtensibleComponentRegistry.getComponent Js.exampleRuntime "tool_custom_gallery"
       (ExtensibleComponentRegistry.unregisterComponent "tool_custom_gallery" s').2)
    = ExtensibleComponentRegistry.not_found.
Proof.
  intros p s'.
  destruct (@registerComponent_roundtrip Js.exampleRuntime p "tool_custom_gallery"
              ExtensibleComponentRegistry.init)
    as (_ & _ & Hs & _ & _ & _ & _ & _ & Hn & _).
  - apply galleryPlugin_complete. discriminate.
  - reflexivity.
  - reflexivity.
  - reflexivity.
  - split; [exact Hs | exact Hn].
Defined.

(** A fresh registry counts the seven core components, all enabled. *)
Lemma getComponentCount_consistent_witness :
  ExtensibleComponentRegistry.enabledCount
    (ExtensibleComponentRegistry.getComponentCount ExtensibleComponentRegistry.init) = 7%Z /\
  ExtensibleComponentRegistry.total
    (ExtensibleComponentRegistry.getComponentCount ExtensibleComponentRegistry.init) = 7%Z.
Proof.
  destruct (getComponentCount_consistent ExtensibleComponentRegistry.init)
    as (Hc & Hp & Ht & He & _).
  - constructor.
  - split; [rewrite He; reflexivity | rewrite Ht, Hc, Hp; reflexivity].
Defined.

(** ** The renderer *)

Section RendererMore.
Import PortfolioRenderer.
Context {rt : Js.Runtime}.

Lemma prop_insert (key key' : string) (v : Js.Value) (m : Props) :
  prop (<[key := v]> m) key' = if decide (key = key') then v else prop m key'.
Proof.
  unfold prop. rewrite lookup_insert. now destruct (decide (key = key')).
Qed.

Lemma nullish_present (a b : Js.Value) :
  a <> Js.Undefined -> a <> Js.Null -> nullish a b = a.
Proof. destruct a; simpl; congruence. Qed.

Lemma nullish_insert (key key' : string) (d : Js.Value) (m : Props) :
  prop m key' <> Js.Undefined -> prop m key' <> Js.Null ->
  prop (<[key := nullish (prop m key) d]> m) key' = prop m key'.
Proof.
  intros H1 H2. rewrite prop_insert. destruct (decide (key = key')) as [->|]; [| reflexivity].
  now apply nullish_present.
Qed.

(** X29 (prepared props). [prepareComponentProps] fills in, it does not
    overwrite: a prop that the configuration gives with a value other than
    undefined and null reaches the component with that value, whatever the
    profile holds. The props of a type that is not a core type are passed as
    they are; no [commands] are ever supplied from the profile; and the
    [achievements] of the bento grid are never left undefined or null. *)
Theorem prepareComponentProps_fills_in (ref : nat) (config : ComponentConfig)
    (profile : CandidateProfile) :
  (forall key,
     prop (props config) key <> Js.Undefined -> prop (props config) key <> Js.Null ->
     prop (prepareComponentProps ref config profile) key = prop (props config) key) /\
  (~ In (Types.type config) ComponentType.values ->
     prepareComponentProps ref config profile = props config) /\
  prop (prepareComponentProps ref config profile) "commands"
    = prop (props config) "commands" /\
  (Types.type config = ComponentType.STATS_BENTO ->
     prop (prepareComponentProps ref config profile) "achievements" <> Js.Undefined /\
     prop (prepareComponentProps ref config profile) "achievements" <> Js.Null).
Proof.
  split; [| split; [| split]].
  - intros key H1 H2. unfold prepareComponentProps.
    repeat match goal with
           | |- context [if ?b then _ else _] => destruct b
           end;
      rewrite ?prop_insert;
      repeat match goal with
             | |- context [decide (?a = key)] =>
                 destruct (decide (a = key)) as [<-|]
             end;
      try reflexivity;
      repeat match goal with
             | |- context [nullish (prop (props config) ?k) ?d] =>
                 rewrite (nullish_present (prop (props config) k) d) by assumption
             end;
      reflexivity.
  - intros Hn. unfold prepareComponentProps.
    repeat match goal with
           | |- context [String.eqb ?a ?b] =>
               destruct (String.eqb_spec a b) as [E|_];
               [exfalso; apply Hn; rewrite E; simpl; tauto |]
           end.
    reflexivity.
  - unfold prepareComponentProps.
    repeat match goal with
           | |- context [if ?b then _ else _] => destruct b
           end; rewrite ?prop_insert; reflexivity.
  - intros E.
    assert (Hp : prepareComponentProps ref config profile =
                 <["achievements" :=
                     nullish (nullish (prop (props config) "achievements")
                                      (achievements profile))
                             (emptyArray ref)]> (props config))
      by (unfold prepareComponentProps; rewrite E; reflexivity).
    rewrite Hp, prop_insert. cbn [decide].
    destruct (nullish (prop (props config) "achievements") (achievements profile));
      simpl; split; discriminate.
Qed.

(** X30 (validation of prepared props). For a configuration that brings no
    props of its own and a profile with a name and a title that are
    non-empty strings, arrays of experience and of skills, and achievements
    that are an array or missing: the props prepared for any core type pass
    the validation of that type, except for the terminal hero, whose
    [commands] nothing supplies. *)
Theorem prepared_props_validate (ref : nat) (config : ComponentConfig)
    (profile : CandidateProfile) :
  In (Types.type config) ComponentType.values ->
  props config = ∅ ->
  (exists s, name profile = Js.Str s /\ s <> "") ->
  (exists s, title profile = Js.Str s /\ s <> "") ->
  Js.isArray (experience profile) = true ->
  Js.isArray (skills profile) = true ->
  Js.isArray (achievements profile) = true \/ achievements profile = Js.Null \/
    achievements profile = Js.Undefined ->
  valid (ComponentRegistry.validateProps (Types.type config)
           (prepareComponentProps ref config profile))
  = negb (String.eqb (Types.type config) ComponentType.HERO_TERMINAL).
Proof.
  intros Hin Hprops (n & Hn & Hn') (t & Ht & Ht') He Hs Ha.
  apply String.eqb_neq in Hn', Ht'.
  assert (Hu : forall key, prop (props config) key = Js.Undefined).
  { intros key. rewrite Hprops. unfold prop. now rewrite lookup_empty. }
  assert (Hlist : forall type key missing empty few props,
            ComponentRegistry.propValidators !! type
              = Some (ComponentRegistry.validateList key missing empty few) ->
            ComponentRegistry.isValidComponentType type = true ->
            Js.isArray (prop props key) = true ->
            valid (ComponentRegistry.validateProps type props) = true).
  { intros type key missing empty few props Hv Hc Harr.
    rewrite (validateProps_core type props _ Hc Hv).
    now rewrite validateList_valid. }
  unfold prepareComponentProps. rewrite !Hu. cbn [nullish].
  simpl in Hin.
  destruct Hin as [<- | [<- | [<- | [<- | [<- | [<- | [<- | []]]]]]]];
    cbn [String.eqb orb negb Ascii.eqb Bool.eqb ComponentType.HERO_PRISM
         ComponentType.HERO_TERMINAL ComponentType.EXP_TIMELINE ComponentType.EXP_MASONRY
         ComponentType.SKILLS_DOTS ComponentType.SKILLS_RADAR ComponentType.STATS_BENTO].
  - rewrite (validateProps_core ComponentType.HERO_PRISM _
               ComponentRegistry.validateHeroPrism eq_refl eq_refl).
    unfold ComponentRegistry.validateHeroPrism, ComponentRegistry.result,
      ComponentRegistry.pushIf, ComponentRegistry.notAString.
    rewrite !prop_insert. cbn [decide]. rewrite Hn, Ht. simpl. now rewrite Hn', Ht'.
  - rewrite (validateProps_core ComponentType.HERO_TERMINAL _
               ComponentRegistry.validateHeroTerminal eq_refl eq_refl).
    unfold ComponentRegistry.validateHeroTerminal, ComponentRegistry.result,
      ComponentRegistry.pushIf, ComponentRegistry.notAString, ComponentRegistry.notAnArray.
    rewrite !prop_insert. cbn [decide]. rewrite Hn, Ht, Hu. simpl. now rewrite Hn', Ht'.
  - eapply Hlist; [reflexivity | reflexivity |]. rewrite !prop_insert. exact He.
  - eapply Hlist; [reflexivity | reflexivity |]. rewrite !prop_insert. exact He.
  - eapply Hlist; [reflexivity | reflexivity |]. rewrite !prop_insert. exact Hs.
  - eapply Hlist; [reflexivity | reflexivity |]. rewrite !prop_insert. exact Hs.
  - eapply Hlist; [reflexivity | reflexivity |]. rewrite !prop_insert. cbn [decide].
    destruct Ha as [Ha | [-> | ->]]; [| reflexivity | reflexivity].
    now destruct (achievements profile).
Qed.

End RendererMore.

(** With the example profile, the bare radar validates and the bare
    terminal hero does not. *)
Lemma prepared_props_validate_witness :
  valid (@ComponentRegistry.validateProps Js.exampleRuntime ComponentType.SKILLS_RADAR
           (PortfolioRenderer.prepareComponentProps 0 (bare ComponentType.SKILLS_RADAR)
              adaProfile)) = true /\
  valid (@ComponentRegistry.validateProps Js.exampleRuntime ComponentType.HERO_TERMINAL
           (PortfolioRenderer.prepareComponentProps 0 (bare ComponentType.HERO_TERMINAL)
              adaProfile)) = false.
Proof.
  assert (H : forall type, In type ComponentType.values ->
            valid (@ComponentRegistry.validateProps Js.exampleRuntime type
                     (PortfolioRenderer.prepareComponentProps 0 (bare type) adaProfile))
            = negb (String.eqb type ComponentType.HERO_TERMINAL)).
  { intros type Hin.
    apply (@prepared_props_validate Js.exampleRuntime 0 (bare type) adaProfile).
    - exact Hin.
    - reflexivity.
    - exists "Ada". split; [reflexivity | discriminate].
    - exists "Engineer". split; [reflexivity | discriminate].
    - reflexivity.
    - reflexivity.
    - right. right. reflexivity. }
  split; [apply (H ComponentType.SKILLS_RADAR) | apply (H ComponentType.HERO_TERMINAL)];
    simpl; auto 10.
Defined.
